(** * mcp-server: the stdio dispatcher, its configuration and its start-up

    A shallow embedding of the Go sources [config/config.go], the Jira
    client constructor, [server/server.go] and [main.go], with the
    properties of the natural-language specification stated over it.

    Conventions of the embedding
    - a Go [string] is a [string] (a sequence of bytes);
    - a Go [error] value is represented by its message;
    - a Go [map[string]T] is a [gmap string T], the index expression [m[k]]
      of a missing key gives the zero value of [T];
    - an [interface{}] is the inductive type [value] of the dynamic values
      the program stores in it;
    - functions that talk to the outside world thread that world
      explicitly;
    - of the libraries, the functions the properties turn on are modelled
      ([strings.TrimSpace], the decoding of a request by [encoding/json],
      [encoding/base64]); the others are parameters of the sections that
      use them. *)

From Stdlib Require Import ZArith String Ascii List Bool.
From Stdlib Require Import Floats.SpecFloat.
From stdpp Require Import base option gmap strings list fin_maps pretty.

Set Warnings "-register-all".
#[local] Open Scope string_scope.
#[local] Open Scope Z_scope.

(** Go's [error] interface, by the text [Error()] returns. *)
Definition error : Type := string.

(** [s == ""] and [s != ""] on Go strings. *)
Definition isEmpty (s : string) : bool := String.eqb s "".

(* ================================================================== *)
(** * Package [config] *)
(* ================================================================== *)

Module config.

(** [type Config struct], five credential fields. *)
Record Config : Type := mkConfig {
  NotionToken : string;
  GithubToken : string;
  JiraToken : string;
  JiraURL : string;
  JiraUsername : string;
}.

(** [var cfg Config]: every field is the empty string. *)
Definition zeroConfig : Config := mkConfig "" "" "" "" "".

(** The process environment; [os.Getenv] gives [""] for an unset name. *)
Definition Getenv (env : gmap string string) (name : string) : string :=
  default "" (env !! name).

(** What [yaml.Unmarshal] (gopkg.in/yaml.v3, outside the repository) makes
    of the bytes of a file: an error, or the scalar entries of the top-level
    mapping, by key.  A key whose value is null counts as missing, as the
    decoder leaves a string field untouched for it. *)
Inductive yamlDoc : Type :=
  | YamlError (e : error)
  | YamlMapping (entries : gmap string string).

(** The files [os.ReadFile] can read, by path, each with its YAML reading;
    a path outside the map gives a read error. *)
Definition ReadFile (fs : gmap string yamlDoc) (path : string) : option yamlDoc :=
  fs !! path.

(** Decoding into a struct field with a [yaml:"tag"]: the field is
    overwritten when the document has the key and kept otherwise. *)
Definition yamlField (entries : gmap string string) (tag old : string) : string :=
  default old (entries !! tag).

(** [yaml.Unmarshal(data, &cfg)] for the struct tags of [Config]. *)
Definition yamlUnmarshal (data : yamlDoc) (cfg : Config) : Config + error :=
  match data with
  | YamlError e => inr e
  | YamlMapping m =>
      inl {| NotionToken := yamlField m "notion_token" (NotionToken cfg);
             GithubToken := yamlField m "github_token" (GithubToken cfg);
             JiraToken := yamlField m "jira_token" (JiraToken cfg);
             JiraURL := yamlField m "jira_url" (JiraURL cfg);
             JiraUsername := yamlField m "jira_username" (JiraUsername cfg) |}
  end.

(** One [if data, err := os.ReadFile(p); err == nil { ... }] block: an
    unreadable file is skipped, a readable one must decode. *)
Definition loadLayer (fs : gmap string yamlDoc) (path : string) (cfg : Config)
  : Config + error :=
  match ReadFile fs path with
  | Some data => yamlUnmarshal data cfg
  | None => inl cfg
  end.

(** [if v := os.Getenv(name); v != "" { field = v }]. *)
Definition envOverride (env : gmap string string) (name old : string) : string :=
  let v := Getenv env name in
  if negb (isEmpty v) then v else old.

(** [func LoadConfig(configPath string)], returning the configuration or
    an error. *)
Definition LoadConfig (fs : gmap string yamlDoc) (env : gmap string string)
    (configPath : string) : Config + error :=
  let cfg := zeroConfig in
  (* First, load from the main config file *)
  match loadLayer fs configPath cfg with
  | inr err => inr err
  | inl cfg =>
      (* Second, try to load from local.yml (overrides config.yml) *)
      let localPath := "local.yml" in
      match loadLayer fs localPath cfg with
      | inr err => inr err
      | inl cfg =>
          (* Third, override with environment variables *)
          inl {| NotionToken := envOverride env "NOTION_TOKEN" (NotionToken cfg);
                 GithubToken := envOverride env "GITHUB_TOKEN" (GithubToken cfg);
                 JiraToken := envOverride env "JIRA_TOKEN" (JiraToken cfg);
                 JiraURL := envOverride env "JIRA_URL" (JiraURL cfg);
                 JiraUsername := envOverride env "JIRA_USERNAME" (JiraUsername cfg) |}
      end
  end.

(** The five credential fields, with the YAML key and the environment
    variable each is read from. *)
Inductive field : Type :=
  | FNotionToken | FGithubToken | FJiraToken | FJiraURL | FJiraUsername.

Definition fieldOf (f : field) (cfg : Config) : string :=
  match f with
  | FNotionToken => NotionToken cfg
  | FGithubToken => GithubToken cfg
  | FJiraToken => JiraToken cfg
  | FJiraURL => JiraURL cfg
  | FJiraUsername => JiraUsername cfg
  end.

Definition yamlTag (f : field) : string :=
  match f with
  | FNotionToken => "notion_token"
  | FGithubToken => "github_token"
  | FJiraToken => "jira_token"
  | FJiraURL => "jira_url"
  | FJiraUsername => "jira_username"
  end.

Definition envVar (f : field) : string :=
  match f with
  | FNotionToken => "NOTION_TOKEN"
  | FGithubToken => "GITHUB_TOKEN"
  | FJiraToken => "JIRA_TOKEN"
  | FJiraURL => "JIRA_URL"
  | FJiraUsername => "JIRA_USERNAME"
  end.

(** The value a file layer gives a field, if the file is readable and
    defines it. *)
Definition layerValue (fs : gmap string yamlDoc) (path : string) (f : field)
  : option string :=
  match ReadFile fs path with
  | Some (YamlMapping m) => m !! yamlTag f
  | _ => None
  end.

(** A file layer is usable when the file is missing or decodes. *)
Definition layerUsable (fs : gmap string yamlDoc) (path : string) : Prop :=
  forall e, ReadFile fs path <> Some (YamlError e).

(** The layered value of a field: environment, then local.yml, then the
    base file, then the empty string. *)
Definition layered (fs : gmap string yamlDoc) (env : gmap string string)
    (configPath : string) (f : field) : string :=
  if negb (isEmpty (Getenv env (envVar f))) then Getenv env (envVar f)
  else match layerValue fs "local.yml" f with
       | Some v => v
       | None => default "" (layerValue fs configPath f)
       end.

End config.

(* ================================================================== *)
(** * Go run-time notions shared by the packages below *)
(* ================================================================== *)

(** A call either returns or stops the goroutine with a run-time panic. *)
Inductive outcome (A : Type) : Type :=
  | Returned (a : A)
  | Panicked (msg : string).
Arguments Returned {A} a.
Arguments Panicked {A} msg.

(** [len(s)], a number of bytes. *)
Definition len (s : string) : Z := Z.of_nat (String.length s).

(** The index expression [s[i]] on a string: [None] stands for the
    run-time panic "index out of range". *)
Definition byteAt (s : string) (i : Z) : option ascii :=
  if (i <? 0) || (len s <=? i) then None else String.get (Z.to_nat i) s.

(** A [float64], as the IEEE 754 datum it holds. *)
Definition float64 : Type := spec_float.

(** The conversion [int(f)] on a 64-bit platform: the fraction is dropped
    (rounding towards zero).  The language leaves the result open when the
    value does not fit in an [int]; the value given then is the one amd64
    produces. *)
Definition int (f : float64) : Z :=
  match f with
  | S754_zero _ => 0
  | S754_finite sign m e =>
      let magnitude := if 0 <=? e then Z.pos m * 2 ^ e else Z.pos m / 2 ^ (- e) in
      let z := if sign then - magnitude else magnitude in
      if (- 2 ^ 63 <=? z) && (z <? 2 ^ 63) then z else - 2 ^ 63
  | S754_infinity _ | S754_nan => - 2 ^ 63
  end.

(** The dynamic values held by the [interface{}] fields of the program:
    what [encoding/json] decodes a JSON text into ([nil], [bool],
    [float64], [string], [[]interface{}], [map[string]interface{}]), and
    the [[]string] of the schema literals. *)
Inductive value : Type :=
  | VNil
  | VBool (b : bool)
  | VFloat64 (f : float64)
  | VString (s : string)
  | VStrings (l : list string)
  | VSlice (l : list value)
  | VMap (m : gmap string value).

(** [m[k]] on a [map[string]interface{}]: the nil interface for a missing
    key. *)
Definition mapIndex (m : gmap string value) (k : string) : value :=
  default VNil (m !! k).

(** The comma-ok type assertions [v.(T)]: the value and [true] when the
    dynamic type is [T], the zero value of [T] and [false] otherwise. *)
Definition assertString (v : value) : string * bool :=
  match v with VString s => (s, true) | _ => ("", false) end.

Definition assertFloat64 (v : value) : float64 * bool :=
  match v with VFloat64 f => (f, true) | _ => (S754_zero false, false) end.

Definition assertBool (v : value) : bool * bool :=
  match v with VBool b => (b, true) | _ => (false, false) end.

Definition assertSlice (v : value) : list value * bool :=
  match v with VSlice l => (l, true) | _ => ([], false) end.

Definition assertMap (v : value) : gmap string value * bool :=
  match v with VMap m => (m, true) | _ => (∅, false) end.

(** A call of a service client: a (text, error) result, and whatever the
    call did to the outside world. *)
Definition remote (World : Type) : Type :=
  World -> (string * option error) * World.

(* ================================================================== *)
(** * Package [tools] *)
(* ================================================================== *)

Module tools.

(** The interfaces [GithubTool], [JiraTool] and [NotionTool]: each method
    is a plain synchronous call with string, int, bool or [[]string]
    arguments and a (text, error) result.  The records hold the methods
    [executeTool] calls; [GithubTool] also declares [RunFailedJobs],
    [CreateCommit] and [Push], which the server never calls. *)
Record GithubTool (World : Type) : Type := {
  GetPullRequest : string -> string -> Z -> remote World;
  GetPullRequestDiff : string -> string -> Z -> remote World;
  CreateIssue : string -> string -> string -> string -> remote World;
  CreatePullRequest :
    string -> string -> string -> string -> string -> string -> remote World;
  GetIssue : string -> string -> Z -> remote World;
  ListBranches : string -> string -> remote World;
  ListCommits : string -> string -> remote World;
  SearchRepositories : string -> remote World;
  SearchIssues : string -> remote World;
  GetWorkflows : string -> string -> remote World;
  RunWorkflow : string -> string -> string -> string -> remote World;
  AddComment : string -> string -> Z -> string -> remote World;
  GetComments : string -> string -> Z -> remote World;
  AssignCopilot : string -> string -> Z -> list string -> remote World;
  CreateBranch : string -> string -> string -> string -> remote World;
  CreateRepository : string -> string -> bool -> remote World;
  GetCommit : string -> string -> string -> remote World;
  GetReleaseByTag : string -> string -> string -> remote World;
  GetTag : string -> string -> string -> remote World;
  SearchCode : string -> remote World;
  SearchPullRequests : string -> remote World;
}.

Record JiraTool (World : Type) : Type := {
  GetTicketByID : string -> remote World;
  SearchTickets : string -> remote World;
  CreateTicket : string -> string -> string -> remote World;
}.

Record NotionTool (World : Type) : Type := {
  SearchPagesByTitle : string -> remote World;
  GetPageByURL : string -> remote World;
  GetDatabase : string -> remote World;
  CreatePage : string -> string -> string -> remote World;
  CreateDatabase : string -> string -> remote World;
  UpdatePage : string -> string -> string -> remote World;
  UpdateDatabase : string -> string -> remote World;
}.

Arguments GetPullRequest {World}.
Arguments GetPullRequestDiff {World}.
Arguments CreateIssue {World}.
Arguments CreatePullRequest {World}.
Arguments GetIssue {World}.
Arguments ListBranches {World}.
Arguments ListCommits {World}.
Arguments SearchRepositories {World}.
Arguments SearchIssues {World}.
Arguments GetWorkflows {World}.
Arguments RunWorkflow {World}.
Arguments AddComment {World}.
Arguments GetComments {World}.
Arguments AssignCopilot {World}.
Arguments CreateBranch {World}.
Arguments CreateRepository {World}.
Arguments GetCommit {World}.
Arguments GetReleaseByTag {World}.
Arguments GetTag {World}.
Arguments SearchCode {World}.
Arguments SearchPullRequests {World}.
Arguments GetTicketByID {World}.
Arguments SearchTickets {World}.
Arguments CreateTicket {World}.
Arguments SearchPagesByTitle {World}.
Arguments GetPageByURL {World}.
Arguments GetDatabase {World}.
Arguments CreatePage {World}.
Arguments CreateDatabase {World}.
Arguments UpdatePage {World}.
Arguments UpdateDatabase {World}.

End tools.

(* ================================================================== *)
(** * Packages [github], [jira] and [notion]: the constructors *)
(* ================================================================== *)

Module github.

(** [type GithubClient struct]: the SDK client, by the token it
    authenticates with. *)
Record GithubClient : Type := { authToken : string }.

(** [func NewGithubClient(token string)]: no check of the token. *)
Definition NewGithubClient (token : string) : GithubClient :=
  {| authToken := token |}.

End github.

Module notion.

Record NotionClient : Type := { apiToken : string }.

(** [func NewNotionClient(token string)]: no check of the token. *)
Definition NewNotionClient (token : string) : NotionClient :=
  {| apiToken := token |}.

End notion.

Module jira.

(** [type JiraClient struct]; the HTTP client is kept by its timeout, in
    seconds. *)
Record JiraClient : Type := {
  baseURL : string;
  username : string;
  token : string;
  httpTimeout : Z;
}.

(** [func NewJiraClient(jiraURL, username, token string)], returning the
    client or an error.  The index expression [jiraURL[len(jiraURL)-1]] is
    evaluated after the two checks. *)
Definition NewJiraClient (jiraURL username token : string)
  : outcome (JiraClient + error) :=
  if isEmpty username then
    Returned (inr "username/email is required for Jira authentication")
  else if isEmpty token then
    Returned (inr "API token is required for Jira authentication")
  else
    (* Ensure the URL ends with a slash *)
    match byteAt jiraURL (len jiraURL - 1) with
    | None => Panicked "runtime error: index out of range [-1]"
    | Some last =>
        let jiraURL :=
          if negb (Ascii.eqb last "/") then jiraURL +:+ "/" else jiraURL in
        Returned (inl {| baseURL := jiraURL;
                         username := username;
                         token := token;
                         httpTimeout := 30 |})
    end.

End jira.

(* ================================================================== *)
(** * Package [server] *)
(* ================================================================== *)

Module server.
Import tools.

(** ** [strings.TrimSpace] *)

(** [unicode.IsSpace] on the UTF-8 encoding of a rune, by its bytes:
    the six ASCII characters, U+0085 and U+00A0 on two bytes, and on three
    bytes U+1680, U+2000 to U+200A, U+2028, U+2029, U+202F, U+205F and
    U+3000. *)
Definition isSpace1 (a : N) : bool :=
  ((9 <=? a) && (a <=? 13) || (a =? 32))%N.

Definition isSpace2 (a b : N) : bool :=
  ((a =? 194) && ((b =? 133) || (b =? 160)))%N.

Definition isSpace3 (a b c : N) : bool :=
  ((a =? 225) && (b =? 154) && (c =? 128)
   || (a =? 226) && (b =? 128)
      && ((128 <=? c) && (c <=? 138) || (c =? 168) || (c =? 169) || (c =? 175))
   || (a =? 226) && (b =? 129) && (c =? 159)
   || (a =? 227) && (b =? 128) && (c =? 128))%N.

(** Leading white space removed, rune by rune. *)
Fixpoint trimLeft (s : string) : string :=
  match s with
  | EmptyString => s
  | String a s1 =>
      if isSpace1 (N_of_ascii a) then trimLeft s1
      else match s1 with
           | EmptyString => s
           | String b s2 =>
               if isSpace2 (N_of_ascii a) (N_of_ascii b) then trimLeft s2
               else match s2 with
                    | EmptyString => s
                    | String c s3 =>
                        if isSpace3 (N_of_ascii a) (N_of_ascii b) (N_of_ascii c)
                        then trimLeft s3
                        else s
                    end
           end
  end.

(** The same from the end, on the reversed bytes (the last rune is found
    from its last byte backwards). *)
Fixpoint trimLeftReversed (s : string) : string :=
  match s with
  | EmptyString => s
  | String a s1 =>
      if isSpace1 (N_of_ascii a) then trimLeftReversed s1
      else match s1 with
           | EmptyString => s
           | String b s2 =>
               if isSpace2 (N_of_ascii b) (N_of_ascii a) then trimLeftReversed s2
               else match s2 with
                    | EmptyString => s
                    | String c s3 =>
                        if isSpace3 (N_of_ascii c) (N_of_ascii b) (N_of_ascii a)
                        then trimLeftReversed s3
                        else s
                    end
           end
  end.

Definition reverse (s : string) : string :=
  string_of_list_ascii (rev (list_ascii_of_string s)).

(** [strings.TrimSpace(s)]. *)
Definition TrimSpace (s : string) : string :=
  reverse (trimLeftReversed (reverse (trimLeft s))).

(** ** The wire types *)

(** [type MCPRequest struct]. *)
Record MCPRequest : Type := {
  reqJSONRPC : string;
  reqID : value;
  Method : string;
  Params : value;
}.

(** [var request MCPRequest]. *)
Definition zeroRequest : MCPRequest :=
  {| reqJSONRPC := ""; reqID := VNil; Method := ""; Params := VNil |}.

(** [type MCPError struct]. *)
Record MCPError : Type := {
  Code : Z;
  Message : string;
  Data : value;
}.

(** [type Tool struct]. *)
Record Tool : Type := {
  Name : string;
  Description : string;
  InputSchema : gmap string value;
}.

(** [type ToolContent struct]. *)
Record ToolContent : Type := {
  Type_ : string;
  Text : string;
}.

(** [type ToolResult struct]. *)
Record ToolResult : Type := {
  Content : list ToolContent;
  IsError : bool;
}.

(** The dynamic values the program stores in [MCPResponse.Result]: nothing
    (the nil interface), a [map[string]interface{}] of plain values
    (initialize), a [map[string]interface{}] whose entries are [[]Tool]
    (tools/list), or a [ToolResult] (tools/call). *)
Inductive result : Type :=
  | RNil
  | RMap (m : gmap string value)
  | RToolsMap (m : gmap string (list Tool))
  | RToolResult (r : ToolResult).

(** [type MCPResponse struct]; [Error] is a pointer, [None] when nil. *)
Record MCPResponse : Type := {
  JSONRPC : string;
  ID : value;
  Result : result;
  Error : option MCPError;
}.

(** The members [json.Marshal] writes for a response, in order: the struct
    tags of [Result] and [Error] carry [omitempty], which drops a nil
    interface and a nil pointer; [jsonrpc] and [id] are always written
    (a nil [ID] as [null]). *)
Definition hasResult (r : MCPResponse) : bool :=
  match Result r with RNil => false | _ => true end.

Definition hasError (r : MCPResponse) : bool :=
  match Error r with None => false | Some _ => true end.

Definition members (r : MCPResponse) : list string :=
  ["jsonrpc"; "id"]
  ++ (if hasResult r then ["result"] else [])
  ++ (if hasError r then ["error"] else []).

(** ** The tool catalog *)

(** The literal [map[string]interface{}{"type": ty, "description": d}]. *)
Definition property (ty description : string) : value :=
  VMap (list_to_map [("type", VString ty); ("description", VString description)]).

(** The literal of an array-of-strings property. *)
Definition arrayOfStrings (description : string) : value :=
  VMap (list_to_map
    [("type", VString "array");
     ("items", VMap (list_to_map [("type", VString "string")]));
     ("description", VString description)]).

(** The literal of an input schema: type "object", the properties and the
    required names. *)
Definition objectSchema (properties : list (string * value))
    (required : list string) : gmap string value :=
  list_to_map
    [("type", VString "object");
     ("properties", VMap (list_to_map properties));
     ("required", VStrings required)].

(** [func (s *MCPServer) getAvailableTools() []Tool]: the receiver is not
    used. *)
Definition getAvailableTools : list Tool :=
  [
    (* GitHub tools, then Jira tools, then Notion tools *)
    {| Name := "github_get_pull_request";
       Description := "Get details of a specific pull request";
       InputSchema := objectSchema
         [("owner", property "string" "Repository owner");
          ("repo", property "string" "Repository name");
          ("number", property "integer" "Pull request number")]
         ["owner"; "repo"; "number"] |};
    {| Name := "github_get_pull_request_diff";
       Description := "Get the diff of a specific pull request for analysis";
       InputSchema := objectSchema
         [("owner", property "string" "Repository owner");
          ("repo", property "string" "Repository name");
          ("number", property "integer" "Pull request number")]
         ["owner"; "repo"; "number"] |};
    {| Name := "github_create_issue";
       Description := "Create a new issue in a repository";
       InputSchema := objectSchema
         [("owner", property "string" "Repository owner");
          ("repo", property "string" "Repository name");
          ("title", property "string" "Issue title");
          ("body", property "string" "Issue body")]
         ["owner"; "repo"; "title"] |};
    {| Name := "github_create_pull_request";
       Description := "Create a new pull request";
       InputSchema := objectSchema
         [("owner", property "string" "Repository owner");
          ("repo", property "string" "Repository name");
          ("title", property "string" "Pull request title");
          ("body", property "string" "Pull request body");
          ("head", property "string" "Source branch");
          ("base", property "string" "Target branch")]
         ["owner"; "repo"; "title"; "head"; "base"] |};
    {| Name := "github_get_issue";
       Description := "Get details of a specific issue";
       InputSchema := objectSchema
         [("owner", property "string" "Repository owner");
          ("repo", property "string" "Repository name");
          ("number", property "integer" "Issue number")]
         ["owner"; "repo"; "number"] |};
    {| Name := "github_list_branches";
       Description := "List all branches in a repository";
       InputSchema := objectSchema
         [("owner", property "string" "Repository owner");
          ("repo", property "string" "Repository name")]
         ["owner"; "repo"] |};
    {| Name := "github_list_commits";
       Description := "List commits in a repository";
       InputSchema := objectSchema
         [("owner", property "string" "Repository owner");
          ("repo", property "string" "Repository name")]
         ["owner"; "repo"] |};
    {| Name := "github_search_repositories";
       Description := "Search for repositories";
       InputSchema := objectSchema
         [("query", property "string" "Search query")]
         ["query"] |};
    {| Name := "github_search_issues";
       Description := "Search for issues across repositories";
       InputSchema := objectSchema
         [("query", property "string" "Search query")]
         ["query"] |};
    {| Name := "github_get_workflows";
       Description := "Get workflows for a repository";
       InputSchema := objectSchema
         [("owner", property "string" "Repository owner");
          ("repo", property "string" "Repository name")]
         ["owner"; "repo"] |};
    {| Name := "github_run_workflow";
       Description := "Trigger a workflow run";
       InputSchema := objectSchema
         [("owner", property "string" "Repository owner");
          ("repo", property "string" "Repository name");
          ("workflowID", property "string" "Workflow ID");
          ("ref", property "string" "Git reference")]
         ["owner"; "repo"; "workflowID"; "ref"] |};
    {| Name := "github_add_comment";
       Description := "Add a comment to an issue or pull request";
       InputSchema := objectSchema
         [("owner", property "string" "Repository owner");
          ("repo", property "string" "Repository name");
          ("number", property "integer" "Issue or pull request number");
          ("body", property "string" "Comment body")]
         ["owner"; "repo"; "number"; "body"] |};
    {| Name := "github_get_comments";
       Description := "Get comments from an issue or pull request";
       InputSchema := objectSchema
         [("owner", property "string" "Repository owner");
          ("repo", property "string" "Repository name");
          ("number", property "integer" "Issue or pull request number")]
         ["owner"; "repo"; "number"] |};
    {| Name := "github_assign_copilot";
       Description := "Assign users to an issue or pull request";
       InputSchema := objectSchema
         [("owner", property "string" "Repository owner");
          ("repo", property "string" "Repository name");
          ("number", property "integer" "Issue or pull request number");
          ("assignees", arrayOfStrings "Array of usernames to assign")]
         ["owner"; "repo"; "number"; "assignees"] |};
    {| Name := "github_create_branch";
       Description := "Create a new branch in a repository";
       InputSchema := objectSchema
         [("owner", property "string" "Repository owner");
          ("repo", property "string" "Repository name");
          ("branchName", property "string" "Name for the new branch");
          ("sha", property "string" "SHA of the commit to branch from")]
         ["owner"; "repo"; "branchName"; "sha"] |};
    {| Name := "github_create_repository";
       Description := "Create a new repository";
       InputSchema := objectSchema
         [("name", property "string" "Repository name");
          ("description", property "string" "Repository description");
          ("private", property "boolean" "Whether the repository should be private")]
         ["name"] |};
    {| Name := "github_get_commit";
       Description := "Get details of a specific commit";
       InputSchema := objectSchema
         [("owner", property "string" "Repository owner");
          ("repo", property "string" "Repository name");
          ("sha", property "string" "Commit SHA")]
         ["owner"; "repo"; "sha"] |};
    {| Name := "github_get_release_by_tag";
       Description := "Get release information by tag";
       InputSchema := objectSchema
         [("owner", property "string" "Repository owner");
          ("repo", property "string" "Repository name");
          ("tagName", property "string" "Tag name")]
         ["owner"; "repo"; "tagName"] |};
    {| Name := "github_get_tag";
       Description := "Get tag information";
       InputSchema := objectSchema
         [("owner", property "string" "Repository owner");
          ("repo", property "string" "Repository name");
          ("tagName", property "string" "Tag name")]
         ["owner"; "repo"; "tagName"] |};
    {| Name := "github_search_code";
       Description := "Search for code in repositories";
       InputSchema := objectSchema
         [("query", property "string" "Search query")]
         ["query"] |};
    {| Name := "github_search_pull_requests";
       Description := "Search for pull requests";
       InputSchema := objectSchema
         [("query", property "string" "Search query")]
         ["query"] |};
    {| Name := "jira_get_ticket";
       Description := "Get details of a Jira ticket";
       InputSchema := objectSchema
         [("ticketID", property "string" "Jira ticket ID")]
         ["ticketID"] |};
    {| Name := "jira_search_tickets";
       Description := "Search for Jira tickets using JQL";
       InputSchema := objectSchema
         [("jql", property "string" "JQL query string")]
         ["jql"] |};
    {| Name := "jira_create_ticket";
       Description := "Create a new Jira ticket";
       InputSchema := objectSchema
         [("projectKey", property "string" "Project key");
          ("summary", property "string" "Ticket summary");
          ("description", property "string" "Ticket description")]
         ["projectKey"; "summary"] |};
    {| Name := "notion_search_pages";
       Description := "Search for Notion pages by title";
       InputSchema := objectSchema
         [("title", property "string" "Page title to search for")]
         ["title"] |};
    {| Name := "notion_get_page";
       Description := "Get a Notion page by URL";
       InputSchema := objectSchema
         [("url", property "string" "Page URL")]
         ["url"] |};
    {| Name := "notion_get_database";
       Description := "Get a Notion database by ID";
       InputSchema := objectSchema
         [("databaseID", property "string" "Database ID")]
         ["databaseID"] |};
    {| Name := "notion_create_page";
       Description := "Create a new Notion page";
       InputSchema := objectSchema
         [("parentID", property "string" "Parent page/database ID");
          ("title", property "string" "Page title");
          ("content", property "string" "Page content")]
         ["parentID"; "title"] |};
    {| Name := "notion_create_database";
       Description := "Create a new Notion database";
       InputSchema := objectSchema
         [("parentPageID", property "string" "Parent page ID");
          ("title", property "string" "Database title")]
         ["parentPageID"; "title"] |};
    {| Name := "notion_update_page";
       Description := "Update an existing Notion page";
       InputSchema := objectSchema
         [("pageID", property "string" "Page ID to update");
          ("title", property "string" "New page title");
          ("content", property "string" "New page content")]
         ["pageID"] |};
    {| Name := "notion_update_database";
       Description := "Update an existing Notion database";
       InputSchema := objectSchema
         [("databaseID", property "string" "Database ID to update");
          ("title", property "string" "New database title")]
         ["databaseID"; "title"] |}
  ].

(** The names of the catalog, in order. *)
Definition toolNames : list string := Name <$> getAvailableTools.

(** The properties an input schema declares, each with its JSON-schema
    type. *)
Definition propertyType (kv : string * value) : option (string * string) :=
  match kv.2 with
  | VMap p =>
      match p !! "type" with
      | Some (VString ty) => Some (kv.1, ty)
      | _ => None
      end
  | _ => None
  end.

Definition schemaProperties (t : Tool) : list (string * string) :=
  match InputSchema t !! "properties" with
  | Some (VMap properties) => omap propertyType (map_to_list properties)
  | _ => []
  end.

(** The dynamic type a JSON-schema type stands for after decoding:
    "string" is [string], "integer" is [float64] (every JSON number),
    "boolean" is [bool], "array" is [[]interface{}]. *)
Definition hasSchemaType (ty : string) (v : value) : bool :=
  match v with
  | VString _ => String.eqb ty "string"
  | VFloat64 _ => String.eqb ty "integer"
  | VBool _ => String.eqb ty "boolean"
  | VSlice _ => String.eqb ty "array"
  | _ => false
  end.

(** An argument is lacking when the key is absent from the mapping or its
    value has another dynamic type. *)
Definition lacking (ty : string) (v : option value) : bool :=
  match v with
  | None => true
  | Some v => negb (hasSchemaType ty v)
  end.

(** The zero value of the Go type, and a value of the type that is not the
    zero value. *)
Definition zeroOf (ty : string) : value :=
  if String.eqb ty "string" then VString ""
  else if String.eqb ty "integer" then VFloat64 (S754_zero false)
  else if String.eqb ty "boolean" then VBool false
  else if String.eqb ty "array" then VSlice []
  else VNil.

Definition sampleOf (ty : string) : value :=
  if String.eqb ty "string" then VString "x"
  else if String.eqb ty "integer" then
    VFloat64 (S754_finite false 4503599627370496 (-52))
  else if String.eqb ty "boolean" then VBool true
  else if String.eqb ty "array" then VSlice [VString "x"]
  else VNil.

(** The tool name a request carries, when its params are a mapping whose
    [name] is a string. *)
Definition toolName (request : MCPRequest) : option string :=
  match Params request with
  | VMap params =>
      match params !! "name" with
      | Some (VString name) => Some name
      | _ => None
      end
  | _ => None
  end.

(** The argument mapping a request carries: empty when [arguments] is
    missing or not a mapping. *)
Definition toolArguments (request : MCPRequest) : gmap string value :=
  match Params request with
  | VMap params => (assertMap (mapIndex params "arguments")).1
  | _ => ∅
  end.

(** Every declared parameter of every tool: tool name, parameter name,
    JSON-schema type. *)
Definition parameters : list (string * string * string) :=
  flat_map (fun t => (fun '(p, ty) => (Name t, p, ty)) <$> schemaProperties t)
    getAvailableTools.

(** The same list, evaluated. *)
Definition parameterTable : list (string * string * string) :=
  Eval vm_compute in parameters.

(** The response to a tools/list request. *)
Definition catalogResponse (id : value) : MCPResponse :=
  {| JSONRPC := "2.0";
     ID := id;
     Result := RToolsMap (list_to_map [("tools", getAvailableTools)]);
     Error := None |}.

(** A success envelope whose result is one text block flagged as an
    error, and a protocol-level error envelope. *)
Definition flaggedResult (id : value) (text : string) : MCPResponse :=
  {| JSONRPC := "2.0";
     ID := id;
     Result := RToolResult
       {| Content := [{| Type_ := "text"; Text := text |}]; IsError := true |};
     Error := None |}.

Definition errorEnvelope (id : value) (code : Z) (message : string) : MCPResponse :=
  {| JSONRPC := "2.0";
     ID := id;
     Result := RNil;
     Error := Some {| Code := code; Message := message; Data := VNil |} |}.

Section Dispatcher.

Context {World : Type}.

(** [type MCPServer struct]: the three client handles. *)
Record MCPServer : Type := {
  Github : GithubTool World;
  Jira : JiraTool World;
  Notion : NotionTool World;
}.

(** [func (s *MCPServer) executeTool(name string, args map[string]interface{})
    (string, error)]: the switch on the name, case by case in the order of
    the source. *)
Definition executeTool (s : MCPServer) (name : string)
    (args : gmap string value) : remote World :=
  if String.eqb name "github_get_pull_request" then
    let owner := (assertString (mapIndex args "owner")).1 in
    let repo := (assertString (mapIndex args "repo")).1 in
    let number := (assertFloat64 (mapIndex args "number")).1 in
    GetPullRequest (Github s) owner repo (int number)
  else if String.eqb name "github_get_pull_request_diff" then
    let owner := (assertString (mapIndex args "owner")).1 in
    let repo := (assertString (mapIndex args "repo")).1 in
    let number := (assertFloat64 (mapIndex args "number")).1 in
    GetPullRequestDiff (Github s) owner repo (int number)
  else if String.eqb name "github_create_issue" then
    let owner := (assertString (mapIndex args "owner")).1 in
    let repo := (assertString (mapIndex args "repo")).1 in
    let title := (assertString (mapIndex args "title")).1 in
    let body := (assertString (mapIndex args "body")).1 in
    CreateIssue (Github s) owner repo title body
  else if String.eqb name "github_create_pull_request" then
    let owner := (assertString (mapIndex args "owner")).1 in
    let repo := (assertString (mapIndex args "repo")).1 in
    let title := (assertString (mapIndex args "title")).1 in
    let body := (assertString (mapIndex args "body")).1 in
    let head := (assertString (mapIndex args "head")).1 in
    let base := (assertString (mapIndex args "base")).1 in
    CreatePullRequest (Github s) owner repo title body head base
  else if String.eqb name "github_get_issue" then
    let owner := (assertString (mapIndex args "owner")).1 in
    let repo := (assertString (mapIndex args "repo")).1 in
    let number := (assertFloat64 (mapIndex args "number")).1 in
    GetIssue (Github s) owner repo (int number)
  else if String.eqb name "github_list_branches" then
    let owner := (assertString (mapIndex args "owner")).1 in
    let repo := (assertString (mapIndex args "repo")).1 in
    ListBranches (Github s) owner repo
  else if String.eqb name "github_list_commits" then
    let owner := (assertString (mapIndex args "owner")).1 in
    let repo := (assertString (mapIndex args "repo")).1 in
    ListCommits (Github s) owner repo
  else if String.eqb name "github_search_repositories" then
    let query := (assertString (mapIndex args "query")).1 in
    SearchRepositories (Github s) query
  else if String.eqb name "github_search_issues" then
    let query := (assertString (mapIndex args "query")).1 in
    SearchIssues (Github s) query
  else if String.eqb name "github_get_workflows" then
    let owner := (assertString (mapIndex args "owner")).1 in
    let repo := (assertString (mapIndex args "repo")).1 in
    GetWorkflows (Github s) owner repo
  else if String.eqb name "github_run_workflow" then
    let owner := (assertString (mapIndex args "owner")).1 in
    let repo := (assertString (mapIndex args "repo")).1 in
    let workflowID := (assertString (mapIndex args "workflowID")).1 in
    let ref := (assertString (mapIndex args "ref")).1 in
    RunWorkflow (Github s) owner repo workflowID ref
  else if String.eqb name "github_add_comment" then
    let owner := (assertString (mapIndex args "owner")).1 in
    let repo := (assertString (mapIndex args "repo")).1 in
    let number := (assertFloat64 (mapIndex args "number")).1 in
    let body := (assertString (mapIndex args "body")).1 in
    AddComment (Github s) owner repo (int number) body
  else if String.eqb name "github_get_comments" then
    let owner := (assertString (mapIndex args "owner")).1 in
    let repo := (assertString (mapIndex args "repo")).1 in
    let number := (assertFloat64 (mapIndex args "number")).1 in
    GetComments (Github s) owner repo (int number)
  else if String.eqb name "github_assign_copilot" then
    let owner := (assertString (mapIndex args "owner")).1 in
    let repo := (assertString (mapIndex args "repo")).1 in
    let number := (assertFloat64 (mapIndex args "number")).1 in
    let assignees := (assertSlice (mapIndex args "assignees")).1 in
    let assigneeStrs := (fun assignee => (assertString assignee).1) <$> assignees in
    AssignCopilot (Github s) owner repo (int number) assigneeStrs
  else if String.eqb name "github_create_branch" then
    let owner := (assertString (mapIndex args "owner")).1 in
    let repo := (assertString (mapIndex args "repo")).1 in
    let branchName := (assertString (mapIndex args "branchName")).1 in
    let sha := (assertString (mapIndex args "sha")).1 in
    CreateBranch (Github s) owner repo branchName sha
  else if String.eqb name "github_create_repository" then
    let name := (assertString (mapIndex args "name")).1 in
    let description := (assertString (mapIndex args "description")).1 in
    let private := (assertBool (mapIndex args "private")).1 in
    CreateRepository (Github s) name description private
  else if String.eqb name "github_get_commit" then
    let owner := (assertString (mapIndex args "owner")).1 in
    let repo := (assertString (mapIndex args "repo")).1 in
    let sha := (assertString (mapIndex args "sha")).1 in
    GetCommit (Github s) owner repo sha
  else if String.eqb name "github_get_release_by_tag" then
    let owner := (assertString (mapIndex args "owner")).1 in
    let repo := (assertString (mapIndex args "repo")).1 in
    let tagName := (assertString (mapIndex args "tagName")).1 in
    GetReleaseByTag (Github s) owner repo tagName
  else if String.eqb name "github_get_tag" then
    let owner := (assertString (mapIndex args "owner")).1 in
    let repo := (assertString (mapIndex args "repo")).1 in
    let tagName := (assertString (mapIndex args "tagName")).1 in
    GetTag (Github s) owner repo tagName
  else if String.eqb name "github_search_code" then
    let query := (assertString (mapIndex args "query")).1 in
    SearchCode (Github s) query
  else if String.eqb name "github_search_pull_requests" then
    let query := (assertString (mapIndex args "query")).1 in
    SearchPullRequests (Github s) query
  else if String.eqb name "jira_get_ticket" then
    let ticketID := (assertString (mapIndex args "ticketID")).1 in
    GetTicketByID (Jira s) ticketID
  else if String.eqb name "jira_search_tickets" then
    let jql := (assertString (mapIndex args "jql")).1 in
    SearchTickets (Jira s) jql
  else if String.eqb name "jira_create_ticket" then
    let projectKey := (assertString (mapIndex args "projectKey")).1 in
    let summary := (assertString (mapIndex args "summary")).1 in
    let description := (assertString (mapIndex args "description")).1 in
    CreateTicket (Jira s) projectKey summary description
  else if String.eqb name "notion_search_pages" then
    let title := (assertString (mapIndex args "title")).1 in
    SearchPagesByTitle (Notion s) title
  else if String.eqb name "notion_get_page" then
    let url := (assertString (mapIndex args "url")).1 in
    GetPageByURL (Notion s) url
  else if String.eqb name "notion_get_database" then
    let databaseID := (assertString (mapIndex args "databaseID")).1 in
    GetDatabase (Notion s) databaseID
  else if String.eqb name "notion_create_page" then
    let parentID := (assertString (mapIndex args "parentID")).1 in
    let title := (assertString (mapIndex args "title")).1 in
    let content := (assertString (mapIndex args "content")).1 in
    CreatePage (Notion s) parentID title content
  else if String.eqb name "notion_create_database" then
    let parentPageID := (assertString (mapIndex args "parentPageID")).1 in
    let title := (assertString (mapIndex args "title")).1 in
    CreateDatabase (Notion s) parentPageID title
  else if String.eqb name "notion_update_page" then
    let pageID := (assertString (mapIndex args "pageID")).1 in
    let title := (assertString (mapIndex args "title")).1 in
    let content := (assertString (mapIndex args "content")).1 in
    UpdatePage (Notion s) pageID title content
  else if String.eqb name "notion_update_database" then
    let databaseID := (assertString (mapIndex args "databaseID")).1 in
    let title := (assertString (mapIndex args "title")).1 in
    UpdateDatabase (Notion s) databaseID title
  else
    fun w => (("", Some ("unknown tool: " +:+ name)), w).

(** ** Standard output and the outside world *)

(** What a run has done so far: the state of the remote services, and the
    responses printed on standard output, one per line, oldest first.  A
    line is kept as the response value handed to [json.Marshal]; the log
    lines on standard error are left out. *)
Record state : Type := {
  world : World;
  stdout : list MCPResponse;
}.

Definition IO (A : Type) : Type := state -> A * state.

Definition ret {A : Type} (a : A) : IO A := fun st => (a, st).

Definition bind {A B : Type} (m : IO A) (k : A -> IO B) : IO B :=
  fun st => let '(a, st') := m st in k a st'.

Notation "'do' x <- m ; k" := (bind m (fun x => k))
  (at level 10, x name, m at level 100, k at level 200).
Notation "m ;; k" := (bind m (fun _ => k))
  (at level 100, k at level 200, right associativity).

(** A service call made from the server. *)
Definition perform (call : remote World) : IO (string * option error) :=
  fun st =>
    let '(r, w) := call (world st) in
    (r, {| world := w; stdout := stdout st |}).

(** [func (s *MCPServer) sendJSON(v interface{})]: one line on standard
    output.  [json.Marshal] does not fail on the responses built below:
    they hold strings, the catalog, and an ID that was decoded from JSON. *)
Definition sendJSON (v : MCPResponse) : IO unit :=
  fun st => (tt, {| world := world st; stdout := stdout st ++ [v] |}).

(** [func (s *MCPServer) sendResponse(id interface{}, result interface{})]. *)
Definition sendResponse (id : value) (result : result) : IO unit :=
  let response :=
    {| JSONRPC := "2.0"; ID := id; Result := result; Error := None |} in
  sendJSON response.

(** [func (s *MCPServer) sendError(id interface{}, code int, message string,
    data interface{})]. *)
Definition sendError (id : value) (code : Z) (message : string) (data : value)
  : IO unit :=
  let response :=
    {| JSONRPC := "2.0";
       ID := id;
       Result := RNil;
       Error := Some {| Code := code; Message := message; Data := data |} |} in
  sendJSON response.

(** ** The handlers *)

(** [func (s *MCPServer) handleInitialize(request MCPRequest)]. *)
Definition handleInitialize (request : MCPRequest) : IO unit :=
  let result : gmap string value :=
    list_to_map
      [("protocolVersion", VString "2024-11-05");
       ("capabilities", VMap (list_to_map [("tools", VMap ∅)]));
       ("serverInfo", VMap (list_to_map
          [("name", VString "mcp-integration-server");
           ("version", VString "1.0.0")]))] in
  sendResponse (reqID request) (RMap result).

(** [func (s *MCPServer) handleToolsList(request MCPRequest)]. *)
Definition handleToolsList (request : MCPRequest) : IO unit :=
  let tools := getAvailableTools in
  let result : gmap string (list Tool) := list_to_map [("tools", tools)] in
  sendResponse (reqID request) (RToolsMap result).

(** [func (s *MCPServer) handleToolCall(request MCPRequest)]. *)
Definition handleToolCall (s : MCPServer) (request : MCPRequest) : IO unit :=
  let '(params, ok) := assertMap (Params request) in
  if negb ok then
    sendError (reqID request) (-32602) "Invalid params" VNil
  else
    let '(name, ok) := assertString (mapIndex params "name") in
    if negb ok then
      sendError (reqID request) (-32602) "Missing tool name" VNil
    else
      let '(arguments, ok) := assertMap (mapIndex params "arguments") in
      let arguments := if negb ok then ∅ else arguments in
      do r <- perform (executeTool s name arguments);
      let '(result, err) := r in
      match err with
      | Some err =>
          sendResponse (reqID request)
            (RToolResult
               {| Content := [{| Type_ := "text"; Text := "Error: " +:+ err |}];
                  IsError := true |})
      | None =>
          sendResponse (reqID request)
            (RToolResult
               {| Content := [{| Type_ := "text"; Text := result |}];
                  IsError := false |})
      end.

(** [func (s *MCPServer) handleRequest(request MCPRequest)]. *)
Definition handleRequest (s : MCPServer) (request : MCPRequest) : IO unit :=
  if String.eqb (Method request) "initialize" then handleInitialize request
  else if String.eqb (Method request) "tools/list" then handleToolsList request
  else if String.eqb (Method request) "tools/call" then handleToolCall s request
  else sendError (reqID request) (-32601) "Method not found" VNil.

(** ** The transport loop *)

(** [json.Unmarshal([]byte(line), &request)] on a fresh [request], from
    [encoding/json], outside the repository: the request as the decoder
    leaves it, and the error it reports, if any.  After a syntax error the
    request is untouched; after a type error on one field the other fields
    are set as decoded. *)
Variable Unmarshal : string -> MCPRequest * option error.

(** The body of [for scanner.Scan() { ... }] in [Start], over the lines
    the scanner yields, in order, until it stops (end of input, a read
    error, or a line longer than its buffer). *)
Fixpoint scanLoop (s : MCPServer) (lines : list string) : IO unit :=
  match lines with
  | [] => ret tt
  | line :: rest =>
      if isEmpty (TrimSpace line) then
        (* continue *)
        scanLoop s rest
      else
        let '(request, err) := Unmarshal line in
        match err with
        | Some _ =>
            sendError (reqID request) (-32700) "Parse error" VNil ;;
            scanLoop s rest
        | None =>
            handleRequest s request ;;
            scanLoop s rest
        end
  end.

(** [func (s *MCPServer) Start()], on the lines of standard input. *)
Definition Start (s : MCPServer) (stdin : list string) : IO unit :=
  scanLoop s stdin.

(** ** Notions used to state the properties *)

(** A state after one more line on standard output. *)
Definition printed (st : state) (w : World) (r : MCPResponse) : unit * state :=
  (tt, {| world := w; stdout := stdout st ++ [r] |}).

(** A response answers a request when it carries the request's ID and
    exactly one of a result and an error. *)
Definition answers (request : MCPRequest) (r : MCPResponse) : Prop :=
  JSONRPC r = "2.0" /\ ID r = reqID request
  /\ hasResult r = negb (hasError r).


(** The lines the loop does not skip. *)
Definition nonBlank (line : string) : bool := negb (isEmpty (TrimSpace line)).

End Dispatcher.
Arguments MCPServer World : clear implicits.
Arguments state World : clear implicits.
Arguments IO World A : clear implicits.

(** A name the switch of [executeTool] sends to its default case, whatever
    the clients, the arguments and the state of the world. *)
Definition unrouted (name : string) : Prop :=
  forall (World : Type) (s : MCPServer World) (args : gmap string value) (w : World),
    executeTool s name args w = (("", Some ("unknown tool: " +:+ name)), w).


(** Lines of ASCII bytes, and lines of the six ASCII white-space bytes. *)
Fixpoint isASCII (s : string) : bool :=
  match s with
  | EmptyString => true
  | String a rest => (N_of_ascii a <? 128)%N && isASCII rest
  end.

Fixpoint onlySpace (s : string) : bool :=
  match s with
  | EmptyString => true
  | String a rest => isSpace1 (N_of_ascii a) && onlySpace rest
  end.

(** Whether the catalog declares a parameter for a tool. *)
Definition declares (name p : string) : bool :=
  existsb (fun '(n, q, _) => String.eqb n name && String.eqb q p) parameterTable.

(** The three methods the dispatcher knows. *)
Definition knownMethod (method : string) : bool :=
  String.eqb method "initialize" || String.eqb method "tools/list"
  || String.eqb method "tools/call".

End server.

(* ================================================================== *)
(** * Package [encoding/json]: the decoding of a request *)
(* ================================================================== *)

Module encodingjson.
Import server.

(** ** JSON texts *)

(** A JSON text as the scanner of [encoding/json] delimits it: a number by
    the sign, the digits and the decimal exponent of its literal (the
    literal -12.50e3 has the digits 1250 and the exponent 1, and is
    negative; its value is the digits times ten to the exponent), a string
    and the key of a member by their bytes after unquoting, the members of
    an object in the order of the text, duplicates included. *)
Inductive document : Type :=
  | DNull
  | DBool (b : bool)
  | DNumber (negative : bool) (digits : N) (exponent : Z)
  | DString (s : string)
  | DArray (elements : list document)
  | DObject (members : list (string * document)).

(** ** Numbers *)

(** [strconv.ParseFloat(s, 64)] on a number literal: the [float64]
    nearest to the value of the literal, a tie going to the even mantissa
    and a zero keeping the sign of the literal.  The result is infinite
    when the literal is beyond the range of [float64]; [ParseFloat] then
    also returns the error [ErrRange], the only error it has for a literal
    of JSON.  A value with a negative exponent is the quotient of two
    integers, rounded once. *)
Definition ParseFloat (negative : bool) (digits : N) (exponent : Z) : float64 :=
  match digits with
  | N0 => S754_zero negative
  | Npos d =>
      if 0 <=? exponent then
        binary_round 53 1024 negative (d * Z.to_pos (10 ^ exponent)) 0
      else
        SFdiv 53 1024 (S754_finite negative d 0)
          (S754_finite false (Z.to_pos (10 ^ (- exponent))) 0)
  end.

(** Whether [ParseFloat] reports [ErrRange]. *)
Definition rangeError (f : float64) : bool :=
  match f with S754_infinity _ => true | _ => false end.

(** ** The scanner *)

(** The bytes of a text, and the text of a list of bytes. *)
Definition bytesOf (s : string) : list N :=
  N_of_ascii <$> list_ascii_of_string s.

Definition textOf (l : list N) : string :=
  string_of_list_ascii (ascii_of_N <$> l).

(** White space between the tokens: space, tab, carriage return and line
    feed. *)
Definition isSpace (c : N) : bool :=
  ((c =? 32) || (c =? 9) || (c =? 13) || (c =? 10))%N.

Fixpoint skipSpace (s : list N) : list N :=
  match s with
  | c :: rest => if isSpace c then skipSpace rest else s
  | [] => []
  end.

Definition isDigit (c : N) : bool := ((48 <=? c) && (c <=? 57))%N.

Definition isHex (c : N) : bool :=
  (isDigit c || ((97 <=? c) && (c <=? 102)) || ((65 <=? c) && (c <=? 70)))%N.

(** The digits at the head of a text, by their values, and the rest. *)
Fixpoint digitsOf (s : list N) : list N * list N :=
  match s with
  | c :: rest =>
      if isDigit c then
        let '(ds, rest') := digitsOf rest in ((c - 48)%N :: ds, rest')
      else ([], s)
  | [] => ([], [])
  end.

Definition decimal (ds : list N) : N :=
  fold_left (fun n d => (10 * n + d)%N) ds 0%N.

(** The exponent of a literal as [strconv] reads it: a digit is taken in
    as long as the value read so far is below 10000. *)
Definition exponentOf (ds : list N) : Z :=
  Z.of_N (fold_left (fun e d => if (e <? 10000)%N then (10 * e + d)%N else e) ds 0%N).

(** A number literal at the head of a text: an optional minus sign, 0 or
    digits that do not begin with 0, an optional fraction of at least one
    digit, an optional exponent of at least one digit. *)
Definition scanNumber (s : list N) : option (document * list N) :=
  let '(negative, s) :=
    match s with
    | c :: rest => if (c =? 45)%N then (true, rest) else (false, s)
    | [] => (false, s)
    end in
  let integer : option (list N * list N) :=
    match s with
    | c :: rest =>
        if (c =? 48)%N then Some ([0%N], rest)
        else if isDigit c then Some (digitsOf s)
        else None
    | [] => None
    end in
  match integer with
  | None => None
  | Some (whole, s) =>
      let fraction : option (list N * list N) :=
        match s with
        | c :: rest =>
            if (c =? 46)%N then
              match digitsOf rest with
              | ([], _) => None
              | (ds, rest') => Some (ds, rest')
              end
            else Some ([], s)
        | [] => Some ([], s)
        end in
      match fraction with
      | None => None
      | Some (frac, s) =>
          let exponent : option (Z * list N) :=
            match s with
            | c :: rest =>
                if ((c =? 101) || (c =? 69))%N then
                  let '(minus, rest) :=
                    match rest with
                    | sign :: rest' =>
                        if (sign =? 43)%N then (false, rest')
                        else if (sign =? 45)%N then (true, rest')
                        else (false, rest)
                    | [] => (false, rest)
                    end in
                  match digitsOf rest with
                  | ([], _) => None
                  | (ds, rest') =>
                      Some (if minus then - exponentOf ds else exponentOf ds, rest')
                  end
                else Some (0, s)
            | [] => Some (0, s)
            end in
          match exponent with
          | None => None
          | Some (e, s) =>
              Some (DNumber negative (decimal (whole ++ frac))
                      (e - Z.of_nat (length frac)), s)
          end
      end
  end.

(** A string literal after its opening quote: the bytes up to the closing
    quote, escapes as written, and the rest.  A byte below 32 and a
    backslash that begins no escape are errors. *)
Fixpoint scanString (s : list N) : option (list N * list N) :=
  match s with
  | [] => None
  | c :: rest =>
      if (c =? 34)%N then Some ([], rest)
      else if (c =? 92)%N then
        match rest with
        | e :: rest' =>
            if ((e =? 34) || (e =? 92) || (e =? 47) || (e =? 98) || (e =? 102)
                || (e =? 110) || (e =? 114) || (e =? 116))%N then
              match scanString rest' with
              | Some (raw, after) => Some (c :: e :: raw, after)
              | None => None
              end
            else if (e =? 117)%N then
              match rest' with
              | h1 :: h2 :: h3 :: h4 :: rest'' =>
                  if isHex h1 && isHex h2 && isHex h3 && isHex h4 then
                    match scanString rest'' with
                    | Some (raw, after) =>
                        Some (c :: e :: h1 :: h2 :: h3 :: h4 :: raw, after)
                    | None => None
                    end
                  else None
              | _ => None
              end
            else None
        | [] => None
        end
      else if (c <? 32)%N then None
      else
        match scanString rest with
        | Some (raw, after) => Some (c :: raw, after)
        | None => None
        end
  end.

(** [getu4]: the number of a \uXXXX escape at the head of a text. *)
Definition hexValue (c : N) : N :=
  (if isDigit c then c - 48 else if 97 <=? c then c - 87 else c - 55)%N.

Definition getu4 (s : list N) : option N :=
  match s with
  | b :: u :: h1 :: h2 :: h3 :: h4 :: _ =>
      if ((b =? 92) && (u =? 117))%N && isHex h1 && isHex h2 && isHex h3 && isHex h4
      then Some (((hexValue h1 * 16 + hexValue h2) * 16 + hexValue h3) * 16
                 + hexValue h4)%N
      else None
  | _ => None
  end.

(** [utf8.EncodeRune] on a rune that is no surrogate, and U+FFFD. *)
Definition encodeRune (r : N) : list N :=
  (if r <? 128 then [r]
   else if r <? 2048 then [192 + r / 64; 128 + r mod 64]
   else if r <? 65536 then
     [224 + r / 4096; 128 + (r / 64) mod 64; 128 + r mod 64]
   else
     [240 + r / 262144; 128 + (r / 4096) mod 64; 128 + (r / 64) mod 64;
      128 + r mod 64])%N.

Definition replacement : list N := [239; 191; 189]%N.

(** The length of the UTF-8 encoding at the head of a text whose first
    byte is 128 or more, if it is one: [utf8.DecodeRune] takes no
    encoding longer than needed, no surrogate and nothing above
    U+10FFFF. *)
Definition between (lo hi c : N) : bool := ((lo <=? c) && (c <=? hi))%N.

Definition runeSize (s : list N) : option nat :=
  match s with
  | b0 :: rest =>
      if between 194 223 b0 then
        match rest with
        | b1 :: _ => if between 128 191 b1 then Some 2%nat else None
        | _ => None
        end
      else if between 224 239 b0 then
        match rest with
        | b1 :: b2 :: _ =>
            let lo := if (b0 =? 224)%N then 160%N else 128%N in
            let hi := if (b0 =? 237)%N then 159%N else 191%N in
            if between lo hi b1 && between 128 191 b2 then Some 3%nat else None
        | _ => None
        end
      else if between 240 244 b0 then
        match rest with
        | b1 :: b2 :: b3 :: _ =>
            let lo := if (b0 =? 240)%N then 144%N else 128%N in
            let hi := if (b0 =? 244)%N then 143%N else 191%N in
            if between lo hi b1 && between 128 191 b2 && between 128 191 b3
            then Some 4%nat else None
        | _ => None
        end
      else None
  | [] => None
  end.

(** The byte an escape of one letter stands for. *)
Definition escaped (e : N) : N :=
  (if e =? 98 then 8 else if e =? 102 then 12 else if e =? 110 then 10
   else if e =? 114 then 13 else if e =? 116 then 9 else e)%N.

(** [unquoteBytes]: the bytes a scanned string literal stands for.  An
    escape \uXXXX gives the UTF-8 encoding of the rune, two escapes that
    form a surrogate pair the encoding of the rune of the pair, a
    surrogate without its pair U+FFFD; a byte that begins no UTF-8
    encoding gives U+FFFD.  The fuel is the number of bytes. *)
Fixpoint unquoteBytes (fuel : nat) (s : list N) : list N :=
  match fuel with
  | O => []
  | S fuel =>
      match s with
      | [] => []
      | c :: rest =>
          if (c =? 92)%N then
            match rest with
            | e :: rest' =>
                if (e =? 117)%N then
                  match getu4 s with
                  | Some rr =>
                      let after := drop 6 s in
                      if between 55296 57343 rr then
                        match getu4 after with
                        | Some rr1 =>
                            if (rr <? 56320)%N && between 56320 57343 rr1 then
                              encodeRune (65536 + (rr - 55296) * 1024 + (rr1 - 56320))%N
                              ++ unquoteBytes fuel (drop 6 after)
                            else replacement ++ unquoteBytes fuel after
                        | None => replacement ++ unquoteBytes fuel after
                        end
                      else encodeRune rr ++ unquoteBytes fuel after
                  | None => []
                  end
                else escaped e :: unquoteBytes fuel rest'
            | [] => []
            end
          else if (c <? 128)%N then c :: unquoteBytes fuel rest
          else
            match runeSize s with
            | Some n => take n s ++ unquoteBytes fuel (drop n s)
            | None => replacement ++ unquoteBytes fuel rest
            end
      end
  end.

Definition unquote (raw : list N) : string :=
  textOf (unquoteBytes (length raw) raw).

(** The rest of a text after a word. *)
Fixpoint afterWord (word s : list N) : option (list N) :=
  match word, s with
  | [], _ => Some s
  | w :: word', c :: rest => if (w =? c)%N then afterWord word' rest else None
  | _ :: _, [] => None
  end.

(** A value at the head of a text, after white space, and the rest; the
    elements of an array after its opening bracket or a comma, through the
    closing bracket; the members of an object after its opening brace or a
    comma, through the closing brace.  An array or an object may be
    nested [depth] deep.  The fuel bounds the number of values: two for
    each byte are enough. *)
Fixpoint scanValue (fuel : nat) (depth : N) (s : list N) {struct fuel}
  : option (document * list N) :=
  match fuel with
  | O => None
  | S fuel =>
      match skipSpace s with
      | [] => None
      | c :: rest =>
          if (c =? 123)%N then
            if (depth =? 0)%N then None
            else
              match skipSpace rest with
              | [] => None
              | c' :: rest' =>
                  if (c' =? 125)%N then Some (DObject [], rest')
                  else
                    match scanMembers fuel (N.pred depth) rest with
                    | Some (members, after) => Some (DObject members, after)
                    | None => None
                    end
              end
          else if (c =? 91)%N then
            if (depth =? 0)%N then None
            else
              match skipSpace rest with
              | [] => None
              | c' :: rest' =>
                  if (c' =? 93)%N then Some (DArray [], rest')
                  else
                    match scanElements fuel (N.pred depth) rest with
                    | Some (elements, after) => Some (DArray elements, after)
                    | None => None
                    end
              end
          else if (c =? 34)%N then
            match scanString rest with
            | Some (raw, after) => Some (DString (unquote raw), after)
            | None => None
            end
          else if (c =? 45)%N || isDigit c then scanNumber (c :: rest)
          else if (c =? 116)%N then
            match afterWord [114; 117; 101]%N rest with
            | Some after => Some (DBool true, after)
            | None => None
            end
          else if (c =? 102)%N then
            match afterWord [97; 108; 115; 101]%N rest with
            | Some after => Some (DBool false, after)
            | None => None
            end
          else if (c =? 110)%N then
            match afterWord [117; 108; 108]%N rest with
            | Some after => Some (DNull, after)
            | None => None
            end
          else None
      end
  end
with scanElements (fuel : nat) (depth : N) (s : list N) {struct fuel}
  : option (list document * list N) :=
  match fuel with
  | O => None
  | S fuel =>
      match scanValue fuel depth s with
      | None => None
      | Some (element, rest) =>
          match skipSpace rest with
          | [] => None
          | c :: rest' =>
              if (c =? 44)%N then
                match scanElements fuel depth rest' with
                | Some (elements, after) => Some (element :: elements, after)
                | None => None
                end
              else if (c =? 93)%N then Some ([element], rest')
              else None
          end
      end
  end
with scanMembers (fuel : nat) (depth : N) (s : list N) {struct fuel}
  : option (list (string * document) * list N) :=
  match fuel with
  | O => None
  | S fuel =>
      match skipSpace s with
      | [] => None
      | q :: rest =>
          if (q =? 34)%N then
            match scanString rest with
            | None => None
            | Some (raw, rest) =>
                match skipSpace rest with
                | [] => None
                | colon :: rest =>
                    if (colon =? 58)%N then
                      match scanValue fuel depth rest with
                      | None => None
                      | Some (v, rest) =>
                          match skipSpace rest with
                          | [] => None
                          | c :: rest' =>
                              if (c =? 44)%N then
                                match scanMembers fuel depth rest' with
                                | Some (members, after) =>
                                    Some ((unquote raw, v) :: members, after)
                                | None => None
                                end
                              else if (c =? 125)%N then
                                Some ([(unquote raw, v)], rest')
                              else None
                          end
                      end
                    else None
                end
            end
          else None
      end
  end.

(** The JSON text of a line: one value, white space around it and
    nothing else, nested at most 10000 deep. *)
Definition scanText (line : string) : option document :=
  let s := bytesOf line in
  match scanValue (2 * length s + 2) 10000 s with
  | Some (doc, rest) =>
      match skipSpace rest with
      | [] => Some doc
      | _ :: _ => None
      end
  | None => None
  end.

(** ** Decoding into an [interface{}] *)

(** What the decoder makes of a JSON text inside an [interface{}]:
    [nil], [bool], [float64], [string], [[]interface{}] and
    [map[string]interface{}], a later member of an object overwriting an
    earlier one with the same key.  A number beyond the range of [float64]
    is left out as [nil], and reported, see [outOfRange]. *)
Fixpoint interfaceOf (doc : document) : value :=
  match doc with
  | DNull => VNil
  | DBool b => VBool b
  | DNumber negative digits exponent =>
      let f := ParseFloat negative digits exponent in
      if rangeError f then VNil else VFloat64 f
  | DString s => VString s
  | DArray elements => VSlice (List.map interfaceOf elements)
  | DObject members =>
      VMap (fold_left
              (fun (m : gmap string value) (member : string * document) =>
                 let '(key, v) := member in <[key:=interfaceOf v]> m)
              members ∅)
  end.

(** Whether a JSON text holds a number beyond the range of [float64]:
    the decoder then goes on, and returns an [UnmarshalTypeError] in the
    end. *)
Fixpoint outOfRange (doc : document) : bool :=
  match doc with
  | DNumber negative digits exponent =>
      rangeError (ParseFloat negative digits exponent)
  | DArray elements => existsb outOfRange elements
  | DObject members =>
      existsb (fun member : string * document => let '(_, v) := member in outOfRange v)
        members
  | _ => false
  end.

(** ** Decoding into the request *)

(** The fields of [MCPRequest], by their JSON names. *)
Inductive field : Type :=
  | FieldJSONRPC
  | FieldID
  | FieldMethod
  | FieldParams.

(** [foldName], the case folding of a key, as far as it bears on names
    made of ASCII letters: an ASCII letter goes to its capital, and so do
    the two letters beyond ASCII whose folding is an ASCII letter, U+017F
    (long s, the bytes 197 191) and U+212A (Kelvin sign, the bytes 226 132
    170).  Any other rune beyond ASCII folds to a rune beyond ASCII; its
    bytes are left as they are. *)
Definition capital (c : ascii) : ascii :=
  let n := N_of_ascii c in
  if (97 <=? n)%N && (n <=? 122)%N then ascii_of_N (n - 32) else c.

Fixpoint foldName (key : string) : string :=
  match key with
  | EmptyString => EmptyString
  | String c rest =>
      match rest with
      | String c' rest' =>
          if (N_of_ascii c =? 197)%N && (N_of_ascii c' =? 191)%N then
            String "S" (foldName rest')
          else
            match rest' with
            | String c'' rest'' =>
                if (N_of_ascii c =? 226)%N && (N_of_ascii c' =? 132)%N
                   && (N_of_ascii c'' =? 170)%N then
                  String "K" (foldName rest'')
                else String (capital c) (foldName rest)
            | EmptyString => String (capital c) (foldName rest)
            end
      | EmptyString => String (capital c) (foldName rest)
      end
  end.

(** The field a key of the object stands for: the one whose name is the
    key, or else the one whose name is the key up to case; no two names of
    [MCPRequest] are equal up to case.  Any other key is skipped. *)
Definition fieldOf (key : string) : option field :=
  let folded := foldName key in
  if String.eqb folded "JSONRPC" then Some FieldJSONRPC
  else if String.eqb folded "ID" then Some FieldID
  else if String.eqb folded "METHOD" then Some FieldMethod
  else if String.eqb folded "PARAMS" then Some FieldParams
  else None.

(** A JSON text stored in a field of type [string]: a string is stored,
    null leaves the field as it is, anything else leaves it as it is and
    is a type error. *)
Definition storeString (old : string) (doc : document) : string * bool :=
  match doc with
  | DString s => (s, false)
  | DNull => (old, false)
  | _ => (old, true)
  end.

(** A JSON text stored in a field of type [interface{}]: null stores
    [nil]; a number beyond the range of [float64] leaves the field as it
    is and is a type error; an array or an object is stored even when the
    decoder reports a number inside it. *)
Definition storeInterface (old : value) (doc : document) : value * bool :=
  match doc with
  | DNumber negative digits exponent =>
      let f := ParseFloat negative digits exponent in
      if rangeError f then (old, true) else (VFloat64 f, false)
  | _ => (interfaceOf doc, outOfRange doc)
  end.

(** One member of the object, on the request decoded so far and the flag
    of a type error met so far. *)
Definition decodeMember (sofar : MCPRequest * bool) (member : string * document)
  : MCPRequest * bool :=
  let '(request, failed) := sofar in
  let '(key, doc) := member in
  match fieldOf key with
  | Some FieldJSONRPC =>
      let '(s, bad) := storeString (reqJSONRPC request) doc in
      ({| reqJSONRPC := s; reqID := reqID request; Method := Method request;
          Params := Params request |}, failed || bad)
  | Some FieldID =>
      let '(v, bad) := storeInterface (reqID request) doc in
      ({| reqJSONRPC := reqJSONRPC request; reqID := v; Method := Method request;
          Params := Params request |}, failed || bad)
  | Some FieldMethod =>
      let '(s, bad) := storeString (Method request) doc in
      ({| reqJSONRPC := reqJSONRPC request; reqID := reqID request; Method := s;
          Params := Params request |}, failed || bad)
  | Some FieldParams =>
      let '(v, bad) := storeInterface (Params request) doc in
      ({| reqJSONRPC := reqJSONRPC request; reqID := reqID request;
          Method := Method request; Params := v |}, failed || bad)
  | None => sofar
  end.

(** A valid JSON text decoded into a fresh [MCPRequest]: the members of
    an object one after the other, null without effect, any other text a
    type error. *)
Definition decodeRequest (doc : document) : MCPRequest * bool :=
  match doc with
  | DNull => (zeroRequest, false)
  | DObject members => fold_left decodeMember members (zeroRequest, false)
  | _ => (zeroRequest, true)
  end.

Section Unmarshal.

(** The scanner: the JSON text a line spells, or the [SyntaxError] for a
    line that is no JSON text ([scanLine] below, up to the message of the
    error); and the message of the [UnmarshalTypeError] the decoder
    returns for a line with a type error, the first it met. *)
Variable scan : string -> document + error.
Variable typeError : string -> error.

(** [json.Unmarshal([]byte(line), &request)] on a fresh [request]. *)
Definition Unmarshal (line : string) : MCPRequest * option error :=
  match scan line with
  | inr err => (zeroRequest, Some err)
  | inl doc =>
      let '(request, failed) := decodeRequest doc in
      (request, if failed then Some (typeError line) else None)
  end.

End Unmarshal.

(** The scanner of [encoding/json] on a line: the JSON text, or the
    [SyntaxError], given by its message. *)
Definition scanLine (syntaxError : string -> error) (line : string)
  : document + error :=
  match scanText line with
  | Some doc => inl doc
  | None => inr (syntaxError line)
  end.

(** ** Notions used to state the properties *)





Definition isInteger (f : float64) (z : Z) : bool :=
  match f with
  | S754_zero _ => z =? 0
  | S754_finite sign m e =>
      let n := if sign then Z.neg m else Z.pos m in
      if 0 <=? e then n * 2 ^ e =? z else n =? z * 2 ^ (- e)
  | _ => false
  end.

End encodingjson.

(* ================================================================== *)
(** * Package [main] *)
(* ================================================================== *)

Module main.
Import tools server.

(** How the process ends: [main] returns (status 0), [log.Fatalf] prints
    and calls [os.Exit(1)], a run-time panic nobody recovers ends the
    process with status 2. *)
Inductive termination : Type :=
  | Exit0
  | Fatal (msg : string)
  | Panic (msg : string).

Definition exitCode (t : termination) : Z :=
  match t with
  | Exit0 => 0
  | Fatal _ => 1
  | Panic _ => 2
  end.

Section Main.

Context {World : Type}.

(** The method sets of the three clients (the HTTP calls behind
    [GithubTool], [JiraTool] and [NotionTool]) and the JSON decoder of the
    transport loop. *)
Variable githubTool : github.GithubClient -> GithubTool World.
Variable jiraTool : jira.JiraClient -> JiraTool World.
Variable notionTool : notion.NotionClient -> NotionTool World.
Variable Unmarshal : string -> MCPRequest * option error.

(** [func main()], in a file system, an environment, with the lines of
    standard input and a state of the remote services. *)
Definition main (fs : gmap string config.yamlDoc) (env : gmap string string)
    (stdin : list string) (w : World) : termination * state World :=
  let st := {| world := w; stdout := [] |} in
  match config.LoadConfig fs env "config.yml" with
  | inr err => (Fatal ("Error loading config: " +:+ err), st)
  | inl cfg =>
      let githubClient := github.NewGithubClient (config.GithubToken cfg) in
      match jira.NewJiraClient (config.JiraURL cfg) (config.JiraUsername cfg)
              (config.JiraToken cfg) with
      | Panicked msg => (Panic msg, st)
      | Returned (inr err) => (Fatal ("Error creating Jira client: " +:+ err), st)
      | Returned (inl jiraClient) =>
          let notionClient := notion.NewNotionClient (config.NotionToken cfg) in
          let srv := {| Github := githubTool githubClient;
                        Jira := jiraTool jiraClient;
                        Notion := notionTool notionClient |} in
          let '(_, st) := Start Unmarshal srv stdin st in
          (Exit0, st)
      end
  end.

(** The server [main] builds from a configuration and a Jira client. *)
Definition serverOf (cfg : config.Config) (jiraClient : jira.JiraClient)
  : MCPServer World :=
  {| Github := githubTool (github.NewGithubClient (config.GithubToken cfg));
     Jira := jiraTool jiraClient;
     Notion := notionTool (notion.NewNotionClient (config.NotionToken cfg)) |}.

End Main.

End main.

(* ================================================================== *)
(** * Package [jira]: the methods of the client *)
(* ================================================================== *)

Module jirahttp.
Import jira.

(** ** [encoding/base64], the standard encoding with padding *)

Definition base64Alphabet : string :=
  "ABCDEFGHIJKLMNOPQRSTUVWXYZabcdefghijklmnopqrstuvwxyz0123456789+/".

Definition base64Digit (n : N) : ascii :=
  default "="%char (String.get (N.to_nat n) base64Alphabet).

Fixpoint base64Encode (bytes : list N) : string :=
  match bytes with
  | [] => ""
  | [a] =>
      String (base64Digit (a / 4))
        (String (base64Digit (a mod 4 * 16)) "==")
  | [a; b] =>
      String (base64Digit (a / 4))
        (String (base64Digit (a mod 4 * 16 + b / 16))
           (String (base64Digit (b mod 16 * 4)) "="))
  | a :: b :: c :: rest =>
      String (base64Digit (a / 4))
        (String (base64Digit (a mod 4 * 16 + b / 16))
           (String (base64Digit (b mod 16 * 4 + c / 64))
              (String (base64Digit (c mod 64)) (base64Encode rest))))
  end%N.

(** [base64.StdEncoding.EncodeToString([]byte(s))]. *)
Definition EncodeToString (s : string) : string :=
  base64Encode (N_of_ascii <$> list_ascii_of_string s).

(** ** The types of the responses and requests *)

(** The description of an issue, in the Atlassian Document Format: the
    anonymous struct types of [JiraIssue] and [JiraCreateIssueRequest],
    which have the same fields. *)
Record ADFItem : Type := { itemType : string; itemText : string }.
Record ADFBlock : Type := { blockType : string; blockContent : list ADFItem }.
Record ADFDoc : Type := {
  docType : string;
  docVersion : Z;
  docContent : list ADFBlock;
}.

(** [type JiraUser struct]. *)
Record JiraUser : Type := {
  AccountID : string;
  DisplayName : string;
  EmailAddress : string;
}.

(** [type JiraIssue struct]; [Assignee] is a pointer, [None] when nil.
    The anonymous struct [Status] is kept by its one field, [Name]. *)
Record IssueFields : Type := {
  Summary : string;
  Description : ADFDoc;
  StatusName : string;
  Assignee : option JiraUser;
}.

Record JiraIssue : Type := {
  ID : string;
  Key : string;
  Fields : IssueFields;
}.

(** [type JiraSearchResponse struct]. *)
Record JiraSearchResponse : Type := {
  Issues : list JiraIssue;
  Total : Z;
}.

(** [type JiraCreateIssueRequest struct], by the four leaves of its
    [Fields]: [Project.Key], [Summary], [Description], [IssueType.Name]. *)
Record JiraCreateIssueRequest : Type := {
  ProjectKey : string;
  NewSummary : string;
  NewDescription : ADFDoc;
  IssueTypeName : string;
}.

(** The bytes of a request body, by the value [json.Marshal] encoded:
    the search request (a map of a string, an int and a [[]string]) or the
    create request.  [json.Marshal] does not fail on either. *)
Inductive payload : Type :=
  | SearchPayload (jql : string) (maxResults : Z) (fields : list string)
  | CreatePayload (r : JiraCreateIssueRequest).

(** An [*http.Request] as [makeRequest] builds it, and an
    [*http.Response] as the methods read it: the status code, and what
    [io.ReadAll] gives for the body (the bytes read, and the error that
    stopped the reading, if any). *)
Record Request : Type := {
  Method : string;
  URL : string;
  Header : gmap string string;
  Body : option payload;
}.

Record Response : Type := {
  StatusCode : Z;
  ReadAll : string * option error;
}.

(** ** The helpers *)

(** [func getAssigneeName(assignee *JiraUser) string]. *)
Definition getAssigneeName (assignee : option JiraUser) : string :=
  match assignee with
  | None => "Unassigned"
  | Some assignee =>
      if negb (isEmpty (DisplayName assignee)) then DisplayName assignee
      else EmailAddress assignee
  end.

(** [func extractDescriptionText(description struct{...}) string]: the two
    nested loops, appending to [text]. *)
Definition extractItems (text : string) (items : list ADFItem) : string :=
  foldl (fun text item =>
           if String.eqb (itemType item) "text" then text +:+ itemText item +:+ " "
           else text)
    text items.

Definition extractDescriptionText (description : ADFDoc) : string :=
  foldl (fun text content =>
           if String.eqb (blockType content) "paragraph" then
             extractItems text (blockContent content) +:+ String "010" ""
           else text)
    "" (docContent description).

Section Methods.

Context {World : Type}.

(** From [net/http], outside the repository: the error of
    [http.NewRequest] for a method and a URL, if any, and the round trip
    [httpClient.Do] over the network. *)
Variable newRequestError : string -> string -> option error.
Variable Do : Request -> World -> (Response + error) * World.

(** From [encoding/json]: the decoding of a response body into the struct
    of each method. *)
Variable unmarshalIssue : string -> JiraIssue + error.
Variable unmarshalSearch : string -> JiraSearchResponse + error.
Variable unmarshalCreated : string -> string + error.

(** [func (c *JiraClient) makeRequest(method, endpoint string, body []byte)]. *)
Definition makeRequest (c : JiraClient) (method endpoint : string)
    (body : option payload) : World -> (Response + error) * World :=
  fun w =>
    let url := baseURL c +:+ "rest/api/3/" +:+ endpoint in
    match newRequestError method url with
    | Some err => (inr ("failed to create request: " +:+ err), w)
    | None =>
        (* Set up Basic Authentication *)
        let auth := EncodeToString (username c +:+ ":" +:+ token c) in
        let header : gmap string string :=
          <["Accept":="application/json"]>
            (<["Authorization":="Basic " +:+ auth]> ∅) in
        let header :=
          if String.eqb method "POST" || String.eqb method "PUT" then
            <["Content-Type":="application/json"]> header
          else header in
        Do {| Method := if isEmpty method then "GET" else method;
              URL := url;
              Header := header;
              Body := body |} w
    end.

(** The text of one ticket. *)
Definition ticketText (issue : JiraIssue) : string :=
  "ID: " +:+ Key issue +:+ String "010" ""
  +:+ "Summary: " +:+ Summary (Fields issue) +:+ String "010" ""
  +:+ "Status: " +:+ StatusName (Fields issue) +:+ String "010" ""
  +:+ "Assignee: " +:+ getAssigneeName (Assignee (Fields issue)) +:+ String "010" ""
  +:+ "Description: " +:+ extractDescriptionText (Description (Fields issue))
  +:+ String "010" "".

(** [func (c *JiraClient) GetTicketByID(ticketID string) (string, error)]. *)
Definition GetTicketByID (c : JiraClient) (ticketID : string) : remote World :=
  fun w =>
    if isEmpty ticketID then (("", Some "ticket ID cannot be empty"), w)
    else
      let '(r, w) := makeRequest c "GET" ("issue/" +:+ ticketID) None w in
      match r with
      | inr err =>
          (("", Some ("failed to make request for ticket " +:+ ticketID
                      +:+ ": " +:+ err)), w)
      | inl response =>
          if negb (StatusCode response =? 200) then
            let body := (ReadAll response).1 in
            (("", Some ("failed to get ticket " +:+ ticketID +:+ " (HTTP "
                        +:+ pretty (StatusCode response) +:+ "): " +:+ body)), w)
          else
            match ReadAll response with
            | (_, Some err) =>
                (("", Some ("failed to read response body: " +:+ err)), w)
            | (body, None) =>
                match unmarshalIssue body with
                | inr err => (("", Some ("failed to parse response: " +:+ err)), w)
                | inl issue => ((ticketText issue, None), w)
                end
            end
      end.

(** The text of one search hit. *)
Definition hitText (issue : JiraIssue) : string :=
  "Key: " +:+ Key issue +:+ String "010" ""
  +:+ "Summary: " +:+ Summary (Fields issue) +:+ String "010" ""
  +:+ "Status: " +:+ StatusName (Fields issue) +:+ String "010" ""
  +:+ "Assignee: " +:+ getAssigneeName (Assignee (Fields issue))
  +:+ String "010" (String "010" "").

(** [func (c *JiraClient) SearchTickets(jql string) (string, error)]. *)
Definition SearchTickets (c : JiraClient) (jql : string) : remote World :=
  fun w =>
    if isEmpty jql then (("", Some "JQL query cannot be empty"), w)
    else
      let searchRequest := SearchPayload jql 50 ["summary"; "status"; "assignee"] in
      let '(r, w) := makeRequest c "POST" "search" (Some searchRequest) w in
      match r with
      | inr err => (("", Some ("failed to make search request: " +:+ err)), w)
      | inl response =>
          if negb (StatusCode response =? 200) then
            let body := (ReadAll response).1 in
            (("", Some ("failed to search tickets with JQL '" +:+ jql
                        +:+ "' (HTTP " +:+ pretty (StatusCode response)
                        +:+ "): " +:+ body)), w)
          else
            match ReadAll response with
            | (_, Some err) =>
                (("", Some ("failed to read response body: " +:+ err)), w)
            | (body, None) =>
                match unmarshalSearch body with
                | inr err =>
                    (("", Some ("failed to parse search response: " +:+ err)), w)
                | inl searchResponse =>
                    if (Z.of_nat (length (Issues searchResponse)) =? 0) then
                      (("No tickets found matching the query.", None), w)
                    else
                      let result :=
                        foldl (fun result issue => result +:+ hitText issue)
                          "" (Issues searchResponse) in
                      ((result, None), w)
                end
            end
      end.

(** [func (c *JiraClient) CreateTicket(projectKey string, summary string,
    description string) (string, error)]. *)
Definition CreateTicket (c : JiraClient) (projectKey summary description : string)
  : remote World :=
  fun w =>
    if isEmpty projectKey then (("", Some "project key cannot be empty"), w)
    else if isEmpty summary then (("", Some "summary cannot be empty"), w)
    else
      (* Set up description in the Atlassian Document Format *)
      let content :=
        if negb (isEmpty description) then
          [{| blockType := "paragraph";
              blockContent := [{| itemType := "text"; itemText := description |}] |}]
        else [] in
      let createRequest :=
        {| ProjectKey := projectKey;
           NewSummary := summary;
           NewDescription :=
             {| docType := "doc"; docVersion := 1; docContent := content |};
           IssueTypeName := "Task" |} in
      let '(r, w) := makeRequest c "POST" "issue" (Some (CreatePayload createRequest)) w in
      match r with
      | inr err => (("", Some ("failed to make create request: " +:+ err)), w)
      | inl response =>
          if negb (StatusCode response =? 201) then
            let body := (ReadAll response).1 in
            (("", Some ("failed to create ticket (HTTP "
                        +:+ pretty (StatusCode response) +:+ "): " +:+ body)), w)
          else
            match ReadAll response with
            | (_, Some err) =>
                (("", Some ("failed to read response body: " +:+ err)), w)
            | (body, None) =>
                match unmarshalCreated body with
                | inr err =>
                    (("", Some ("failed to parse create response: " +:+ err)), w)
                | inl key =>
                    (("Created ticket: " +:+ key +:+ " - " +:+ summary, None), w)
                end
            end
      end.

(** [var _ tools.JiraTool = &JiraClient{}]: the client as the interface
    value the server holds. *)
Definition asJiraTool (c : JiraClient) : tools.JiraTool World :=
  {| tools.GetTicketByID := GetTicketByID c;
     tools.SearchTickets := SearchTickets c;
     tools.CreateTicket := CreateTicket c |}.

(** ** Notions used to state the properties *)

(** A method makes exactly one round trip, with a given request: its
    result is computed from the answer to that request, and the world is
    the one the round trip leaves.  A method makes no round trip: it has a
    fixed result and leaves the world as it is. *)
Definition oneRoundTrip (method : remote World) (request : Request) : Prop :=
  exists k : Response + error -> string * option error,
    forall w, method w = (k (Do request w).1, (Do request w).2).

Definition noRoundTrip (method : remote World) (result : string * option error)
  : Prop :=
  forall w, method w = (result, w).

(** The credentials of a client, as a request carries them. *)
Definition authorized (c : JiraClient) (request : Request) : Prop :=
  Header request !! "Authorization"
  = Some ("Basic " +:+ EncodeToString (username c +:+ ":" +:+ token c))
  /\ Header request !! "Accept" = Some "application/json".

(** The description [CreateTicket] sends. *)
Definition descriptionOf (description : string) : ADFDoc :=
  {| docType := "doc";
     docVersion := 1;
     docContent :=
       if isEmpty description then []
       else [{| blockType := "paragraph";
                blockContent :=
                  [{| itemType := "text"; itemText := description |}] |}] |}.

End Methods.

End jirahttp.

(* ================================================================== *)
(** * Package [notion]: page identifiers and the page lookup *)
(* ================================================================== *)

Module notionapi.
Import notion.

(** [strings.TrimPrefix(s, prefix)]. *)
Definition TrimPrefix (s prefix : string) : string :=
  if String.prefix prefix s then
    String.substring (String.length prefix)
      (String.length s - String.length prefix) s
  else s.

(** [strings.Split(s, sep)] for a separator of one byte: the pieces of [s]
    between the occurrences of the separator, at least one piece. *)
Fixpoint Split (s : string) (sep : ascii) : list string :=
  match s with
  | EmptyString => [""]
  | String a rest =>
      if Ascii.eqb a sep then "" :: Split rest sep
      else match Split rest sep with
           | piece :: pieces => String a piece :: pieces
           | [] => [String a ""]
           end
  end.

(** [strings.Join(parts, sep)] for a separator of one byte, and whether a
    string has a given byte. *)
Fixpoint Join (parts : list string) (sep : ascii) : string :=
  match parts with
  | [] => ""
  | [part] => part
  | part :: rest => part +:+ String sep (Join rest sep)
  end.

Fixpoint contains (s : string) (c : ascii) : bool :=
  match s with
  | EmptyString => false
  | String a rest => Ascii.eqb a c || contains rest c
  end.

(** The index expression [parts[i]] on a slice: [None] stands for the
    run-time panic. *)
Definition sliceAt (parts : list string) (i : Z) : option string :=
  if (i <? 0) || (Z.of_nat (length parts) <=? i) then None
  else parts !! Z.to_nat i.

(** A page as the methods read it; the two times by their [%s]
    rendering. *)
Record Page : Type := {
  PageID : string;
  PageURL : string;
  CreatedTime : string;
  LastEditedTime : string;
}.

Section Methods.

Context {World : Type}.

(** From [net/url]: the [Path] of [url.Parse(pageURL)], or its error. *)
Variable parsePath : string -> string + error.

(** From the Notion SDK: [FindPageByID]. *)
Variable FindPageByID : string -> World -> (Page + error) * World.

(** [func extractPageIDFromURL(pageURL string) (string, error)]. *)
Definition extractPageIDFromURL (pageURL : string) : outcome (string + error) :=
  match parsePath pageURL with
  | inr err => Returned (inr err)
  | inl uPath =>
      let path := TrimPrefix uPath "/" in
      let parts := Split path "-" in
      if Z.of_nat (length parts) =? 0 then Returned (inr "invalid Notion URL")
      else
        (* The last part should be the page ID *)
        match sliceAt parts (Z.of_nat (length parts) - 1) with
        | None => Panicked "runtime error: index out of range"
        | Some pageID => Returned (inl pageID)
        end
  end.

(** [func (c *NotionClient) GetPageByURL(pageURL string) (string, error)]. *)
Definition GetPageByURL (c : NotionClient) (pageURL : string)
  : World -> outcome (string * option error) * World :=
  fun w =>
    match extractPageIDFromURL pageURL with
    | Panicked msg => (Panicked msg, w)
    | Returned (inr err) => (Returned ("", Some err), w)
    | Returned (inl pageID) =>
        let '(r, w) := FindPageByID pageID w in
        match r with
        | inr err => (Returned ("", Some err), w)
        | inl page =>
            (Returned
               ("Page ID: " +:+ PageID page +:+ String "010" ""
                +:+ "URL: " +:+ PageURL page +:+ String "010" ""
                +:+ "Created: " +:+ CreatedTime page +:+ String "010" ""
                +:+ "Last Edited: " +:+ LastEditedTime page, None), w)
        end
    end.

End Methods.

End notionapi.

(* ================================================================== *)
(** * Package [github]: the tag lookup *)
(* ================================================================== *)

Module githubapi.
Import github.

(** [github.Commit] and [github.RepositoryTag] of the SDK, by the fields
    read; each is a pointer, [None] when nil.  A nil element of the list
    of tags dereferences as a tag without a name does. *)
Record Commit : Type := { SHA : option string }.
Record RepositoryTag : Type := {
  TagName : option string;
  TagCommit : option Commit;
}.

(** A tag with a name other than the one looked for. *)
Definition otherTag (tagName : string) (tag : RepositoryTag) : Prop :=
  exists name, TagName tag = Some name /\ name <> tagName.

Section Methods.

Context {World : Type}.

(** From the SDK: [Repositories.ListTags] for an owner and a repository,
    with nil options. *)
Variable ListTags : string -> string -> World -> (list RepositoryTag + error) * World.

(** The loop of [GetTag]: the first tag whose name is [tagName].  The
    dereferences [*tag.Name], [tag.Commit.SHA] and [*tag.Commit.SHA] panic
    on a nil pointer. *)
Fixpoint findTag (tags : list RepositoryTag) (tagName : string)
  : outcome (string * option error) :=
  match tags with
  | [] => Returned ("Tag not found", None)
  | tag :: rest =>
      match TagName tag with
      | None => Panicked "runtime error: invalid memory address or nil pointer dereference"
      | Some name =>
          if String.eqb name tagName then
            match TagCommit tag with
            | Some {| SHA := Some sha |} =>
                Returned ("Tag: " +:+ name +:+ String "010" "" +:+ "Commit: " +:+ sha,
                          None)
            | _ => Panicked "runtime error: invalid memory address or nil pointer dereference"
            end
          else findTag rest tagName
      end
  end.

(** [func (c *GithubClient) GetTag(owner string, repo string,
    tagName string) (string, error)]. *)
Definition GetTag (c : GithubClient) (owner repo tagName : string)
  : World -> outcome (string * option error) * World :=
  fun w =>
    let '(r, w) := ListTags owner repo w in
    match r with
    | inr err => (Returned ("", Some err), w)
    | inl tags => (findTag tags tagName, w)
    end.

End Methods.

End githubapi.

(* ================================================================== *)
(** * Test doubles *)
(* ================================================================== *)

Module double.
Import tools server.

(** An argument as a client method receives it. *)
Inductive arg : Type :=
  | AString (s : string)
  | AInt (z : Z)
  | ABool (b : bool)
  | AStrings (l : list string).

(** A recording client: its world is the list of the calls made so far,
    latest first, each with the method name and the arguments received;
    every call answers "ok" without error, except [GetTicketByID] on an
    empty ticket ID, which fails as the Jira client does. *)
Definition record (method : string) (args : list arg) : remote (list (string * list arg)) :=
  fun w => (("ok", None), (method, args) :: w).

Definition spyGithub : GithubTool (list (string * list arg)) := {|
  GetPullRequest owner repo n := record "GetPullRequest" [AString owner; AString repo; AInt n];
  GetPullRequestDiff owner repo n := record "GetPullRequestDiff" [AString owner; AString repo; AInt n];
  CreateIssue owner repo title body :=
    record "CreateIssue" [AString owner; AString repo; AString title; AString body];
  CreatePullRequest owner repo title body head base :=
    record "CreatePullRequest"
      [AString owner; AString repo; AString title; AString body; AString head; AString base];
  GetIssue owner repo n := record "GetIssue" [AString owner; AString repo; AInt n];
  ListBranches owner repo := record "ListBranches" [AString owner; AString repo];
  ListCommits owner repo := record "ListCommits" [AString owner; AString repo];
  SearchRepositories query := record "SearchRepositories" [AString query];
  SearchIssues query := record "SearchIssues" [AString query];
  GetWorkflows owner repo := record "GetWorkflows" [AString owner; AString repo];
  RunWorkflow owner repo workflowID ref :=
    record "RunWorkflow" [AString owner; AString repo; AString workflowID; AString ref];
  AddComment owner repo n body :=
    record "AddComment" [AString owner; AString repo; AInt n; AString body];
  GetComments owner repo n := record "GetComments" [AString owner; AString repo; AInt n];
  AssignCopilot owner repo n assignees :=
    record "AssignCopilot" [AString owner; AString repo; AInt n; AStrings assignees];
  CreateBranch owner repo branchName sha :=
    record "CreateBranch" [AString owner; AString repo; AString branchName; AString sha];
  CreateRepository name description private :=
    record "CreateRepository" [AString name; AString description; ABool private];
  GetCommit owner repo sha := record "GetCommit" [AString owner; AString repo; AString sha];
  GetReleaseByTag owner repo tagName :=
    record "GetReleaseByTag" [AString owner; AString repo; AString tagName];
  GetTag owner repo tagName := record "GetTag" [AString owner; AString repo; AString tagName];
  SearchCode query := record "SearchCode" [AString query];
  SearchPullRequests query := record "SearchPullRequests" [AString query];
|}.

Definition spyJira : JiraTool (list (string * list arg)) := {|
  GetTicketByID ticketID :=
    if isEmpty ticketID then fun w => (("", Some "ticket ID cannot be empty"), w)
    else record "GetTicketByID" [AString ticketID];
  SearchTickets jql := record "SearchTickets" [AString jql];
  CreateTicket projectKey summary description :=
    record "CreateTicket" [AString projectKey; AString summary; AString description];
|}.

Definition spyNotion : NotionTool (list (string * list arg)) := {|
  SearchPagesByTitle title := record "SearchPagesByTitle" [AString title];
  GetPageByURL url := record "GetPageByURL" [AString url];
  GetDatabase databaseID := record "GetDatabase" [AString databaseID];
  CreatePage parentID title content :=
    record "CreatePage" [AString parentID; AString title; AString content];
  CreateDatabase parentPageID title :=
    record "CreateDatabase" [AString parentPageID; AString title];
  UpdatePage pageID title content :=
    record "UpdatePage" [AString pageID; AString title; AString content];
  UpdateDatabase databaseID title :=
    record "UpdateDatabase" [AString databaseID; AString title];
|}.

Definition spy : MCPServer (list (string * list arg)) :=
  {| Github := spyGithub; Jira := spyJira; Notion := spyNotion |}.

(** JSON texts are written with apostrophes for the double quotes. *)
Fixpoint json (s : string) : string :=
  match s with
  | EmptyString => EmptyString
  | String c rest =>
      String (if Ascii.eqb c "'" then "034"%char else c) (json rest)
  end.

(** The [float64] 1 and 7. *)
Definition one : float64 := S754_finite false 4503599627370496 (-52).
Definition seven : float64 := S754_finite false 7881299347898368 (-50).

Definition listLine : string :=
  json "{'jsonrpc':'2.0','id':1,'method':'tools/list'}".
Definition callLine : string :=
  json "{'jsonrpc':'2.0','id':7,'method':'tools/call','params':{'name':'nope'}}".
Definition typeErrorLine : string :=
  json "{'jsonrpc':'2.0','id':7,'method':12}".
Definition brokenLine : string := "{not json".

(** A decoder for the lines above, with the readings [encoding/json] gives
    them; every other line is taken as a syntax error. *)
Definition decode (line : string) : MCPRequest * option error :=
  if String.eqb line listLine then
    ({| reqJSONRPC := "2.0"; reqID := VFloat64 one; Method := "tools/list";
        Params := VNil |}, None)
  else if String.eqb line callLine then
    ({| reqJSONRPC := "2.0"; reqID := VFloat64 seven; Method := "tools/call";
        Params := VMap (list_to_map [("name", VString "nope")]) |}, None)
  else if String.eqb line typeErrorLine then
    ({| reqJSONRPC := "2.0"; reqID := VFloat64 seven; Method := "";
        Params := VNil |},
     Some "json: cannot unmarshal number into Go struct field MCPRequest.method of type string")
  else if String.eqb line "null" then (zeroRequest, None)
  else (zeroRequest, Some "invalid character").

(** A tools/list request whose ID is 2^53 + 1. *)
Definition wideLine : string :=
  json "{'jsonrpc':'2.0','id':9007199254740993,'method':'tools/list'}".

(** The messages of the errors of the decoder: the same for every line
    that is no JSON text, and the one of [typeErrorLine]. *)
Definition syntaxError (line : string) : error := "invalid character".

Definition typeError (line : string) : error :=
  "json: cannot unmarshal number into Go struct field MCPRequest.method of type string".

(** [json.Unmarshal] with these messages. *)
Definition Unmarshal : string -> MCPRequest * option error :=
  encodingjson.Unmarshal (encodingjson.scanLine syntaxError) typeError.

(** Requests as decoded: a call of a tool that does not exist, a call
    without a tool name, and a call of [jira_get_ticket] without a ticket. *)
Definition nopeRequest : MCPRequest :=
  {| reqJSONRPC := "2.0"; reqID := VFloat64 seven; Method := "tools/call";
     Params := VMap (list_to_map [("name", VString "nope")]) |}.

Definition namelessRequest : MCPRequest :=
  {| reqJSONRPC := "2.0"; reqID := VFloat64 seven; Method := "tools/call";
     Params := VMap (list_to_map [("arguments", VMap ∅)]) |}.

Definition ticketRequest : MCPRequest :=
  {| reqJSONRPC := "2.0"; reqID := VFloat64 one; Method := "tools/call";
     Params := VMap (list_to_map
       [("name", VString "jira_get_ticket");
        ("arguments", VMap (list_to_map [("ticketID", VString "")]))]) |}.

(** A call of [github_get_pull_request] whose number is a string and
    whose repository is missing. *)
Definition pullRequest : MCPRequest :=
  {| reqJSONRPC := "2.0"; reqID := VString "a"; Method := "tools/call";
     Params := VMap (list_to_map
       [("name", VString "github_get_pull_request");
        ("arguments", VMap (list_to_map
           [("owner", VString "octo"); ("number", VString "7")]))]) |}.

(** Nothing called yet, nothing printed yet. *)
Definition idle : state (list (string * list arg)) :=
  {| world := []; stdout := [] |}.

(** A file system whose config.yml gives the Jira user name and token but
    no URL, one whose config.yml gives all three, and one without files. *)
Definition noURL : gmap string config.yamlDoc :=
  list_to_map
    [("config.yml", config.YamlMapping (list_to_map
        [("jira_username", "ann"); ("jira_token", "t0k")]))].

Definition complete : gmap string config.yamlDoc :=
  list_to_map
    [("config.yml", config.YamlMapping (list_to_map
        [("jira_username", "ann"); ("jira_token", "t0k");
         ("jira_url", "https://jira.example")]))].

(** A file system whose config.yml is readable but does not decode, and
    an environment that sets all five credentials. *)
Definition undecodable : gmap string config.yamlDoc :=
  list_to_map
    [("config.yml",
      config.YamlError "yaml: line 1: did not find expected node content")].

Definition allSet : gmap string string :=
  list_to_map
    [("NOTION_TOKEN", "n0t"); ("GITHUB_TOKEN", "gh0"); ("JIRA_TOKEN", "t0k");
     ("JIRA_URL", "https://jira.example"); ("JIRA_USERNAME", "ann")].

(** [main] with the recording clients and the table decoder. *)
Definition spyMain (fs : gmap string config.yamlDoc) (env : gmap string string)
    (stdin : list string)
  : main.termination * state (list (string * list arg)) :=
  main.main (fun _ => spyGithub) (fun _ => spyJira) (fun _ => spyNotion) decode
    fs env stdin [].

(** The decoder above, with the handshake line of a client. *)
Definition initLine : string :=
  json "{'jsonrpc':'2.0','id':1,'method':'initialize','params':{'protocolVersion':'2024-11-05'}}".

Definition handshake (line : string) : MCPRequest * option error :=
  if String.eqb line initLine then
    ({| reqJSONRPC := "2.0"; reqID := VFloat64 one; Method := "initialize";
        Params := VMap (list_to_map [("protocolVersion", VString "2024-11-05")]) |},
     None)
  else decode line.

(** A Jira server on the world of the recording clients: it records the
    method, the URL and the Authorization header of each request it
    receives, and answers every one with status 200 and the same body.
    The decoders below read any body as a fixed ticket. *)
Definition wire (request : jirahttp.Request) (w : list (string * list arg))
  : (jirahttp.Response + error) * list (string * list arg) :=
  (inl {| jirahttp.StatusCode := 200; jirahttp.ReadAll := ("{}", None) |},
   ("Do", [AString (jirahttp.Method request);
           AString (jirahttp.URL request);
           AString (default "" (jirahttp.Header request !! "Authorization"))])
   :: w).

Definition ticket : jirahttp.JiraIssue :=
  {| jirahttp.ID := "10001";
     jirahttp.Key := "K-1";
     jirahttp.Fields :=
       {| jirahttp.Summary := "Fix the build";
          jirahttp.Description := jirahttp.descriptionOf "It fails";
          jirahttp.StatusName := "Open";
          jirahttp.Assignee := None |} |}.

Definition jiraClient : jira.JiraClient :=
  {| jira.baseURL := "https://jira.example/";
     jira.username := "ann";
     jira.token := "t0k";
     jira.httpTimeout := 30 |}.

Definition wiredJira : JiraTool (list (string * list arg)) :=
  jirahttp.asJiraTool (fun _ _ => None) wire
    (fun _ => inl ticket)
    (fun _ => inl {| jirahttp.Issues := [ticket]; jirahttp.Total := 1 |})
    (fun _ => inl "K-2")
    jiraClient.

(** A repository with three tags, two of them named v1. *)
Definition tagList : list githubapi.RepositoryTag :=
  [{| githubapi.TagName := Some "v2";
      githubapi.TagCommit := Some {| githubapi.SHA := Some "c2" |} |};
   {| githubapi.TagName := Some "v1";
      githubapi.TagCommit := Some {| githubapi.SHA := Some "c1" |} |};
   {| githubapi.TagName := Some "v1";
      githubapi.TagCommit := None |}].

Definition listTags (owner repo : string) (w : list (string * list arg))
  : (list githubapi.RepositoryTag + error) * list (string * list arg) :=
  (inl tagList, ("ListTags", [AString owner; AString repo]) :: w).

End double.

(* ================================================================== *)
(** * The calls behind the tools *)
(* ================================================================== *)

Module calls.
Import tools server double.

(** What a client method is to receive for a parameter, given the entry of
    the argument mapping under the parameter's name: the value itself when
    it has the dynamic type of the parameter, the zero value of the Go type
    when the entry is absent or has another dynamic type.  A number is
    converted with [int], the elements of an array one by one, those that
    are no strings to the empty string. *)
Definition stringOf (v : option value) : string :=
  match v with Some (VString s) => s | _ => "" end.

Definition intOf (v : option value) : Z :=
  match v with Some (VFloat64 f) => int f | _ => 0 end.

Definition boolOf (v : option value) : bool :=
  match v with Some (VBool b) => b | _ => false end.

Definition stringsOf (v : option value) : list string :=
  match v with
  | Some (VSlice l) => (fun x => match x with VString s => s | _ => "" end) <$> l
  | _ => []
  end.

Definition received (ty : string) (v : option value) : arg :=
  if String.eqb ty "string" then AString (stringOf v)
  else if String.eqb ty "integer" then AInt (intOf v)
  else if String.eqb ty "boolean" then ABool (boolOf v)
  else if String.eqb ty "array" then AStrings (stringsOf v)
  else AStrings [].

(** The zero values: empty string, zero number, false, empty list. *)
Definition zeroArg (ty : string) : arg :=
  if String.eqb ty "string" then AString ""
  else if String.eqb ty "integer" then AInt 0
  else if String.eqb ty "boolean" then ABool false
  else AStrings [].

(** What a method receives for a parameter (name and type) from an
    argument mapping. *)
Definition passed (args : gmap string value) (q : string * string) : arg :=
  received q.2 (args !! q.1).

(** The method of the service clients that stands behind each tool, and
    the parameters of the tool it is given, in the order of the method's
    signature in package [tools]. *)
Definition routes : list (string * string * list (string * string)) :=
  [("github_get_pull_request", "GetPullRequest",
    [("owner", "string"); ("repo", "string"); ("number", "integer")]);
   ("github_get_pull_request_diff", "GetPullRequestDiff",
    [("owner", "string"); ("repo", "string"); ("number", "integer")]);
   ("github_create_issue", "CreateIssue",
    [("owner", "string"); ("repo", "string"); ("title", "string"); ("body", "string")]);
   ("github_create_pull_request", "CreatePullRequest",
    [("owner", "string"); ("repo", "string"); ("title", "string");
     ("body", "string"); ("head", "string"); ("base", "string")]);
   ("github_get_issue", "GetIssue",
    [("owner", "string"); ("repo", "string"); ("number", "integer")]);
   ("github_list_branches", "ListBranches",
    [("owner", "string"); ("repo", "string")]);
   ("github_list_commits", "ListCommits",
    [("owner", "string"); ("repo", "string")]);
   ("github_search_repositories", "SearchRepositories",
    [("query", "string")]);
   ("github_search_issues", "SearchIssues",
    [("query", "string")]);
   ("github_get_workflows", "GetWorkflows",
    [("owner", "string"); ("repo", "string")]);
   ("github_run_workflow", "RunWorkflow",
    [("owner", "string"); ("repo", "string"); ("workflowID", "string"); ("ref", "string")]);
   ("github_add_comment", "AddComment",
    [("owner", "string"); ("repo", "string"); ("number", "integer"); ("body", "string")]);
   ("github_get_comments", "GetComments",
    [("owner", "string"); ("repo", "string"); ("number", "integer")]);
   ("github_assign_copilot", "AssignCopilot",
    [("owner", "string"); ("repo", "string"); ("number", "integer"); ("assignees", "array")]);
   ("github_create_branch", "CreateBranch",
    [("owner", "string"); ("repo", "string"); ("branchName", "string"); ("sha", "string")]);
   ("github_create_repository", "CreateRepository",
    [("name", "string"); ("description", "string"); ("private", "boolean")]);
   ("github_get_commit", "GetCommit",
    [("owner", "string"); ("repo", "string"); ("sha", "string")]);
   ("github_get_release_by_tag", "GetReleaseByTag",
    [("owner", "string"); ("repo", "string"); ("tagName", "string")]);
   ("github_get_tag", "GetTag",
    [("owner", "string"); ("repo", "string"); ("tagName", "string")]);
   ("github_search_code", "SearchCode",
    [("query", "string")]);
   ("github_search_pull_requests", "SearchPullRequests",
    [("query", "string")]);
   ("jira_get_ticket", "GetTicketByID",
    [("ticketID", "string")]);
   ("jira_search_tickets", "SearchTickets",
    [("jql", "string")]);
   ("jira_create_ticket", "CreateTicket",
    [("projectKey", "string"); ("summary", "string"); ("description", "string")]);
   ("notion_search_pages", "SearchPagesByTitle",
    [("title", "string")]);
   ("notion_get_page", "GetPageByURL",
    [("url", "string")]);
   ("notion_get_database", "GetDatabase",
    [("databaseID", "string")]);
   ("notion_create_page", "CreatePage",
    [("parentID", "string"); ("title", "string"); ("content", "string")]);
   ("notion_create_database", "CreateDatabase",
    [("parentPageID", "string"); ("title", "string")]);
   ("notion_update_page", "UpdatePage",
    [("pageID", "string"); ("title", "string"); ("content", "string")]);
   ("notion_update_database", "UpdateDatabase",
    [("databaseID", "string"); ("title", "string")])].

(** The method and the parameters the table gives for a tool. *)
Definition routeOf (name : string) : option (string * list (string * string)) :=
  (fun '(_, method, params) => (method, params))
    <$> List.find (fun '(n, _, _) => String.eqb n name) routes.

(** Every parameter the table gives to a method: tool name, parameter
    name, JSON-schema type. *)
Definition routeParameters : list (string * string * string) :=
  flat_map (fun '(name, _, params) => (fun '(p, ty) => (name, p, ty)) <$> params)
    routes.

Section Invoke.

Context {World : Type}.

(** A call that is none of the methods of the three interfaces with
    arguments of its signature. *)
Definition noSuchCall : remote World :=
  fun w => (("", Some "no such call"), w).

(** The call of a client method of a server, by the name of the method and
    the arguments, in order. *)
Definition invoke (s : MCPServer World) (method : string) (args : list arg)
  : remote World :=
  if String.eqb method "GetPullRequest" then
    match args with
    | [AString owner; AString repo; AInt n] => GetPullRequest (Github s) owner repo n
    | _ => noSuchCall
    end
  else if String.eqb method "GetPullRequestDiff" then
    match args with
    | [AString owner; AString repo; AInt n] => GetPullRequestDiff (Github s) owner repo n
    | _ => noSuchCall
    end
  else if String.eqb method "CreateIssue" then
    match args with
    | [AString owner; AString repo; AString title; AString body] => CreateIssue (Github s) owner repo title body
    | _ => noSuchCall
    end
  else if String.eqb method "CreatePullRequest" then
    match args with
    | [AString owner; AString repo; AString title; AString body; AString head;
       AString base] =>
        CreatePullRequest (Github s) owner repo title body head base
    | _ => noSuchCall
    end
  else if String.eqb method "GetIssue" then
    match args with
    | [AString owner; AString repo; AInt n] => GetIssue (Github s) owner repo n
    | _ => noSuchCall
    end
  else if String.eqb method "ListBranches" then
    match args with
    | [AString owner; AString repo] => ListBranches (Github s) owner repo
    | _ => noSuchCall
    end
  else if String.eqb method "ListCommits" then
    match args with
    | [AString owner; AString repo] => ListCommits (Github s) owner repo
    | _ => noSuchCall
    end
  else if String.eqb method "SearchRepositories" then
    match args with
    | [AString query] => SearchRepositories (Github s) query
    | _ => noSuchCall
    end
  else if String.eqb method "SearchIssues" then
    match args with
    | [AString query] => SearchIssues (Github s) query
    | _ => noSuchCall
    end
  else if String.eqb method "GetWorkflows" then
    match args with
    | [AString owner; AString repo] => GetWorkflows (Github s) owner repo
    | _ => noSuchCall
    end
  else if String.eqb method "RunWorkflow" then
    match args with
    | [AString owner; AString repo; AString workflowID; AString ref] => RunWorkflow (Github s) owner repo workflowID ref
    | _ => noSuchCall
    end
  else if String.eqb method "AddComment" then
    match args with
    | [AString owner; AString repo; AInt n; AString body] => AddComment (Github s) owner repo n body
    | _ => noSuchCall
    end
  else if String.eqb method "GetComments" then
    match args with
    | [AString owner; AString repo; AInt n] => GetComments (Github s) owner repo n
    | _ => noSuchCall
    end
  else if String.eqb method "AssignCopilot" then
    match args with
    | [AString owner; AString repo; AInt n; AStrings assignees] => AssignCopilot (Github s) owner repo n assignees
    | _ => noSuchCall
    end
  else if String.eqb method "CreateBranch" then
    match args with
    | [AString owner; AString repo; AString branchName; AString sha] => CreateBranch (Github s) owner repo branchName sha
    | _ => noSuchCall
    end
  else if String.eqb method "CreateRepository" then
    match args with
    | [AString name; AString description; ABool private] => CreateRepository (Github s) name description private
    | _ => noSuchCall
    end
  else if String.eqb method "GetCommit" then
    match args with
    | [AString owner; AString repo; AString sha] => GetCommit (Github s) owner repo sha
    | _ => noSuchCall
    end
  else if String.eqb method "GetReleaseByTag" then
    match args with
    | [AString owner; AString repo; AString tagName] => GetReleaseByTag (Github s) owner repo tagName
    | _ => noSuchCall
    end
  else if String.eqb method "GetTag" then
    match args with
    | [AString owner; AString repo; AString tagName] => GetTag (Github s) owner repo tagName
    | _ => noSuchCall
    end
  else if String.eqb method "SearchCode" then
    match args with
    | [AString query] => SearchCode (Github s) query
    | _ => noSuchCall
    end
  else if String.eqb method "SearchPullRequests" then
    match args with
    | [AString query] => SearchPullRequests (Github s) query
    | _ => noSuchCall
    end
  else if String.eqb method "GetTicketByID" then
    match args with
    | [AString ticketID] => GetTicketByID (Jira s) ticketID
    | _ => noSuchCall
    end
  else if String.eqb method "SearchTickets" then
    match args with
    | [AString jql] => SearchTickets (Jira s) jql
    | _ => noSuchCall
    end
  else if String.eqb method "CreateTicket" then
    match args with
    | [AString projectKey; AString summary; AString description] => CreateTicket (Jira s) projectKey summary description
    | _ => noSuchCall
    end
  else if String.eqb method "SearchPagesByTitle" then
    match args with
    | [AString title] => SearchPagesByTitle (Notion s) title
    | _ => noSuchCall
    end
  else if String.eqb method "GetPageByURL" then
    match args with
    | [AString url] => GetPageByURL (Notion s) url
    | _ => noSuchCall
    end
  else if String.eqb method "GetDatabase" then
    match args with
    | [AString databaseID] => GetDatabase (Notion s) databaseID
    | _ => noSuchCall
    end
  else if String.eqb method "CreatePage" then
    match args with
    | [AString parentID; AString title; AString content] => CreatePage (Notion s) parentID title content
    | _ => noSuchCall
    end
  else if String.eqb method "CreateDatabase" then
    match args with
    | [AString parentPageID; AString title] => CreateDatabase (Notion s) parentPageID title
    | _ => noSuchCall
    end
  else if String.eqb method "UpdatePage" then
    match args with
    | [AString pageID; AString title; AString content] => UpdatePage (Notion s) pageID title content
    | _ => noSuchCall
    end
  else if String.eqb method "UpdateDatabase" then
    match args with
    | [AString databaseID; AString title] => UpdateDatabase (Notion s) databaseID title
    | _ => noSuchCall
    end
  else noSuchCall.

End Invoke.

(** A Jira client that records every call, the one with an empty ticket
    ID included, and the server made of the three recording clients. *)
Definition recordingJira : JiraTool (list (string * list arg)) := {|
  GetTicketByID ticketID := record "GetTicketByID" [AString ticketID];
  SearchTickets jql := record "SearchTickets" [AString jql];
  CreateTicket projectKey summary description :=
    record "CreateTicket" [AString projectKey; AString summary; AString description];
|}.

Definition recorder : MCPServer (list (string * list arg)) :=
  {| Github := spyGithub; Jira := recordingJira; Notion := spyNotion |}.

End calls.

(* ================================================================== *)
(** * Properties *)
(* ================================================================== *)

Import tools server.

(** ** Configuration *)

Section ConfigFacts.

Import config.

Variables (fs : gmap string yamlDoc) (env : gmap string string).

Lemma loadLayer_usable path cfg :
  layerUsable fs path ->
  exists cfg', loadLayer fs path cfg = inl cfg'
    /\ forall f, fieldOf f cfg' = default (fieldOf f cfg) (layerValue fs path f).
Proof.
  unfold layerUsable, loadLayer, layerValue. intros Hok.
  destruct (ReadFile fs path) as [[e|m]|] eqn:Hread.
  - exfalso. by apply (Hok e).
  - eexists. split; [reflexivity|]. by intros [].
  - eexists. split; [reflexivity|]. by intros [].
Qed.

Lemma envOverride_field f cfg :
  fieldOf f
    {| NotionToken := envOverride env "NOTION_TOKEN" (NotionToken cfg);
       GithubToken := envOverride env "GITHUB_TOKEN" (GithubToken cfg);
       JiraToken := envOverride env "JIRA_TOKEN" (JiraToken cfg);
       JiraURL := envOverride env "JIRA_URL" (JiraURL cfg);
       JiraUsername := envOverride env "JIRA_USERNAME" (JiraUsername cfg) |}
  = envOverride env (envVar f) (fieldOf f cfg).
Proof. by destruct f. Qed.

(** C8. When both files are missing or decode, [LoadConfig] succeeds, and
    each of the five fields has its layered value: the environment
    variable if it is set and not empty, else the value of local.yml if it
    defines the field, else the value of the base file if it defines the
    field, else the empty string. *)
Theorem LoadConfig_layered (configPath : string) (f : field) :
  layerUsable fs configPath ->
  layerUsable fs "local.yml" ->
  exists cfg,
    LoadConfig fs env configPath = inl cfg
    /\ fieldOf f cfg = layered fs env configPath f.
Proof.
  intros Hbase Hlocal. unfold LoadConfig.
  destruct (loadLayer_usable configPath zeroConfig Hbase) as (c1 & -> & H1).
  destruct (loadLayer_usable "local.yml" c1 Hlocal) as (c2 & -> & H2).
  eexists. split; [reflexivity|].
  rewrite envOverride_field, H2, H1.
  unfold layered, envOverride.
  destruct (negb (isEmpty (Getenv env (envVar f)))); [done|].
  destruct (layerValue fs "local.yml" f); [done|].
  by destruct f.
Qed.

End ConfigFacts.

(** An instance: the base file gives a URL and a user name, local.yml
    another URL, the environment a token and an empty [JIRA_URL]. *)
Lemma LoadConfig_layered_witness :
  let fs : gmap string config.yamlDoc :=
    list_to_map
      [("config.yml", config.YamlMapping (list_to_map
          [("jira_url", "https://base/"); ("jira_username", "ann")]));
       ("local.yml", config.YamlMapping (list_to_map
          [("jira_url", "https://local/")]))] in
  let env : gmap string string :=
    list_to_map [("JIRA_TOKEN", "t0k"); ("JIRA_URL", "")] in
  exists cfg,
    config.LoadConfig fs env "config.yml" = inl cfg
    /\ config.fieldOf config.FJiraURL cfg
       = config.layered fs env "config.yml" config.FJiraURL.
Proof.
  intros fs env.
  apply (LoadConfig_layered fs env "config.yml" config.FJiraURL).
  - intros e. vm_compute. discriminate.
  - intros e. vm_compute. discriminate.
Defined.

(** The same instance, evaluated: the empty [JIRA_URL] does not hide the
    files, local.yml hides the base file, the token comes from the
    environment, and the two tokens nobody gives are empty. *)
Example LoadConfig_layers :
  config.LoadConfig
    (list_to_map
       [("config.yml", config.YamlMapping (list_to_map
           [("jira_url", "https://base/"); ("jira_username", "ann")]));
        ("local.yml", config.YamlMapping (list_to_map
           [("jira_url", "https://local/")]))])
    (list_to_map [("JIRA_TOKEN", "t0k"); ("JIRA_URL", "")])
    "config.yml"
  = inl {| config.NotionToken := ""; config.GithubToken := "";
           config.JiraToken := "t0k"; config.JiraURL := "https://local/";
           config.JiraUsername := "ann" |}.
Proof. vm_compute. reflexivity. Qed.

(** A file that does not decode stops the load, whatever the environment
    gives. *)
Example LoadConfig_broken_file :
  config.LoadConfig
    (list_to_map [("config.yml", config.YamlError "yaml: did not find expected key")])
    (list_to_map [("JIRA_TOKEN", "t0k")])
    "config.yml"
  = inr "yaml: did not find expected key".
Proof. vm_compute. reflexivity. Qed.

(** ** The dispatcher: one response per request *)

Section DispatcherFacts.

Context {World : Type}.
Variable Unmarshal : string -> MCPRequest * option error.
Variable s : MCPServer World.

Lemma sendResponse_printed id res (st : state World) :
  sendResponse id res st
  = printed st (world st)
      {| JSONRPC := "2.0"; ID := id; Result := res; Error := None |}.
Proof. reflexivity. Qed.

Lemma sendError_printed id code msg data (st : state World) :
  sendError id code msg data st
  = printed st (world st)
      {| JSONRPC := "2.0"; ID := id; Result := RNil;
         Error := Some {| Code := code; Message := msg; Data := data |} |}.
Proof. reflexivity. Qed.

Lemma handleToolCall_printed request (st : state World) :
  exists w r, handleToolCall s request st = printed st w r /\ answers request r.
Proof.
  unfold handleToolCall.
  destruct (assertMap (Params request)) as [params [|]]; cbn [negb].
  2: { rewrite sendError_printed. do 2 eexists. split; [reflexivity|]. by repeat split. }
  destruct (assertString (mapIndex params "name")) as [name [|]]; cbn [negb].
  2: { rewrite sendError_printed. do 2 eexists. split; [reflexivity|]. by repeat split. }
  destruct (assertMap (mapIndex params "arguments")) as [arguments ok].
  unfold bind, perform.
  destruct (executeTool s name _ (world st)) as [[text [err|]] w];
    rewrite sendResponse_printed; simpl;
    do 2 eexists; (split; [reflexivity|]); by repeat split.
Qed.

Lemma handleRequest_printed request (st : state World) :
  exists w r, handleRequest s request st = printed st w r /\ answers request r.
Proof.
  unfold handleRequest.
  destruct (String.eqb (Method request) "initialize").
  { unfold handleInitialize. rewrite sendResponse_printed.
    do 2 eexists. split; [reflexivity|]. by repeat split. }
  destruct (String.eqb (Method request) "tools/list").
  { unfold handleToolsList. rewrite sendResponse_printed.
    do 2 eexists. split; [reflexivity|]. by repeat split. }
  destruct (String.eqb (Method request) "tools/call").
  { apply handleToolCall_printed. }
  rewrite sendError_printed. do 2 eexists. split; [reflexivity|]. by repeat split.
Qed.

(** The loop on a concatenation: the second part runs in the state the
    first part leaves. *)
Lemma scanLoop_app l1 l2 st :
  scanLoop Unmarshal s (l1 ++ l2) st
  = scanLoop Unmarshal s l2 (scanLoop Unmarshal s l1 st).2.
Proof.
  revert st. induction l1 as [|line l1 IH]; intros st; simpl.
  - reflexivity.
  - destruct (isEmpty (TrimSpace line)); [apply IH|].
    destruct (Unmarshal line) as [request [e|]]; unfold bind.
    + destruct (sendError _ _ _ _ st) as [u st']. apply IH.
    + destruct (handleRequest s request st) as [u st']. apply IH.
Qed.

(** One step of the loop on a line that is not blank. *)
Lemma scanLoop_cons line rest st :
  nonBlank line = true ->
  exists w r,
    scanLoop Unmarshal s (line :: rest) st
    = scanLoop Unmarshal s rest (printed st w r).2
    /\ answers (Unmarshal line).1 r
    /\ (forall e, (Unmarshal line).2 = Some e ->
        w = world st
        /\ Result r = RNil
        /\ Error r = Some {| Code := -32700; Message := "Parse error"; Data := VNil |}).
Proof.
  unfold nonBlank. intros Hline. cbn [scanLoop].
  destruct (isEmpty (TrimSpace line)); [discriminate|].
  destruct (Unmarshal line) as [request [e|]]; unfold bind; cbn [fst snd].
  - rewrite sendError_printed. exists (world st). eexists.
    split; [reflexivity|]. split; [by repeat split|]. by intros e' _.
  - destruct (handleRequest_printed request st) as (w & r & -> & Hr).
    exists w, r. split; [reflexivity|]. split; [done|]. by intros e' [=].
Qed.

Lemma scanLoop_blank line rest st :
  nonBlank line = false ->
  scanLoop Unmarshal s (line :: rest) st = scanLoop Unmarshal s rest st.
Proof.
  unfold nonBlank. intros Hline. simpl.
  by destruct (isEmpty (TrimSpace line)).
Qed.

(** What the loop prints: one response for each line that is not blank,
    in order, answering the request decoded from that line. *)
Lemma scanLoop_stdout lines st :
  exists out,
    stdout (scanLoop Unmarshal s lines st).2 = (stdout st ++ out)%list
    /\ Forall2 (fun line r => answers (Unmarshal line).1 r)
         (List.filter nonBlank lines) out.
Proof.
  revert st. induction lines as [|line rest IH]; intros st.
  - exists []. simpl. by rewrite app_nil_r.
  - destruct (nonBlank line) eqn:Hline.
    + destruct (scanLoop_cons line rest st Hline) as (w & r & -> & Hr & _).
      destruct (IH (printed st w r).2) as (out & -> & Hout).
      exists (r :: out). simpl. rewrite Hline, <- app_assoc.
      split; [reflexivity|]. by constructor.
    + rewrite (scanLoop_blank line rest st Hline).
      destruct (IH st) as (out & -> & Hout).
      exists out. simpl. by rewrite Hline.
Qed.

Lemma answers_ids (lines : list string) (out : list MCPResponse) :
  Forall2 (fun line r => answers (Unmarshal line).1 r) lines out ->
  ID <$> out = (fun line => reqID (Unmarshal line).1) <$> lines.
Proof.
  induction 1 as [|line r lines out (_ & Hid & _) _ IH]; [reflexivity|].
  cbn. by rewrite Hid, IH.
Qed.

Lemma answers_members request r :
  answers request r ->
  In "id" (members r)
  /\ (In "result" (members r) /\ ~ In "error" (members r)
      \/ ~ In "result" (members r) /\ In "error" (members r)).
Proof.
  intros (_ & _ & Hxor). unfold members.
  destruct (hasResult r), (hasError r); try discriminate; cbn;
    (split; [tauto|]); [left|right]; split; try tauto;
    intros H; repeat (destruct H as [H|H]; [discriminate H|]); exact H.
Qed.


(** C7. Every response the server prints has exactly one of the members
    [result] and [error]. *)
Theorem response_result_xor_error (stdin : list string) (w : World) (r : MCPResponse) :
  In r (stdout (Start Unmarshal s stdin {| world := w; stdout := [] |}).2) ->
  In "result" (members r) /\ ~ In "error" (members r)
  \/ ~ In "result" (members r) /\ In "error" (members r).
Proof.
  unfold Start. intros Hin.
  destruct (scanLoop_stdout stdin {| world := w; stdout := [] |}) as (out & Hout & Hall).
  rewrite Hout in Hin. cbn in Hin. clear Hout.
  induction Hall as [|line r' lines out Hr _ IH]; [destruct Hin|].
  destruct Hin as [<-|Hin]; [|by apply IH].
  by destruct (answers_members _ _ Hr).
Qed.

End DispatcherFacts.

(** ** The ID of a response *)








(** A [float64] is at most one integer. *)
Lemma isInteger_unique (f : float64) (z z' : Z) :
  encodingjson.isInteger f z = true -> encodingjson.isInteger f z' = true ->
  z = z'.
Proof.
  destruct f as [sign|sign| |sign m e]; cbn [encodingjson.isInteger];
    try discriminate.
  - intros Hz Hz'. apply Z.eqb_eq in Hz, Hz'. congruence.
  - destruct (Z.leb_spec 0 e) as [He|He]; intros Hz Hz';
      apply Z.eqb_eq in Hz, Hz'.
    + congruence.
    + assert (0 < 2 ^ (- e)) by (apply Z.pow_pos_nonneg; lia). nia.
Qed.



Section WireFacts.

Context {World : Type}.
Variable scan : string -> encodingjson.document + error.
Variable typeError : string -> error.
Variable s : MCPServer World.




End WireFacts.


(** The IDs of those four responses. *)
Example decoded_ids :
  ID <$> stdout (Start double.Unmarshal double.spy
                   [double.listLine; "null"; double.brokenLine; double.wideLine]
                   double.idle).2
  = [VFloat64 double.one; VNil; VNil;
     VFloat64 (S754_finite false 4503599627370496 1)].
Proof. vm_compute. reflexivity. Qed.

(** Requests without ID, with the ID null, with a string, with a negative
    integer under the key ID, with a fraction, and a line that is an
    array. *)
Example ids_on_the_wire :
  ID <$> stdout (Start double.Unmarshal double.spy
                   [double.json "{'method':'ping'}";
                    double.json "{'id':null,'method':'ping'}";
                    double.json "{'id':'abc','method':'ping'}";
                    double.json "{'ID':-3,'method':'ping'}";
                    double.json "{'id':0.5,'method':'ping'}";
                    double.json "['id',1]"]
                   double.idle).2
  = [VNil; VNil; VString "abc";
     VFloat64 (S754_finite true 6755399441055744 (-51));
     VFloat64 (S754_finite false 4503599627370496 (-53));
     VNil].
Proof. vm_compute. reflexivity. Qed.


(** Two requests that differ in their IDs only, 2^53 and 2^53 + 1, are
    decoded to the same request, and so get the same response. *)
Example wide_ids_collide :
  encodingjson.decodeRequest
    (encodingjson.DObject
       [("id", encodingjson.DNumber false 9007199254740992 0);
        ("method", encodingjson.DString "tools/list")])
  = encodingjson.decodeRequest
      (encodingjson.DObject
         [("id", encodingjson.DNumber false 9007199254740993 0);
          ("method", encodingjson.DString "tools/list")]).
Proof. vm_compute. reflexivity. Qed.

(** On the lines of its table the decoder [double.decode] is
    [json.Unmarshal]. *)
Example decode_is_Unmarshal :
  Forall (fun line => double.Unmarshal line = double.decode line)
    [double.listLine; double.callLine; double.typeErrorLine; double.brokenLine;
     "null"].
Proof. repeat constructor; vm_compute; reflexivity. Qed.

(** The scanner: white space around the tokens, a number by sign, digits
    and exponent, the escapes of a string, U+FFFD for a surrogate without
    its pair and for a byte that begins no UTF-8 encoding; and some texts
    it rejects: digits after a leading 0, a comma before the closing
    bracket, a tab inside a string, a text after the value. *)
Example scanText_reads :
  encodingjson.scanText (double.json " [ -12.50e3 , 'a\n\u00e9\ud83d\ude00' ] ")
  = Some (encodingjson.DArray
            [encodingjson.DNumber true 1250 1;
             encodingjson.DString
               (encodingjson.textOf [97; 10; 195; 169; 240; 159; 152; 128]%N)])
  /\ encodingjson.scanText (double.json "'\ud83dx'")
     = Some (encodingjson.DString (encodingjson.textOf [239; 191; 189; 120]%N))
  /\ encodingjson.scanText (encodingjson.textOf [34; 255; 34]%N)
     = Some (encodingjson.DString (encodingjson.textOf [239; 191; 189]%N))
  /\ encodingjson.scanText "01" = None
  /\ encodingjson.scanText "[1,]" = None
  /\ encodingjson.scanText (encodingjson.textOf [34; 9; 34]%N) = None
  /\ encodingjson.scanText "{} x" = None.
Proof. vm_compute. by repeat split. Qed.

(** Keys are matched up to case, the last member named [id] wins, null
    clears the ID, and a number beyond the range of [float64] is a type
    error that leaves the ID as it was. *)
Example id_members :
  let decoded members := encodingjson.decodeRequest (encodingjson.DObject members) in
  reqID (decoded [("ID", encodingjson.DString "a"); ("Id", encodingjson.DString "b")]).1
  = VString "b"
  /\ reqID (decoded [("id", encodingjson.DString "a"); ("id", encodingjson.DNull)]).1
     = VNil
  /\ decoded [("id", encodingjson.DString "a"); ("id", encodingjson.DNumber false 1 400)]
     = ({| reqJSONRPC := ""; reqID := VString "a"; Method := ""; Params := VNil |},
        true)
  /\ reqID (decoded [("identity", encodingjson.DString "a")]).1 = VNil.
Proof. vm_compute. by repeat split. Qed.



(** An instance: the second response of a run, a parse error. *)
Lemma response_result_xor_error_witness :
  let r := errorEnvelope (VFloat64 double.seven) (-32700) "Parse error" in
  In "result" (members r) /\ ~ In "error" (members r)
  \/ ~ In "result" (members r) /\ In "error" (members r).
Proof.
  apply (response_result_xor_error double.decode double.spy
           [double.callLine; double.typeErrorLine] []).
  vm_compute. right. left. reflexivity.
Defined.

(** A line with a type error keeps the ID decoded from it; a line that is
    not JSON at all has none, and is answered with a null ID. *)
Example parse_error_ids :
  ID <$> stdout (Start double.decode double.spy
                   [double.typeErrorLine; double.brokenLine] double.idle).2
  = [VFloat64 double.seven; VNil].
Proof. vm_compute. reflexivity. Qed.

(** Blank lines, also of white space beyond ASCII (here U+00A0 and
    U+2003), are skipped without a response. *)
Example blank_lines_skipped :
  stdout (Start double.decode double.spy
            [""; "   "; String "194" (String "160" (String "226" (String "128"
               (String "131" EmptyString))))] double.idle).2
  = [].
Proof. vm_compute. reflexivity. Qed.

(** ** The catalog and the switch *)

Lemma toolNames_length : length toolNames = 31%nat.
Proof. reflexivity. Qed.

Lemma toolNames_NoDup : NoDup toolNames.
Proof. apply (bool_decide_unpack _). vm_compute. exact I. Qed.

Ltac in_toolNames :=
  apply (bool_decide_unpack _); vm_compute; exact I.

Section SwitchFacts.

Context {World : Type}.
Variable s : MCPServer World.

(** The default case of the switch: a name outside the catalog. *)
Lemma executeTool_unknown (name : string) (args : gmap string value) (w : World) :
  name ∉ toolNames ->
  executeTool s name args w = (("", Some ("unknown tool: " +:+ name)), w).
Proof.
  intros Hname. unfold executeTool.
  repeat match goal with
  | |- context [String.eqb name ?lit] =>
      destruct (String.eqb_spec name lit) as [Heq|_];
        [exfalso; apply Hname; rewrite Heq; clear; in_toolNames|]
  end.
  reflexivity.
Qed.

End SwitchFacts.

(** ** Calls of tools *)

Section ToolCallFacts.

Context {World : Type}.
Variable s : MCPServer World.

Lemma toolName_Some request name :
  toolName request = Some name ->
  exists params,
    Params request = VMap params /\ mapIndex params "name" = VString name.
Proof.
  unfold toolName, mapIndex. intros H.
  destruct (Params request) as [| | | | | |params]; try discriminate.
  exists params. split; [reflexivity|].
  destruct (params !! "name") as [[]|]; try discriminate.
  by injection H as ->.
Qed.

Lemma toolName_None request :
  toolName request = None ->
  (assertMap (Params request)).2 = false
  \/ exists params,
       Params request = VMap params
       /\ (assertString (mapIndex params "name")).2 = false.
Proof.
  unfold toolName, mapIndex. intros H.
  destruct (Params request) as [| | | | | |params]; try (by left).
  right. exists params. split; [reflexivity|].
  by destruct (params !! "name") as [[]|].
Qed.

Lemma handleRequest_call request (st : state World) :
  Method request = "tools/call" ->
  handleRequest s request st = handleToolCall s request st.
Proof. unfold handleRequest. by intros ->. Qed.

(** The response to a call whose name reaches the switch. *)
Lemma handleToolCall_named request name (st : state World) :
  toolName request = Some name ->
  handleToolCall s request st
  = let '((text, err), w) :=
        executeTool s name (toolArguments request) (world st) in
    printed st w
      match err with
      | Some err => flaggedResult (reqID request) ("Error: " +:+ err)
      | None =>
          {| JSONRPC := "2.0"; ID := reqID request;
             Result := RToolResult
               {| Content := [{| Type_ := "text"; Text := text |}];
                  IsError := false |};
             Error := None |}
      end.
Proof.
  intros Hname. destruct (toolName_Some _ _ Hname) as (params & Hp & Hn).
  unfold handleToolCall, toolArguments. rewrite Hp. cbn [assertMap negb].
  rewrite Hn. cbn [assertString negb].
  destruct (assertMap (mapIndex params "arguments")) as [arguments ok] eqn:Hargs.
  assert (Hsame : (if negb ok then ∅ else arguments) = arguments).
  { destruct ok; [reflexivity|]. cbn [negb].
    destruct (mapIndex params "arguments"); unfold assertMap in Hargs;
      first [discriminate Hargs | by injection Hargs as <-]. }
  rewrite Hsame. cbn [fst]. unfold bind, perform.
  generalize (executeTool s name arguments (world st)).
  intros [[text [err|]] w]; reflexivity.
Qed.

(** C1, as the code has it.  A tools/call request whose params name a tool
    outside the catalog is answered by a success envelope (no error
    member) whose result is flagged as an error and holds a single text
    block; the text is the message "unknown tool: <name>" after the prefix
    "Error: ".  No service is called. *)
Theorem unknown_tool_flagged_in_result request name (st : state World) :
  Method request = "tools/call" ->
  toolName request = Some name ->
  name ∉ toolNames ->
  handleRequest s request st
  = printed st (world st)
      (flaggedResult (reqID request) ("Error: unknown tool: " +:+ name)).
Proof.
  intros Hm Hname Hunknown. rewrite (handleRequest_call _ _ Hm).
  rewrite (handleToolCall_named request name st Hname).
  by rewrite executeTool_unknown.
Qed.

(** C2, as the code has it.  A tools/call request from whose params no
    tool name can be read (the params are not a mapping, or [name] is
    missing or not a string) is answered by the protocol-level error
    -32602, with the message "Invalid params" or "Missing tool name"; a
    request naming a tool outside the catalog is not: it is answered by a
    success envelope whose result is flagged as an error and holds the
    text "Error: unknown tool: <name>".  No service is called in either
    case. *)
Theorem missing_name_invalid_params request (st : state World) :
  Method request = "tools/call" ->
  (toolName request = None ->
   handleRequest s request st
   = printed st (world st)
       (errorEnvelope (reqID request) (-32602)
          (if (assertMap (Params request)).2 then "Missing tool name"
           else "Invalid params")))
  /\ (forall name, toolName request = Some name -> name ∉ toolNames ->
      handleRequest s request st
      = printed st (world st)
          (flaggedResult (reqID request) ("Error: unknown tool: " +:+ name))).
Proof.
  intros Hm. rewrite (handleRequest_call _ _ Hm). split.
  - intros Hnone. unfold handleToolCall.
    destruct (toolName_None _ Hnone) as [Hp|(params & Hp & Hn)].
    + destruct (assertMap (Params request)) as [params ok].
      cbn in Hp. subst ok. reflexivity.
    + rewrite Hp. cbn [assertMap negb snd].
      destruct (assertString (mapIndex params "name")) as [name ok].
      cbn in Hn. subst ok. reflexivity.
  - intros name Hname Hunknown.
    rewrite (handleToolCall_named request name st Hname).
    by rewrite executeTool_unknown.
Qed.

End ToolCallFacts.

(** An instance: the tool "nope" on the recording server. *)
Lemma unknown_tool_flagged_in_result_witness :
  handleRequest double.spy double.nopeRequest double.idle
  = printed double.idle []
      (flaggedResult (VFloat64 double.seven) "Error: unknown tool: nope").
Proof.
  apply (unknown_tool_flagged_in_result double.spy double.nopeRequest "nope").
  - reflexivity.
  - reflexivity.
  - intros Hin. apply (bool_decide_pack _) in Hin. vm_compute in Hin. exact Hin.
Defined.

(** The text of the block is not the bare message. *)
Lemma unknown_tool_text_is_prefixed :
  handleRequest double.spy double.nopeRequest double.idle
  <> printed double.idle []
       (flaggedResult (VFloat64 double.seven) "unknown tool: nope").
Proof. vm_compute. discriminate. Qed.

(** An instance: params with arguments and no name. *)
Lemma missing_name_invalid_params_witness :
  handleRequest double.spy double.namelessRequest double.idle
  = printed double.idle []
      (errorEnvelope (VFloat64 double.seven) (-32602) "Missing tool name").
Proof.
  apply (missing_name_invalid_params double.spy double.namelessRequest double.idle);
    reflexivity.
Defined.

(** A call of an unknown tool is not answered by an error envelope. *)
Lemma unknown_tool_is_not_invalid_params :
  hasError <$> stdout (handleRequest double.spy double.nopeRequest double.idle).2
  = [false].
Proof. vm_compute. reflexivity. Qed.

(** ** The catalog *)

Lemma toolNames_routed (name : string) : name ∈ toolNames -> ~ unrouted name.
Proof.
  intros Hin Hun. specialize (Hun _ double.spy ∅ []).
  apply list_elem_of_In in Hin. vm_compute in Hin.
  repeat (destruct Hin as [<-|Hin]; [vm_compute in Hun; discriminate Hun|]).
  exact Hin.
Qed.

(** C5. A tools/list request is answered with the catalog of
    [getAvailableTools] whatever lines came before it and whatever they did
    to the remote services; the catalog has 31 entries, no name occurs
    twice in it, and its names are exactly the names the switch of
    [executeTool] routes to a client. *)
Theorem tools_list_fixed_catalog {World : Type}
    (Unmarshal : string -> MCPRequest * option error) (s : MCPServer World)
    (before : list string) (line : string) (request : MCPRequest)
    (st : state World) :
  nonBlank line = true ->
  Unmarshal line = (request, None) ->
  Method request = "tools/list" ->
  (let st1 := (Start Unmarshal s before st).2 in
   Start Unmarshal s (before ++ [line]) st
   = printed st1 (world st1) (catalogResponse (reqID request)))
  /\ length getAvailableTools = 31%nat
  /\ NoDup toolNames
  /\ (forall name, name ∈ toolNames <-> ~ unrouted name).
Proof.
  intros Hline Hreq Hm. repeat split.
  - unfold Start. rewrite scanLoop_app. cbn [scanLoop].
    unfold nonBlank in Hline. apply negb_true_iff in Hline. rewrite Hline, Hreq.
    unfold bind, handleRequest. rewrite Hm. reflexivity.
  - exact toolNames_NoDup.
  - apply toolNames_routed.
  - intros Hrouted. destruct (decide (name ∈ toolNames)) as [Hin|Hout]; [exact Hin|].
    exfalso. apply Hrouted. intros World' s' args w.
    by apply executeTool_unknown.
Qed.

(** An instance: a tools/list request after a call and a broken line. *)
Lemma tools_list_fixed_catalog_witness :
  Start double.decode double.spy
    ([double.callLine; double.brokenLine] ++ [double.listLine]) double.idle
  = let st1 :=
      (Start double.decode double.spy [double.callLine; double.brokenLine]
         double.idle).2 in
    printed st1 (world st1) (catalogResponse (VFloat64 double.one)).
Proof.
  apply (tools_list_fixed_catalog double.decode double.spy
           [double.callLine; double.brokenLine] double.listLine
           {| reqJSONRPC := "2.0"; reqID := VFloat64 double.one;
              Method := "tools/list"; Params := VNil |} double.idle).
  - vm_compute. reflexivity.
  - vm_compute. reflexivity.
  - reflexivity.
Defined.

(** ** Arguments of tool calls *)

Lemma mapIndex_insert_eq (m : gmap string value) (k : string) (v : value) :
  mapIndex (<[k:=v]> m) k = v.
Proof. unfold mapIndex. by rewrite lookup_insert_eq. Qed.

Lemma mapIndex_insert_ne (m : gmap string value) (k k' : string) (v : value) :
  k <> k' -> mapIndex (<[k:=v]> m) k' = mapIndex m k'.
Proof. intros Hne. unfold mapIndex. by rewrite lookup_insert_ne. Qed.

(** The comma-ok assertions on a lacking argument give the zero value. *)
Lemma lacking_string (m : gmap string value) (k : string) :
  lacking "string" (m !! k) = true -> (assertString (mapIndex m k)).1 = "".
Proof. unfold mapIndex. by destruct (m !! k) as [[]|]. Qed.

Lemma lacking_integer (m : gmap string value) (k : string) :
  lacking "integer" (m !! k) = true ->
  (assertFloat64 (mapIndex m k)).1 = S754_zero false.
Proof. unfold mapIndex. by destruct (m !! k) as [[]|]. Qed.

Lemma lacking_boolean (m : gmap string value) (k : string) :
  lacking "boolean" (m !! k) = true -> (assertBool (mapIndex m k)).1 = false.
Proof. unfold mapIndex. by destruct (m !! k) as [[]|]. Qed.

Lemma lacking_array (m : gmap string value) (k : string) :
  lacking "array" (m !! k) = true -> (assertSlice (mapIndex m k)).1 = [].
Proof. unfold mapIndex. by destruct (m !! k) as [[]|]. Qed.

(** [parameters] lists the properties of the schemas of the catalog. *)
Lemma parameters_In (t : Tool) (p ty : string) :
  In t getAvailableTools -> In (p, ty) (schemaProperties t) ->
  In (Name t, p, ty) parameters.
Proof.
  intros Ht Hp. unfold parameters.
  apply (proj2 (in_flat_map _ getAvailableTools (Name t, p, ty))).
  exists t. split; [exact Ht|].
  apply list_elem_of_In.
  apply (list_elem_of_fmap_2' _ _ (p, ty)); [by apply list_elem_of_In | reflexivity].
Qed.

Lemma parameters_table : parameters = parameterTable.
Proof. vm_compute. reflexivity. Qed.

Ltac switch_case :=
  cbv beta iota zeta delta [executeTool zeroOf String.eqb Ascii.eqb Bool.eqb].

Ltac zero_argument H :=
  rewrite ?mapIndex_insert_eq;
  rewrite ?mapIndex_insert_ne by discriminate;
  first [ rewrite (lacking_string _ _ H)
        | rewrite (lacking_integer _ _ H)
        | rewrite (lacking_boolean _ _ H)
        | rewrite (lacking_array _ _ H) ];
  reflexivity.

(** The switch does not tell a lacking argument from its zero value. *)
Lemma executeTool_lacking {World : Type} (s : MCPServer World)
    (name p ty : string) (args : gmap string value) (w : World) :
  In (name, p, ty) parameters ->
  lacking ty (args !! p) = true ->
  executeTool s name args w = executeTool s name (<[p:=zeroOf ty]> args) w.
Proof.
  intros Hin Hlack. rewrite parameters_table in Hin.
  unfold parameterTable in Hin. cbn [In] in Hin.
  repeat (destruct Hin as [Heq|Hin];
    [injection Heq as <- <- <-; switch_case; zero_argument Hlack|]).
  destruct Hin.
Qed.

(** Every declared parameter reaches the client: a call with the parameter
    set is not the call with the parameter left out. *)
Lemma parameter_reaches_client (name p ty : string) :
  In (name, p, ty) parameters ->
  executeTool double.spy name {[ p := sampleOf ty ]} []
  <> executeTool double.spy name ∅ [].
Proof.
  intros Hin. rewrite parameters_table in Hin.
  unfold parameterTable in Hin. cbn [In] in Hin.
  repeat (destruct Hin as [Heq|Hin];
    [injection Heq as <- <- <-; vm_compute; discriminate|]).
  destruct Hin.
Qed.

(** A named call is never answered by a protocol-level error. *)
Lemma handleToolCall_no_error {World : Type} (s : MCPServer World)
    (request : MCPRequest) (name : string) (st : state World) :
  toolName request = Some name ->
  exists r,
    handleToolCall s request st
    = printed st (executeTool s name (toolArguments request) (world st)).2 r
    /\ hasResult r = true /\ hasError r = false.
Proof.
  intros Hname. rewrite (handleToolCall_named s request name st Hname).
  generalize (executeTool s name (toolArguments request) (world st)).
  intros [[text [err|]] w]; by eexists.
Qed.

(** The comma-ok assertions of the switch, against the values a method is
    to receive. *)
Lemma assertString_stringOf (args : gmap string value) (q : string) :
  (assertString (mapIndex args q)).1 = calls.stringOf (args !! q).
Proof. unfold mapIndex. by destruct (args !! q) as [[]|]. Qed.

Lemma assertFloat64_intOf (args : gmap string value) (q : string) :
  int (assertFloat64 (mapIndex args q)).1 = calls.intOf (args !! q).
Proof. unfold mapIndex. by destruct (args !! q) as [[]|]. Qed.

Lemma assertBool_boolOf (args : gmap string value) (q : string) :
  (assertBool (mapIndex args q)).1 = calls.boolOf (args !! q).
Proof. unfold mapIndex. by destruct (args !! q) as [[]|]. Qed.

Lemma assertSlice_stringsOf (args : gmap string value) (q : string) :
  (fun assignee => (assertString assignee).1) <$> (assertSlice (mapIndex args q)).1
  = calls.stringsOf (args !! q).
Proof.
  unfold mapIndex. destruct (args !! q) as [[| | | | |l|]|]; try reflexivity.
  cbn [default assertSlice fst calls.stringsOf].
  apply list_fmap_ext. by intros _ [] _.
Qed.

(** A lacking argument is received as the zero value. *)
Lemma received_lacking (ty : string) (v : option value) :
  lacking ty v = true -> calls.received ty v = calls.zeroArg ty.
Proof.
  unfold lacking, calls.received, calls.zeroArg, hasSchemaType.
  destruct v as [[]|]; cbn [negb calls.stringOf calls.intOf calls.boolOf calls.stringsOf];
    intros H; try apply negb_true_iff in H;
    destruct (String.eqb ty "string"), (String.eqb ty "integer"),
      (String.eqb ty "boolean"), (String.eqb ty "array");
    first [reflexivity | discriminate].
Qed.

(** The table of the calls covers the parameters of the catalog, and
    nothing else. *)
Lemma routes_parameters (name p ty : string) :
  (name, p, ty) ∈ parameters
  <-> exists method params,
        (name, method, params) ∈ calls.routes /\ (p, ty) ∈ params.
Proof.
  assert (Hsame : forallb (fun x => bool_decide (x ∈ calls.routeParameters))
                    parameterTable
                  && forallb (fun x => bool_decide (x ∈ parameterTable))
                       calls.routeParameters = true)
    by (vm_compute; reflexivity).
  apply andb_true_iff in Hsame. destruct Hsame as [Hto Hfrom].
  rewrite forallb_forall in Hto, Hfrom. rewrite parameters_table.
  assert (Hroute : (name, p, ty) ∈ calls.routeParameters
                   <-> exists method params,
                         (name, method, params) ∈ calls.routes /\ (p, ty) ∈ params).
  { unfold calls.routeParameters. rewrite list_elem_of_In, in_flat_map. split.
    - intros ([[name' method] params] & Hin & Hp).
      apply list_elem_of_In, list_elem_of_fmap in Hp.
      destruct Hp as ([p' ty'] & [= <- <- <-] & Hp).
      exists method, params. by rewrite list_elem_of_In.
    - intros (method & params & Hin & Hp).
      exists (name, method, params). split; [by apply list_elem_of_In|].
      apply list_elem_of_In.
      by apply (list_elem_of_fmap_2' _ _ (p, ty)). }
  rewrite <- Hroute. split; intros Hin.
  - apply (bool_decide_eq_true_1 _), Hto. by apply list_elem_of_In.
  - apply (bool_decide_eq_true_1 _), Hfrom. by apply list_elem_of_In.
Qed.

(** The table has one entry for each tool of the catalog, in the order of
    the catalog. *)
Lemma routes_tools :
  (fun r : string * string * list (string * string) => r.1.1) <$> calls.routes
  = toolNames.
Proof. vm_compute. reflexivity. Qed.

Lemma routes_routeOf (name method : string) (params : list (string * string)) :
  In (name, method, params) calls.routes ->
  calls.routeOf name = Some (method, params).
Proof.
  intros Hin. unfold calls.routes in Hin. cbn [In] in Hin.
  repeat (destruct Hin as [Heq|Hin];
    [injection Heq as <- <- <-; vm_compute; reflexivity|]).
  destruct Hin.
Qed.

Ltac call_case :=
  cbn [fmap list_fmap];
  unfold calls.passed;
  cbn [fst snd];
  cbv beta iota zeta delta
    [executeTool calls.invoke calls.received String.eqb Ascii.eqb Bool.eqb];
  rewrite ?assertSlice_stringsOf, ?assertString_stringOf, ?assertFloat64_intOf,
    ?assertBool_boolOf;
  reflexivity.

Ltac recorded_case :=
  cbn [fmap list_fmap];
  unfold calls.passed;
  cbn [fst snd];
  cbv beta iota zeta delta
    [calls.invoke calls.received calls.recorder double.spyGithub
     calls.recordingJira double.spyNotion double.record Github Jira Notion
     tools.GetPullRequest tools.GetPullRequestDiff tools.CreateIssue
     tools.CreatePullRequest tools.GetIssue tools.ListBranches
     tools.ListCommits tools.SearchRepositories tools.SearchIssues
     tools.GetWorkflows tools.RunWorkflow tools.AddComment tools.GetComments
     tools.AssignCopilot tools.CreateBranch tools.CreateRepository
     tools.GetCommit tools.GetReleaseByTag tools.GetTag tools.SearchCode
     tools.SearchPullRequests tools.GetTicketByID tools.SearchTickets
     tools.CreateTicket tools.SearchPagesByTitle tools.GetPageByURL
     tools.GetDatabase tools.CreatePage tools.CreateDatabase tools.UpdatePage
     tools.UpdateDatabase
     String.eqb Ascii.eqb Bool.eqb];
  reflexivity.

(** Each case of the switch is the call of the method the table names, on
    the values the parameters are to be received with, in the order of the
    table. *)
Lemma executeTool_invoke {World : Type} (s : MCPServer World)
    (name method : string) (params : list (string * string))
    (args : gmap string value) (w : World) :
  In (name, method, params) calls.routes ->
  executeTool s name args w
  = calls.invoke s method (calls.passed args <$> params) w.
Proof.
  intros Hin. unfold calls.routes in Hin. cbn [In] in Hin.
  repeat (destruct Hin as [Heq|Hin]; [injection Heq as <- <- <-; call_case|]).
  destruct Hin.
Qed.

(** On the recording clients a call leaves the name of the method and the
    values received. *)
Lemma invoke_recorder (name method : string) (params : list (string * string))
    (args : gmap string value) (w : list (string * list double.arg)) :
  In (name, method, params) calls.routes ->
  calls.invoke calls.recorder method (calls.passed args <$> params) w
  = (("ok", None), (method, calls.passed args <$> params) :: w).
Proof.
  intros Hin. unfold calls.routes in Hin. cbn [In] in Hin.
  repeat (destruct Hin as [Heq|Hin]; [injection Heq as <- <- <-; recorded_case|]).
  destruct Hin.
Qed.

(** C6. In a tools/call request naming a tool of the catalog, take an
    argument the tool's schema declares and that is absent from the
    argument mapping, or present with another dynamic type.  The tool
    calls one method of its service client, the one the table [calls.routes]
    gives for the tool, once, with the tool's parameters in the order of
    the table;
    each parameter is received as the entry of the mapping when the entry
    has the parameter's dynamic type, and as the zero value otherwise; so
    the lacking argument is received as the zero value of its type (empty
    string, 0, false, empty list).  This holds for every client, and on the
    recording clients the one call recorded has that method name and those
    values.  The call is the call made with the zero value in the mapping,
    and the response is a success envelope, not a protocol-level error.
    The argument does reach the client: on the recording client a call
    with the argument set differs from the call without it. *)
Theorem lacking_argument_is_zero_value {World : Type} (s : MCPServer World)
    (name p ty : string) (request : MCPRequest) (st : state World) :
  (name, p, ty) ∈ parameters ->
  Method request = "tools/call" ->
  toolName request = Some name ->
  lacking ty (toolArguments request !! p) = true ->
  let args := toolArguments request in
  let zeroed := <[p:=zeroOf ty]> args in
  (exists method params,
     calls.routeOf name = Some (method, params)
     /\ (p, ty) ∈ params
     /\ calls.passed args (p, ty) = calls.zeroArg ty
     /\ executeTool s name args (world st)
        = calls.invoke s method (calls.passed args <$> params) (world st)
     /\ executeTool calls.recorder name args []
        = (("ok", None), [(method, calls.passed args <$> params)]))
  /\ executeTool s name args (world st) = executeTool s name zeroed (world st)
  /\ (exists r,
        handleRequest s request st
        = printed st (executeTool s name zeroed (world st)).2 r
        /\ hasResult r = true /\ hasError r = false)
  /\ executeTool double.spy name {[ p := sampleOf ty ]} []
     <> executeTool double.spy name ∅ [].
Proof.
  intros Hin Hm Hname Hlack args zeroed. split.
  { destruct (proj1 (routes_parameters name p ty) Hin)
      as (method & params & Hroute & Hp).
    apply list_elem_of_In in Hroute.
    exists method, params. split; [by apply routes_routeOf|]. split; [exact Hp|].
    split; [by apply received_lacking|]. split.
    - by apply executeTool_invoke.
    - rewrite (executeTool_invoke calls.recorder name method params args [] Hroute).
      by apply (invoke_recorder name). }
  apply list_elem_of_In in Hin.
  assert (Hsame := executeTool_lacking s name p ty args (world st) Hin Hlack).
  split; [exact Hsame|]. split; [|by apply parameter_reaches_client].
  rewrite (handleRequest_call s request st Hm).
  subst zeroed. rewrite <- Hsame.
  by apply handleToolCall_no_error.
Qed.

(** An instance: the number of a pull request given as a string.  The
    method is [GetPullRequest]; it receives the owner as given, the empty
    string for the repository, which is absent, and 0 for the number. *)
Lemma lacking_argument_is_zero_value_witness :
  (exists method params,
     calls.routeOf "github_get_pull_request" = Some (method, params)
     /\ ("number", "integer") ∈ params
     /\ calls.passed (toolArguments double.pullRequest) ("number", "integer")
        = double.AInt 0
     /\ executeTool double.spy "github_get_pull_request"
          (toolArguments double.pullRequest) []
        = calls.invoke double.spy method
            (calls.passed (toolArguments double.pullRequest) <$> params) []
     /\ executeTool calls.recorder "github_get_pull_request"
          (toolArguments double.pullRequest) []
        = (("ok", None),
           [(method, calls.passed (toolArguments double.pullRequest) <$> params)]))
  /\ executeTool double.spy "github_get_pull_request"
       (toolArguments double.pullRequest) []
     = executeTool double.spy "github_get_pull_request"
         (<["number":=zeroOf "integer"]> (toolArguments double.pullRequest)) [].
Proof.
  pose proof (lacking_argument_is_zero_value double.spy "github_get_pull_request"
                "number" "integer" double.pullRequest double.idle) as H.
  cbv zeta in H. destruct H as (Hcall & Hsame & _).
  - apply (bool_decide_unpack _). vm_compute. exact I.
  - reflexivity.
  - vm_compute. reflexivity.
  - vm_compute. reflexivity.
  - split; [exact Hcall|exact Hsame].
Defined.

(** The call recorded for that request. *)
Example pullRequest_recorded :
  executeTool calls.recorder "github_get_pull_request"
    (toolArguments double.pullRequest) []
  = (("ok", None),
     [("GetPullRequest",
       [double.AString "octo"; double.AString ""; double.AInt 0])]).
Proof. vm_compute. reflexivity. Qed.

(** The call the recording client sees for that request: the owner as
    given, the empty string for the repository, 0 for the number. *)
Example pullRequest_call :
  (executeTool double.spy "github_get_pull_request"
     (toolArguments double.pullRequest) []).2
  = [("GetPullRequest",
      [double.AString "octo"; double.AString ""; double.AInt 0])].
Proof. vm_compute. reflexivity. Qed.

(** The elements of an array argument are converted one by one: an element
    that is not a string becomes the empty string. *)
Example assignees_elementwise :
  (executeTool double.spy "github_assign_copilot"
     (list_to_map
        [("assignees", VSlice [VString "ann"; VFloat64 double.one; VNil])]) []).2
  = [("AssignCopilot",
      [double.AString ""; double.AString ""; double.AInt 0;
       double.AStrings ["ann"; ""; ""]])].
Proof. vm_compute. reflexivity. Qed.

(** The scenario of the specification: [jira_get_ticket] with an empty
    ticket ID is answered by a success envelope with a flagged result. *)
Example empty_ticket_flagged :
  handleRequest double.spy double.ticketRequest double.idle
  = printed double.idle []
      (flaggedResult (VFloat64 double.one) "Error: ticket ID cannot be empty").
Proof. vm_compute. reflexivity. Qed.

(** ** Start-up *)

Lemma isEmpty_false (s : string) : isEmpty s = false <-> s <> "".
Proof. unfold isEmpty. apply String.eqb_neq. Qed.

Lemma isEmpty_true (s : string) : isEmpty s = true <-> s = "".
Proof. unfold isEmpty. apply String.eqb_eq. Qed.

Lemma get_last (s : string) :
  s <> "" -> exists c, String.get (String.length s - 1) s = Some c.
Proof.
  induction s as [|a s IH]; [done|]. intros _.
  destruct s as [|b s].
  - by exists a.
  - destruct IH as [c Hc]; [done|]. exists c.
    cbn [String.length] in *. rewrite Nat.sub_1_r in *. exact Hc.
Qed.

(** The index expression of [NewJiraClient] is in range exactly for a URL
    that is not empty. *)
Lemma byteAt_last (s : string) :
  byteAt s (len s - 1) = None <-> s = "".
Proof.
  unfold byteAt, len. split.
  - intros H. destruct s as [|a s]; [reflexivity|]. exfalso.
    destruct (get_last (String a s)) as [c Hc]; [done|].
    replace (Z.to_nat (Z.of_nat (String.length (String a s)) - 1))
      with (String.length (String a s) - 1)%nat in H by (cbn [String.length]; lia).
    rewrite Hc in H.
    destruct (_ || _) eqn:Hb; [|discriminate].
    cbn [String.length] in Hb. apply orb_true_iff in Hb.
    destruct Hb as [Hb|Hb]; [apply Z.ltb_lt in Hb|apply Z.leb_le in Hb]; lia.
  - by intros ->.
Qed.

Section MainFacts.

Context {World : Type}.
Variable githubTool : github.GithubClient -> GithubTool World.
Variable jiraTool : jira.JiraClient -> JiraTool World.
Variable notionTool : notion.NotionClient -> NotionTool World.
Variable Unmarshal : string -> MCPRequest * option error.

(** C9, as the code has it.  Start-up ends the process with status 1
    ([log.Fatalf]), nothing being read from standard input or printed,
    when the configuration does not load, whatever the environment holds,
    and when the Jira user name or the Jira token is missing from the
    loaded configuration; with user name and token but without Jira URL it
    ends with status 2, by the panic of C10.  When the configuration loads
    with a Jira user name, a Jira token and a Jira URL, whatever the GitHub
    and Notion tokens, the server is built and serves: standard output
    receives one response for each non-blank line of standard input, in
    order, each answering the request of its line, and the process ends
    with status 0 after the last line. *)
Theorem startup_exits_or_serves (fs : gmap string config.yamlDoc)
    (env : gmap string string) (stdin : list string) (w : World) :
  let idle := {| world := w; stdout := [] |} in
  let run := main.main githubTool jiraTool notionTool Unmarshal fs env stdin w in
  (forall err,
     config.LoadConfig fs env "config.yml" = inr err ->
     run = (main.Fatal ("Error loading config: " +:+ err), idle))
  /\ (forall cfg,
       config.LoadConfig fs env "config.yml" = inl cfg ->
       (config.JiraUsername cfg = "" \/ config.JiraToken cfg = "" ->
        run
        = (main.Fatal
             ("Error creating Jira client: "
              +:+ (if isEmpty (config.JiraUsername cfg)
                   then "username/email is required for Jira authentication"
                   else "API token is required for Jira authentication")),
           idle)
        /\ main.exitCode run.1 = 1)
       /\ (config.JiraUsername cfg <> "" ->
           config.JiraToken cfg <> "" ->
           config.JiraURL cfg = "" ->
           run = (main.Panic "runtime error: index out of range [-1]", idle)
           /\ main.exitCode run.1 = 2)
       /\ (config.JiraUsername cfg <> "" ->
           config.JiraToken cfg <> "" ->
           config.JiraURL cfg <> "" ->
           exists jiraClient out,
             jira.NewJiraClient (config.JiraURL cfg) (config.JiraUsername cfg)
               (config.JiraToken cfg) = Returned (inl jiraClient)
             /\ run
                = (main.Exit0,
                   (Start Unmarshal
                      (main.serverOf githubTool jiraTool notionTool cfg jiraClient)
                      stdin idle).2)
             /\ main.exitCode run.1 = 0
             /\ stdout run.2 = out
             /\ Forall2 (fun line r => answers (Unmarshal line).1 r)
                  (List.filter nonBlank stdin) out)).
Proof.
  intros idle run. subst run. unfold main.main. fold idle. split.
  - by intros err ->.
  - intros cfg ->. unfold jira.NewJiraClient. split; [|split].
    + intros Hmissing.
      destruct (isEmpty (config.JiraUsername cfg)) eqn:Huser; [by split|].
      destruct (isEmpty (config.JiraToken cfg)) eqn:Htoken; [by split|].
      apply isEmpty_false in Huser, Htoken. by destruct Hmissing.
    + intros Huser Htoken Hurl.
      apply isEmpty_false in Huser, Htoken. by rewrite Huser, Htoken, Hurl.
    + intros Huser Htoken Hurl.
      apply isEmpty_false in Huser, Htoken. rewrite Huser, Htoken.
      destruct (byteAt (config.JiraURL cfg) (len (config.JiraURL cfg) - 1))
        as [last|] eqn:Hlast; [|by apply byteAt_last in Hlast].
      set (jiraClient := {| jira.baseURL := _ |}).
      fold (main.serverOf githubTool jiraTool notionTool cfg jiraClient).
      destruct (scanLoop_stdout Unmarshal
                  (main.serverOf githubTool jiraTool notionTool cfg jiraClient)
                  stdin idle) as (out & Hout & Hanswers).
      unfold Start.
      destruct (scanLoop Unmarshal _ stdin idle) as [[] st] eqn:Hrun.
      exists jiraClient, out. cbn [fst snd] in *.
      repeat split; [by rewrite Hrun|exact Hout|exact Hanswers].
Qed.

(** C10. With a user name and a token but an empty Jira URL, the index
    expression of [NewJiraClient] is out of range, the constructor panics
    instead of returning an error, and so does [main], before anything is
    read from standard input. *)
Theorem empty_jira_url_panics (fs : gmap string config.yamlDoc)
    (env : gmap string string) (stdin : list string) (w : World)
    (cfg : config.Config) :
  config.LoadConfig fs env "config.yml" = inl cfg ->
  config.JiraURL cfg = "" ->
  config.JiraUsername cfg <> "" ->
  config.JiraToken cfg <> "" ->
  byteAt (config.JiraURL cfg) (len (config.JiraURL cfg) - 1) = None
  /\ jira.NewJiraClient (config.JiraURL cfg) (config.JiraUsername cfg)
       (config.JiraToken cfg)
     = Panicked "runtime error: index out of range [-1]"
  /\ main.main githubTool jiraTool notionTool Unmarshal fs env stdin w
     = (main.Panic "runtime error: index out of range [-1]",
        {| world := w; stdout := [] |}).
Proof.
  intros Hcfg Hurl Huser Htoken.
  apply isEmpty_false in Huser, Htoken.
  unfold main.main, jira.NewJiraClient. rewrite Hcfg, Hurl, Huser, Htoken.
  by repeat split.
Qed.

End MainFacts.

(** An instance: a config.yml with a user name and a token only. *)
Lemma empty_jira_url_panics_witness :
  double.spyMain double.noURL ∅ [double.listLine]
  = (main.Panic "runtime error: index out of range [-1]", double.idle).
Proof.
  apply (empty_jira_url_panics (fun _ => double.spyGithub) (fun _ => double.spyJira)
           (fun _ => double.spyNotion) double.decode double.noURL ∅
           [double.listLine] []
           {| config.NotionToken := ""; config.GithubToken := "";
              config.JiraToken := "t0k"; config.JiraURL := "";
              config.JiraUsername := "ann" |}).
  - vm_compute. reflexivity.
  - reflexivity.
  - discriminate.
  - discriminate.
Defined.

(** An instance: a complete config.yml and three lines on standard
    input, the second of them blank. *)
Lemma startup_exits_or_serves_witness :
  exists jiraClient out,
    jira.NewJiraClient "https://jira.example" "ann" "t0k" = Returned (inl jiraClient)
    /\ double.spyMain double.complete ∅ [double.callLine; " "; double.listLine]
       = (main.Exit0,
          (Start double.decode
             (main.serverOf (fun _ => double.spyGithub) (fun _ => double.spyJira)
                (fun _ => double.spyNotion)
                {| config.NotionToken := ""; config.GithubToken := "";
                   config.JiraToken := "t0k";
                   config.JiraURL := "https://jira.example";
                   config.JiraUsername := "ann" |} jiraClient)
             [double.callLine; " "; double.listLine] double.idle).2)
    /\ main.exitCode
         (double.spyMain double.complete ∅ [double.callLine; " "; double.listLine]).1
       = 0
    /\ stdout
         (double.spyMain double.complete ∅ [double.callLine; " "; double.listLine]).2
       = out
    /\ Forall2 (fun line r => answers (double.decode line).1 r)
         (List.filter nonBlank [double.callLine; " "; double.listLine]) out.
Proof.
  pose proof (startup_exits_or_serves (fun _ => double.spyGithub)
                (fun _ => double.spyJira) (fun _ => double.spyNotion) double.decode
                double.complete ∅ [double.callLine; " "; double.listLine] [])
    as [_ Hloaded].
  destruct (Hloaded {| config.NotionToken := ""; config.GithubToken := "";
                       config.JiraToken := "t0k";
                       config.JiraURL := "https://jira.example";
                       config.JiraUsername := "ann" |})
    as (_ & _ & Hserve).
  - vm_compute. reflexivity.
  - apply Hserve; discriminate.
Defined.

(** No credential is missing, all five being set in the environment, and
    yet start-up does not succeed: config.yml does not decode, the process
    ends with status 1 and the request on standard input is not served. *)
Lemma config_error_is_fatal_with_all_credentials :
  Forall (fun f => config.Getenv double.allSet (config.envVar f) <> "")
    [config.FNotionToken; config.FGithubToken; config.FJiraToken;
     config.FJiraURL; config.FJiraUsername]
  /\ double.spyMain double.undecodable double.allSet [double.listLine]
     = (main.Fatal
          "Error loading config: yaml: line 1: did not find expected node content",
        double.idle)
  /\ main.exitCode
       (double.spyMain double.undecodable double.allSet [double.listLine]).1
     = 1.
Proof.
  split; [|split]; [|vm_compute; reflexivity..].
  repeat constructor; vm_compute; discriminate.
Qed.

(** A start-up that succeeds: the URL gets its final slash, and the one
    request on standard input is answered. *)
Example startup_serves :
  (double.spyMain double.complete ∅ [double.callLine]).1 = main.Exit0
  /\ stdout (double.spyMain double.complete ∅ [double.callLine]).2
     = [flaggedResult (VFloat64 double.seven) "Error: unknown tool: nope"]
  /\ jira.NewJiraClient "https://jira.example" "ann" "t0k"
     = Returned (inl {| jira.baseURL := "https://jira.example/";
                        jira.username := "ann";
                        jira.token := "t0k";
                        jira.httpTimeout := 30 |}).
Proof. vm_compute. by repeat split. Qed.

(** Without any file and any variable, the user name is missing: status 1. *)
Example startup_without_configuration :
  double.spyMain ∅ ∅ [double.listLine]
  = (main.Fatal
       "Error creating Jira client: username/email is required for Jira authentication",
     double.idle).
Proof. vm_compute. reflexivity. Qed.

(* ================================================================== *)
(** * Further properties of the code *)
(* ================================================================== *)

(** ** The transport loop *)

Section LoopFacts.

Context {World : Type}.
Variable Unmarshal : string -> MCPRequest * option error.
Variable s : MCPServer World.

(** X1. Blank lines do nothing: the run over standard input is the run
    over its lines that are not blank. *)
Theorem Start_skips_blank_lines (stdin : list string) (st : state World) :
  Start Unmarshal s stdin st = Start Unmarshal s (List.filter nonBlank stdin) st.
Proof.
  unfold Start. revert st. induction stdin as [|line rest IH]; intros st.
  - reflexivity.
  - cbn [List.filter]. destruct (nonBlank line) eqn:Hline.
    + change (line :: rest) with ([line] ++ rest)%list.
      change (line :: List.filter nonBlank rest)
        with ([line] ++ List.filter nonBlank rest)%list.
      rewrite !(scanLoop_app Unmarshal s [line]). apply IH.
    + rewrite (scanLoop_blank Unmarshal s line rest st Hline). apply IH.
Qed.

(** X2. Lines are served one after the other: the run over two pieces of
    input is the run over the second piece in the state the first one
    leaves, and what the first piece printed stays at the front of
    standard output. *)
Theorem Start_sequential (first second : list string) (st : state World) :
  Start Unmarshal s (first ++ second) st
  = Start Unmarshal s second (Start Unmarshal s first st).2
  /\ exists out,
       stdout (Start Unmarshal s (first ++ second) st).2
       = (stdout (Start Unmarshal s first st).2 ++ out)%list.
Proof.
  unfold Start. rewrite scanLoop_app. split; [reflexivity|].
  destruct (scanLoop_stdout Unmarshal s second (scanLoop Unmarshal s first st).2)
    as (out & Hout & _).
  by exists out.
Qed.

End LoopFacts.

(** ** Lines of ASCII bytes *)

Lemma trimLeft_onlySpace (s : string) : onlySpace s = true -> trimLeft s = "".
Proof.
  induction s as [|a s IH]; [reflexivity|]. cbn [onlySpace trimLeft].
  intros [Ha Hs]%andb_true_iff. rewrite Ha. by apply IH.
Qed.

Lemma isSpace2_ascii (a b : N) : (a < 128)%N -> isSpace2 a b = false.
Proof.
  intros Ha. unfold isSpace2. destruct (N.eqb_spec a 194); [lia|reflexivity].
Qed.

Lemma isSpace3_ascii (a b c : N) : (a < 128)%N -> isSpace3 a b c = false.
Proof.
  intros Ha. unfold isSpace3.
  destruct (N.eqb_spec a 225), (N.eqb_spec a 226), (N.eqb_spec a 227);
    try lia; reflexivity.
Qed.

(** A first byte that is ASCII and not white space stops the trimming. *)
Lemma trimLeft_stops (a : ascii) (s : string) :
  (N_of_ascii a < 128)%N -> isSpace1 (N_of_ascii a) = false ->
  trimLeft (String a s) = String a s.
Proof.
  intros Ha Hsp. cbn [trimLeft]. rewrite Hsp.
  destruct s as [|b [|c s]]; [reflexivity| |].
  - by rewrite isSpace2_ascii.
  - by rewrite isSpace2_ascii, isSpace3_ascii.
Qed.

Lemma trimLeft_ascii (s : string) :
  isASCII s = true -> onlySpace s = false ->
  exists a t,
    trimLeft s = String a t
    /\ (N_of_ascii a < 128)%N /\ isSpace1 (N_of_ascii a) = false.
Proof.
  induction s as [|a s IH]; [discriminate|]. cbn [isASCII onlySpace].
  intros [Ha Hs]%andb_true_iff Hsp. apply N.ltb_lt in Ha.
  destruct (isSpace1 (N_of_ascii a)) eqn:Hspa.
  - cbn [trimLeft]. rewrite Hspa. by apply IH.
  - exists a, s. by rewrite trimLeft_stops.
Qed.

Lemma append_empty (s : string) : "" +:+ s = s.
Proof. reflexivity. Qed.

Lemma append_String (a : ascii) (r s : string) :
  String a r +:+ s = String a (r +:+ s).
Proof. reflexivity. Qed.

(** From the end, the trimming never goes past a byte that is ASCII and
    not white space. *)
Lemma trimLeftReversed_stops (a : ascii) (n : nat) :
  (N_of_ascii a < 128)%N -> isSpace1 (N_of_ascii a) = false ->
  forall r, (String.length r <= n)%nat ->
    trimLeftReversed (r +:+ String a "") <> "".
Proof.
  intros Ha Hsp. induction n as [n IH] using lt_wf_ind. intros r Hlen.
  destruct r as [|x r]; rewrite ?append_empty, ?append_String;
    cbn [trimLeftReversed].
  { by rewrite Hsp. }
  destruct (isSpace1 (N_of_ascii x)).
  { apply (IH (String.length r)); cbn [String.length] in Hlen; lia. }
  destruct r as [|y r]; rewrite ?append_empty, ?append_String.
  { by rewrite isSpace2_ascii. }
  destruct (isSpace2 (N_of_ascii y) (N_of_ascii x)).
  { apply (IH (String.length r)); cbn [String.length] in Hlen; lia. }
  destruct r as [|z r]; rewrite ?append_empty, ?append_String.
  { by rewrite isSpace3_ascii. }
  destruct (isSpace3 (N_of_ascii z) (N_of_ascii y) (N_of_ascii x)); [|done].
  apply (IH (String.length r)); cbn [String.length] in Hlen; lia.
Qed.

Lemma string_of_list_ascii_snoc (l : list ascii) (a : ascii) :
  string_of_list_ascii (l ++ [a]) = string_of_list_ascii l +:+ String a "".
Proof.
  induction l as [|x l IH]; [reflexivity|].
  cbn [app string_of_list_ascii]. by rewrite IH.
Qed.

Lemma reverse_cons (a : ascii) (s : string) :
  reverse (String a s) = reverse s +:+ String a "".
Proof. unfold reverse. cbn. apply string_of_list_ascii_snoc. Qed.

Lemma reverse_empty (s : string) : reverse s = "" -> s = "".
Proof.
  destruct s as [|a s]; [reflexivity|]. rewrite reverse_cons.
  by destruct (reverse s).
Qed.

(** X3. A line of ASCII bytes is skipped by the loop exactly when all its
    bytes are white space (tab, line feed, vertical tab, form feed,
    carriage return, space); the empty line is one of them. *)
Theorem ascii_line_blank_iff (line : string) :
  isASCII line = true ->
  (nonBlank line = false <-> onlySpace line = true).
Proof.
  intros Hascii. unfold nonBlank, isEmpty. rewrite negb_false_iff, String.eqb_eq.
  unfold TrimSpace. split.
  - intros Hblank. destruct (onlySpace line) eqn:Hsp; [reflexivity|]. exfalso.
    destruct (trimLeft_ascii line Hascii Hsp) as (a & t & Ht & Ha & Hspa).
    rewrite Ht, reverse_cons in Hblank. apply reverse_empty in Hblank.
    by apply (trimLeftReversed_stops a (String.length (reverse t)) Ha Hspa
                (reverse t)).
  - intros Hsp. by rewrite trimLeft_onlySpace.
Qed.

Lemma ascii_line_blank_iff_witness :
  nonBlank "   " = false <-> onlySpace "   " = true.
Proof. apply (ascii_line_blank_iff "   "). reflexivity. Defined.

(** ** The dispatcher *)

Lemma printed_inj {World : Type} (st : state World) (w w' : World)
    (r r' : MCPResponse) :
  printed st w r = printed st w' r' -> w = w' /\ r = r'.
Proof.
  unfold printed. intros [= Hw Hout]. apply app_inj_tail in Hout. by destruct Hout.
Qed.

Section RoutingFacts.

Context {World : Type}.
Variable s : MCPServer World.

(** A call from whose params no name can be read. *)
Lemma handleToolCall_nameless (request : MCPRequest) (st : state World) :
  toolName request = None ->
  exists message,
    handleToolCall s request st
    = printed st (world st) (errorEnvelope (reqID request) (-32602) message).
Proof.
  intros Hnone. unfold handleToolCall.
  destruct (toolName_None _ Hnone) as [Hp|(params & Hp & Hn)].
  - destruct (assertMap (Params request)) as [params ok].
    cbn in Hp. subst ok. by eexists.
  - rewrite Hp. cbn [assertMap negb].
    destruct (assertString (mapIndex params "name")) as [name ok].
    cbn in Hn. subst ok. by eexists.
Qed.

(** What a call is answered with: a result, or the error -32602. *)
Lemma handleToolCall_shape (request : MCPRequest) (st : state World) :
  exists w r,
    handleToolCall s request st = printed st w r
    /\ (hasError r = false
        \/ exists message, r = errorEnvelope (reqID request) (-32602) message).
Proof.
  destruct (toolName request) as [name|] eqn:Hname.
  - destruct (handleToolCall_no_error s request name st Hname) as (r & -> & _ & Hr).
    do 2 eexists. split; [reflexivity|]. by left.
  - destruct (handleToolCall_nameless request st Hname) as (message & ->).
    do 2 eexists. split; [reflexivity|]. right. by exists message.
Qed.

(** X4. The error -32601 "Method not found" is the answer to a request
    exactly when its method is none of initialize, tools/list and
    tools/call. *)
Theorem method_not_found_iff (request : MCPRequest) (st : state World) :
  handleRequest s request st
  = printed st (world st)
      (errorEnvelope (reqID request) (-32601) "Method not found")
  <-> knownMethod (Method request) = false.
Proof.
  unfold knownMethod, handleRequest.
  destruct (String.eqb (Method request) "initialize").
  { split; [|discriminate]. intros [_ [=]]%printed_inj. }
  destruct (String.eqb (Method request) "tools/list").
  { split; [|discriminate]. intros [_ [=]]%printed_inj. }
  destruct (String.eqb (Method request) "tools/call"); [|done].
  split; [|discriminate]. intros Hcall.
  destruct (handleToolCall_shape request st) as (w & r & Hr & Hshape).
  rewrite Hr in Hcall. apply printed_inj in Hcall as [_ ->].
  destruct Hshape as [[=]|[message [=]]].
Qed.

(** X5. The remote services are left alone unless the request is a call
    that names a tool of the catalog: initialize, tools/list, unknown
    methods, calls without a name and calls of unknown tools do not
    reach a client. *)
Theorem services_untouched (request : MCPRequest) (st : state World) :
  (forall name,
     Method request = "tools/call" -> toolName request = Some name ->
     name ∉ toolNames) ->
  world (handleRequest s request st).2 = world st.
Proof.
  intros Hquiet. unfold handleRequest.
  destruct (String.eqb (Method request) "initialize"); [reflexivity|].
  destruct (String.eqb (Method request) "tools/list"); [reflexivity|].
  destruct (String.eqb_spec (Method request) "tools/call") as [Hm|_]; [|reflexivity].
  destruct (toolName request) as [name|] eqn:Hname.
  - rewrite (handleToolCall_named s request name st Hname).
    rewrite executeTool_unknown by (by apply Hquiet). reflexivity.
  - by destruct (handleToolCall_nameless request st Hname) as (message & ->).
Qed.

(** X6. A call that names a tool is answered in the result, whatever the
    client returns: its text with [isError] false, or its error message
    after "Error: " with [isError] true; the envelope has no error member,
    and the world is the one the client leaves. *)
Theorem tool_outcome_in_result (request : MCPRequest) (name text : string)
    (err : option error) (st : state World) (w : World) :
  Method request = "tools/call" ->
  toolName request = Some name ->
  executeTool s name (toolArguments request) (world st) = ((text, err), w) ->
  handleRequest s request st
  = printed st w
      {| JSONRPC := "2.0";
         ID := reqID request;
         Result := RToolResult
           {| Content :=
                [{| Type_ := "text";
                    Text := match err with
                            | Some e => "Error: " +:+ e
                            | None => text
                            end |}];
              IsError := match err with Some _ => true | None => false end |};
         Error := None |}.
Proof.
  intros Hm Hname Hrun. rewrite (handleRequest_call s request st Hm).
  rewrite (handleToolCall_named s request name st Hname), Hrun.
  by destruct err.
Qed.

(** X7. When [arguments] is missing from the params, or is not a mapping,
    the request is served as if it carried the empty mapping. *)
Theorem missing_arguments_are_empty (request : MCPRequest)
    (params : gmap string value) (st : state World) :
  Params request = VMap params ->
  (assertMap (mapIndex params "arguments")).2 = false ->
  handleRequest s request st
  = handleRequest s
      {| reqJSONRPC := reqJSONRPC request;
         reqID := reqID request;
         Method := Method request;
         Params := VMap (<["arguments":=VMap ∅]> params) |} st.
Proof.
  intros Hp Hargs. unfold handleRequest. cbn [Method].
  destruct (String.eqb (Method request) "initialize"); [reflexivity|].
  destruct (String.eqb (Method request) "tools/list"); [reflexivity|].
  destruct (String.eqb (Method request) "tools/call"); [|reflexivity].
  unfold handleToolCall. cbn [Params reqID]. rewrite Hp. cbn [assertMap negb].
  rewrite mapIndex_insert_ne by discriminate. rewrite mapIndex_insert_eq.
  destruct (assertString (mapIndex params "name")) as [name [|]]; [|reflexivity].
  cbn [negb assertMap].
  destruct (mapIndex params "arguments"); try discriminate Hargs; reflexivity.
Qed.

End RoutingFacts.

Lemma services_untouched_witness :
  world (handleRequest double.spy double.nopeRequest double.idle).2 = [].
Proof.
  apply (services_untouched double.spy double.nopeRequest double.idle).
  intros name _ [= <-] Hin.
  apply (bool_decide_pack _) in Hin. vm_compute in Hin. exact Hin.
Defined.

Lemma tool_outcome_in_result_witness :
  handleRequest double.spy double.ticketRequest double.idle
  = printed double.idle []
      (flaggedResult (VFloat64 double.one) "Error: ticket ID cannot be empty").
Proof.
  apply (tool_outcome_in_result double.spy double.ticketRequest "jira_get_ticket"
           "" (Some "ticket ID cannot be empty") double.idle []).
  - reflexivity.
  - vm_compute. reflexivity.
  - vm_compute. reflexivity.
Defined.

Lemma missing_arguments_are_empty_witness :
  handleRequest double.spy double.nopeRequest double.idle
  = handleRequest double.spy
      {| reqJSONRPC := "2.0"; reqID := VFloat64 double.seven;
         Method := "tools/call";
         Params := VMap (<["arguments":=VMap ∅]>
                           (list_to_map [("name", VString "nope")])) |}
      double.idle.
Proof.
  apply (missing_arguments_are_empty double.spy double.nopeRequest
           (list_to_map [("name", VString "nope")]) double.idle).
  - reflexivity.
  - vm_compute. reflexivity.
Defined.

(** ** The arguments a tool reads *)

Lemma mapIndex_ext (m m' : gmap string value) (k : string) :
  m !! k = m' !! k -> mapIndex m k = mapIndex m' k.
Proof. unfold mapIndex. by intros ->. Qed.

Lemma declares_In (name p : string) :
  declares name p = true -> exists ty, (name, p, ty) ∈ parameters.
Proof.
  unfold declares. rewrite parameters_table. intros H.
  apply existsb_exists in H as ([[n q] ty] & Hin & Heq).
  apply andb_true_iff in Heq as [->%String.eqb_eq ->%String.eqb_eq].
  exists ty. by apply list_elem_of_In.
Qed.

Ltac same_arguments H args args' :=
  repeat match goal with
  | |- context [mapIndex args ?k] =>
      rewrite (mapIndex_ext args args' k) by (apply H; vm_compute; reflexivity)
  end;
  reflexivity.

(** X8. A tool reads the arguments its schema declares and no other: two
    argument mappings that agree on the declared parameters of a tool of
    the catalog lead to the same call. *)
Theorem executeTool_reads_declared_only {World : Type} (s : MCPServer World)
    (name : string) (args args' : gmap string value) (w : World) :
  name ∈ toolNames ->
  (forall p ty, (name, p, ty) ∈ parameters -> args !! p = args' !! p) ->
  executeTool s name args w = executeTool s name args' w.
Proof.
  intros Hname Hsame.
  assert (Hdeclared : forall p, declares name p = true -> args !! p = args' !! p).
  { intros p [ty Hin]%declares_In. by apply (Hsame p ty). }
  clear Hsame. apply list_elem_of_In in Hname.
  unfold toolNames, getAvailableTools in Hname. cbn [fmap list_fmap Name In] in Hname.
  repeat (destruct Hname as [<-|Hname];
    [switch_case; same_arguments Hdeclared args args'|]).
  destruct Hname.
Qed.

Lemma executeTool_reads_declared_only_witness :
  executeTool double.spy "jira_get_ticket"
    (list_to_map [("ticketID", VString "K-1"); ("verbose", VBool true)]) []
  = executeTool double.spy "jira_get_ticket"
      (list_to_map [("ticketID", VString "K-1")]) [].
Proof.
  apply (executeTool_reads_declared_only double.spy "jira_get_ticket").
  - apply (bool_decide_unpack _). vm_compute. exact I.
  - intros p ty Hin. apply list_elem_of_In in Hin.
    rewrite parameters_table in Hin. unfold parameterTable in Hin. cbn [In] in Hin.
    repeat (destruct Hin as [Heq|Hin]; [
      first [discriminate Heq | injection Heq as <- <-; vm_compute; reflexivity]|]).
    destruct Hin.
Defined.

(** ** The handshake *)

(** X9. An initialize request is answered, whatever lines came before and
    whatever its params, by a result that names the protocol version
    2024-11-05, the server mcp-integration-server 1.0.0 and an empty set of
    tool capabilities; no client is called. *)
Theorem initialize_fixed_reply {World : Type}
    (Unmarshal : string -> MCPRequest * option error) (s : MCPServer World)
    (before : list string) (line : string) (request : MCPRequest)
    (st : state World) :
  nonBlank line = true ->
  Unmarshal line = (request, None) ->
  Method request = "initialize" ->
  let st1 := (Start Unmarshal s before st).2 in
  exists m,
    Start Unmarshal s (before ++ [line]) st
    = printed st1 (world st1)
        {| JSONRPC := "2.0"; ID := reqID request; Result := RMap m; Error := None |}
    /\ m !! "protocolVersion" = Some (VString "2024-11-05")
    /\ m !! "capabilities" = Some (VMap {[ "tools" := VMap ∅ ]})
    /\ m !! "serverInfo"
       = Some (VMap {[ "name" := VString "mcp-integration-server";
                       "version" := VString "1.0.0" ]})
    /\ dom m = {[ "protocolVersion"; "capabilities"; "serverInfo" ]}.
Proof.
  intros Hline Hreq Hm st1. subst st1. eexists. split.
  - unfold Start. rewrite scanLoop_app. cbn [scanLoop].
    unfold nonBlank in Hline. apply negb_true_iff in Hline. rewrite Hline, Hreq.
    unfold bind, handleRequest. rewrite Hm. reflexivity.
  - repeat split; vm_compute; reflexivity.
Qed.

Lemma initialize_fixed_reply_witness :
  let st1 := (Start double.handshake double.spy [double.callLine] double.idle).2 in
  exists m,
    Start double.handshake double.spy ([double.callLine] ++ [double.initLine])
      double.idle
    = printed st1 (world st1)
        {| JSONRPC := "2.0"; ID := VFloat64 double.one; Result := RMap m;
           Error := None |}
    /\ m !! "protocolVersion" = Some (VString "2024-11-05")
    /\ m !! "capabilities" = Some (VMap {[ "tools" := VMap ∅ ]})
    /\ m !! "serverInfo"
       = Some (VMap {[ "name" := VString "mcp-integration-server";
                       "version" := VString "1.0.0" ]})
    /\ dom m = {[ "protocolVersion"; "capabilities"; "serverInfo" ]}.
Proof.
  apply (initialize_fixed_reply double.handshake double.spy [double.callLine]
           double.initLine
           {| reqJSONRPC := "2.0"; reqID := VFloat64 double.one;
              Method := "initialize";
              Params := VMap (list_to_map
                [("protocolVersion", VString "2024-11-05")]) |} double.idle).
  - vm_compute. reflexivity.
  - vm_compute. reflexivity.
  - reflexivity.
Defined.

(* ================================================================== *)
(** * The Jira client *)
(* ================================================================== *)

(** ** The constructor *)

Lemma get_append_last (s : string) (a : ascii) :
  String.get (String.length s) (s +:+ String a "") = Some a.
Proof. induction s as [|x s IH]; [reflexivity|]. exact IH. Qed.

Lemma length_append (s t : string) :
  String.length (s +:+ t) = (String.length s + String.length t)%nat.
Proof.
  induction s as [|x s IH]; [reflexivity|].
  rewrite append_String. cbn [String.length]. by rewrite IH.
Qed.

Lemma byteAt_append_last (s : string) (a : ascii) :
  byteAt (s +:+ String a "") (len (s +:+ String a "") - 1) = Some a.
Proof.
  unfold byteAt, len. rewrite length_append. cbn [String.length].
  replace (Z.to_nat (Z.of_nat (String.length s + 1) - 1)) with (String.length s)
    by lia.
  rewrite get_append_last.
  destruct (_ || _) eqn:Hb; [|reflexivity].
  apply orb_true_iff in Hb.
  destruct Hb as [Hb|Hb]; [apply Z.ltb_lt in Hb|apply Z.leb_le in Hb]; lia.
Qed.

(** What a returned client is made of. *)
Lemma NewJiraClient_returned (jiraURL username token : string)
    (c : jira.JiraClient) :
  jira.NewJiraClient jiraURL username token = Returned (inl c) ->
  isEmpty username = false /\ isEmpty token = false
  /\ exists last,
       byteAt jiraURL (len jiraURL - 1) = Some last
       /\ c = {| jira.baseURL :=
                   if negb (Ascii.eqb last "/") then jiraURL +:+ "/" else jiraURL;
                 jira.username := username;
                 jira.token := token;
                 jira.httpTimeout := 30 |}.
Proof.
  unfold jira.NewJiraClient.
  destruct (isEmpty username); [discriminate|].
  destruct (isEmpty token); [discriminate|].
  destruct (byteAt jiraURL (len jiraURL - 1)) as [last|] eqn:Hlast; [|discriminate].
  intros [= <-]. repeat split. by exists last.
Qed.

(** X10. A client that [NewJiraClient] returns keeps the credentials as
    given and has a base URL that ends with a slash: the URL itself when it
    already ends with one, the URL and a slash otherwise. *)
Theorem NewJiraClient_base_URL (jiraURL username token : string)
    (c : jira.JiraClient) :
  jira.NewJiraClient jiraURL username token = Returned (inl c) ->
  jira.username c = username /\ jira.token c = token /\ jira.httpTimeout c = 30
  /\ byteAt (jira.baseURL c) (len (jira.baseURL c) - 1) = Some "/"%char
  /\ (byteAt jiraURL (len jiraURL - 1) = Some "/"%char -> jira.baseURL c = jiraURL)
  /\ (byteAt jiraURL (len jiraURL - 1) <> Some "/"%char ->
      jira.baseURL c = jiraURL +:+ "/").
Proof.
  intros (_ & _ & last & Hlast & ->)%NewJiraClient_returned.
  cbn [jira.username jira.token jira.httpTimeout jira.baseURL].
  rewrite Hlast.
  destruct (Ascii.eqb_spec last "/") as [->|Hne]; cbn [negb]; repeat split; try done.
  - apply byteAt_append_last.
  - intros [= ->]. by destruct Hne.
Qed.

Lemma NewJiraClient_base_URL_witness :
  jira.username double.jiraClient = "ann" /\ jira.token double.jiraClient = "t0k"
  /\ jira.httpTimeout double.jiraClient = 30
  /\ byteAt (jira.baseURL double.jiraClient)
       (len (jira.baseURL double.jiraClient) - 1) = Some "/"%char
  /\ (byteAt "https://jira.example" (len "https://jira.example" - 1)
      = Some "/"%char -> jira.baseURL double.jiraClient = "https://jira.example")
  /\ (byteAt "https://jira.example" (len "https://jira.example" - 1)
      <> Some "/"%char ->
      jira.baseURL double.jiraClient = "https://jira.example" +:+ "/").
Proof.
  apply (NewJiraClient_base_URL "https://jira.example" "ann" "t0k").
  reflexivity.
Defined.

(** X11. The three outcomes of [NewJiraClient]: an error exactly when the
    user name or the token is empty (the message about the user name when
    both are), a panic exactly when both are given and the URL is empty, a
    client exactly when all three are given. *)
Theorem NewJiraClient_outcomes (jiraURL username token : string) :
  match jira.NewJiraClient jiraURL username token with
  | Returned (inr err) =>
      username = ""
      /\ err = "username/email is required for Jira authentication"
      \/ username <> "" /\ token = ""
         /\ err = "API token is required for Jira authentication"
  | Panicked _ => username <> "" /\ token <> "" /\ jiraURL = ""
  | Returned (inl _) => username <> "" /\ token <> "" /\ jiraURL <> ""
  end.
Proof.
  unfold jira.NewJiraClient.
  destruct (isEmpty username) eqn:Hu.
  { left. by apply isEmpty_true in Hu. }
  apply isEmpty_false in Hu.
  destruct (isEmpty token) eqn:Ht.
  { right. by apply isEmpty_true in Ht. }
  apply isEmpty_false in Ht.
  destruct (byteAt jiraURL (len jiraURL - 1)) eqn:Hlast.
  - repeat split; try done. intros ->. discriminate Hlast.
  - by apply byteAt_last in Hlast.
Qed.

(** X12. Building a client again from the base URL of a client gives the
    same client: the slash is added once. *)
Theorem NewJiraClient_idempotent (jiraURL username token : string)
    (c : jira.JiraClient) :
  jira.NewJiraClient jiraURL username token = Returned (inl c) ->
  jira.NewJiraClient (jira.baseURL c) username token = Returned (inl c).
Proof.
  intros (Hu & Ht & last & Hlast & ->)%NewJiraClient_returned.
  unfold jira.NewJiraClient. rewrite Hu, Ht. cbn [jira.baseURL].
  destruct (Ascii.eqb_spec last "/") as [->|Hne]; cbn [negb].
  - rewrite Hlast. reflexivity.
  - rewrite byteAt_append_last. reflexivity.
Qed.

Lemma NewJiraClient_idempotent_witness :
  jira.NewJiraClient (jira.baseURL double.jiraClient) "ann" "t0k"
  = Returned (inl double.jiraClient).
Proof.
  apply (NewJiraClient_idempotent "https://jira.example" "ann" "t0k").
  reflexivity.
Defined.

(** ** The methods *)

Lemma append_nonempty (s t : string) : s <> "" -> s +:+ t <> "".
Proof. by destruct s. Qed.

Lemma append_assoc (s t u : string) : (s +:+ t) +:+ u = s +:+ t +:+ u.
Proof.
  induction s as [|a s IH]; [reflexivity|].
  rewrite !append_String. by rewrite IH.
Qed.

Lemma append_empty_r (s : string) : s +:+ "" = s.
Proof.
  induction s as [|a s IH]; [reflexivity|]. rewrite append_String. by rewrite IH.
Qed.

(** The texts of search hits, appended to a text that is not empty. *)
Lemma hits_nonempty (issues : list jirahttp.JiraIssue) (text : string) :
  text <> "" ->
  foldl (fun result issue => result +:+ jirahttp.hitText issue) text issues <> "".
Proof.
  revert text. induction issues as [|issue issues IH]; intros text Htext; [done|].
  cbn [foldl]. apply IH. by apply append_nonempty.
Qed.

Section JiraMethodFacts.

Context {World : Type}.
Variable newRequestError : string -> string -> option error.
Variable Do : jirahttp.Request -> World -> (jirahttp.Response + error) * World.
Variable unmarshalIssue : string -> jirahttp.JiraIssue + error.
Variable unmarshalSearch : string -> jirahttp.JiraSearchResponse + error.
Variable unmarshalCreated : string -> string + error.
Variable c : jira.JiraClient.

(** X13. [GetTicketByID] sends nothing for an empty ticket ID or when the
    request cannot be built; otherwise it makes exactly one round trip: a
    GET of <base URL>rest/api/3/issue/<ticket ID> with the Basic
    credentials of the client, no body and no content type. *)
Theorem GetTicketByID_round_trip (ticketID : string) :
  let method := jirahttp.GetTicketByID newRequestError Do unmarshalIssue c ticketID in
  let url := jira.baseURL c +:+ "rest/api/3/" +:+ "issue/" +:+ ticketID in
  if isEmpty ticketID then
    jirahttp.noRoundTrip method ("", Some "ticket ID cannot be empty")
  else
    match newRequestError "GET" url with
    | Some err =>
        jirahttp.noRoundTrip method
          ("", Some ("failed to make request for ticket " +:+ ticketID +:+ ": "
                     +:+ "failed to create request: " +:+ err))
    | None =>
        exists request,
          jirahttp.oneRoundTrip Do method request
          /\ jirahttp.Method request = "GET"
          /\ jirahttp.URL request = url
          /\ jirahttp.authorized c request
          /\ jirahttp.Header request !! "Content-Type" = None
          /\ jirahttp.Body request = None
    end.
Proof.
  intros method url. subst method url. unfold jirahttp.noRoundTrip.
  destruct (isEmpty ticketID) eqn:Hid.
  { intros w. unfold jirahttp.GetTicketByID. by rewrite Hid. }
  destruct (newRequestError "GET" _) as [err|] eqn:Hnew.
  { intros w. unfold jirahttp.GetTicketByID, jirahttp.makeRequest.
    by rewrite Hid, Hnew. }
  exists
    {| jirahttp.Method := "GET";
       jirahttp.URL := jira.baseURL c +:+ "rest/api/3/" +:+ "issue/" +:+ ticketID;
       jirahttp.Header :=
         <["Accept":="application/json"]>
           (<["Authorization":=
                "Basic " +:+ jirahttp.EncodeToString
                               (jira.username c +:+ ":" +:+ jira.token c)]> ∅);
       jirahttp.Body := None |}.
  split.
  - exists (fun r =>
      (jirahttp.GetTicketByID (World:=unit) newRequestError (fun _ _ => (r, tt))
         unmarshalIssue c ticketID tt).1).
    intros w. unfold jirahttp.GetTicketByID, jirahttp.makeRequest.
    rewrite Hid, Hnew. cbn [String.eqb Ascii.eqb Bool.eqb orb isEmpty].
    destruct (Do _ w) as [[response|err] w']; cbn [fst snd]; [|reflexivity].
    destruct (negb _); [reflexivity|].
    destruct (jirahttp.ReadAll response) as [body [err|]]; [reflexivity|].
    by destruct (unmarshalIssue body).
  - unfold jirahttp.authorized. cbn [jirahttp.Method jirahttp.URL jirahttp.Header
      jirahttp.Body]. by repeat split.
Qed.

(** X14. [SearchTickets] sends nothing for an empty query or when the
    request cannot be built; otherwise it makes exactly one round trip: a
    POST of <base URL>rest/api/3/search with the credentials of the client,
    the JSON content type, and a body asking for at most 50 results with
    the fields summary, status and assignee. *)
Theorem SearchTickets_round_trip (jql : string) :
  let method := jirahttp.SearchTickets newRequestError Do unmarshalSearch c jql in
  let url := jira.baseURL c +:+ "rest/api/3/" +:+ "search" in
  if isEmpty jql then
    jirahttp.noRoundTrip method ("", Some "JQL query cannot be empty")
  else
    match newRequestError "POST" url with
    | Some err =>
        jirahttp.noRoundTrip method
          ("", Some ("failed to make search request: "
                     +:+ "failed to create request: " +:+ err))
    | None =>
        exists request,
          jirahttp.oneRoundTrip Do method request
          /\ jirahttp.Method request = "POST"
          /\ jirahttp.URL request = url
          /\ jirahttp.authorized c request
          /\ jirahttp.Header request !! "Content-Type" = Some "application/json"
          /\ jirahttp.Body request
             = Some (jirahttp.SearchPayload jql 50 ["summary"; "status"; "assignee"])
    end.
Proof.
  intros method url. subst method url. unfold jirahttp.noRoundTrip.
  destruct (isEmpty jql) eqn:Hq.
  { intros w. unfold jirahttp.SearchTickets. by rewrite Hq. }
  destruct (newRequestError "POST" _) as [err|] eqn:Hnew.
  { intros w. unfold jirahttp.SearchTickets, jirahttp.makeRequest.
    by rewrite Hq, Hnew. }
  exists
    {| jirahttp.Method := "POST";
       jirahttp.URL := jira.baseURL c +:+ "rest/api/3/" +:+ "search";
       jirahttp.Header :=
         <["Content-Type":="application/json"]>
           (<["Accept":="application/json"]>
              (<["Authorization":=
                   "Basic " +:+ jirahttp.EncodeToString
                                  (jira.username c +:+ ":" +:+ jira.token c)]> ∅));
       jirahttp.Body :=
         Some (jirahttp.SearchPayload jql 50 ["summary"; "status"; "assignee"]) |}.
  split.
  - exists (fun r =>
      (jirahttp.SearchTickets (World:=unit) newRequestError (fun _ _ => (r, tt))
         unmarshalSearch c jql tt).1).
    intros w. unfold jirahttp.SearchTickets, jirahttp.makeRequest.
    rewrite Hq, Hnew. cbn [String.eqb Ascii.eqb Bool.eqb orb isEmpty].
    destruct (Do _ w) as [[response|err] w']; cbn [fst snd]; [|reflexivity].
    destruct (negb _); [reflexivity|].
    destruct (jirahttp.ReadAll response) as [body [err|]]; [reflexivity|].
    destruct (unmarshalSearch body) as [found|err]; [|reflexivity].
    by destruct (_ =? 0).
  - unfold jirahttp.authorized. cbn [jirahttp.Method jirahttp.URL jirahttp.Header
      jirahttp.Body]. by repeat split.
Qed.

(** X15. [CreateTicket] sends nothing when the project key or the summary
    is empty (the key is checked first) or when the request cannot be
    built; otherwise it makes exactly one round trip: a POST of
    <base URL>rest/api/3/issue with the credentials of the client and a
    body for an issue of type Task in that project, with that summary and
    the description as a document. *)
Theorem CreateTicket_round_trip (projectKey summary description : string) :
  let method :=
    jirahttp.CreateTicket newRequestError Do unmarshalCreated c projectKey summary
      description in
  let url := jira.baseURL c +:+ "rest/api/3/" +:+ "issue" in
  if isEmpty projectKey then
    jirahttp.noRoundTrip method ("", Some "project key cannot be empty")
  else if isEmpty summary then
    jirahttp.noRoundTrip method ("", Some "summary cannot be empty")
  else
    match newRequestError "POST" url with
    | Some err =>
        jirahttp.noRoundTrip method
          ("", Some ("failed to make create request: "
                     +:+ "failed to create request: " +:+ err))
    | None =>
        exists request,
          jirahttp.oneRoundTrip Do method request
          /\ jirahttp.Method request = "POST"
          /\ jirahttp.URL request = url
          /\ jirahttp.authorized c request
          /\ jirahttp.Header request !! "Content-Type" = Some "application/json"
          /\ jirahttp.Body request
             = Some (jirahttp.CreatePayload
                       {| jirahttp.ProjectKey := projectKey;
                          jirahttp.NewSummary := summary;
                          jirahttp.NewDescription :=
                            jirahttp.descriptionOf description;
                          jirahttp.IssueTypeName := "Task" |})
    end.
Proof.
  intros method url. subst method url. unfold jirahttp.noRoundTrip.
  destruct (isEmpty projectKey) eqn:Hk.
  { intros w. unfold jirahttp.CreateTicket. by rewrite Hk. }
  destruct (isEmpty summary) eqn:Hs.
  { intros w. unfold jirahttp.CreateTicket. by rewrite Hk, Hs. }
  destruct (newRequestError "POST" _) as [err|] eqn:Hnew.
  { intros w. unfold jirahttp.CreateTicket, jirahttp.makeRequest.
    by rewrite Hk, Hs, Hnew. }
  exists
    {| jirahttp.Method := "POST";
       jirahttp.URL := jira.baseURL c +:+ "rest/api/3/" +:+ "issue";
       jirahttp.Header :=
         <["Content-Type":="application/json"]>
           (<["Accept":="application/json"]>
              (<["Authorization":=
                   "Basic " +:+ jirahttp.EncodeToString
                                  (jira.username c +:+ ":" +:+ jira.token c)]> ∅));
       jirahttp.Body :=
         Some (jirahttp.CreatePayload
                 {| jirahttp.ProjectKey := projectKey;
                    jirahttp.NewSummary := summary;
                    jirahttp.NewDescription := jirahttp.descriptionOf description;
                    jirahttp.IssueTypeName := "Task" |}) |}.
  split.
  - exists (fun r =>
      (jirahttp.CreateTicket (World:=unit) newRequestError (fun _ _ => (r, tt))
         unmarshalCreated c projectKey summary description tt).1).
    intros w. unfold jirahttp.CreateTicket, jirahttp.makeRequest.
    rewrite Hk, Hs, Hnew. cbn [String.eqb Ascii.eqb Bool.eqb orb isEmpty].
    unfold jirahttp.descriptionOf.
    destruct (isEmpty description); cbn [negb];
      (destruct (Do _ w) as [[response|err] w']; cbn [fst snd]; [|reflexivity]);
      (destruct (negb _); [reflexivity|]);
      (destruct (jirahttp.ReadAll response) as [body [err|]]; [reflexivity|]);
      by destruct (unmarshalCreated body).
  - unfold jirahttp.authorized. cbn [jirahttp.Method jirahttp.URL jirahttp.Header
      jirahttp.Body]. by repeat split.
Qed.

(** X16. The three methods keep the convention of the (text, error)
    results: the text is empty exactly when there is an error. *)
Theorem jira_text_empty_iff_error :
  (forall ticketID w,
     let r := (jirahttp.GetTicketByID newRequestError Do unmarshalIssue c
                 ticketID w).1 in
     r.1 = "" <-> r.2 <> None)
  /\ (forall jql w,
        let r := (jirahttp.SearchTickets newRequestError Do unmarshalSearch c
                    jql w).1 in
        r.1 = "" <-> r.2 <> None)
  /\ (forall projectKey summary description w,
        let r := (jirahttp.CreateTicket newRequestError Do unmarshalCreated c
                    projectKey summary description w).1 in
        r.1 = "" <-> r.2 <> None).
Proof.
  repeat split.
  all: unfold jirahttp.GetTicketByID, jirahttp.SearchTickets,
         jirahttp.CreateTicket, jirahttp.makeRequest.
  all: repeat match goal with
       | |- context [Z.of_nat (length ?l) =? 0] =>
           destruct (Z.eqb_spec (Z.of_nat (length l)) 0)
       | |- context [if ?b then _ else _] => destruct b
       | |- context [match newRequestError ?m ?u with _ => _ end] =>
           destruct (newRequestError m u)
       | |- context [Do ?q ?w] => destruct (Do q w) as [[?|?] ?]
       | |- context [jirahttp.ReadAll ?r] =>
           destruct (jirahttp.ReadAll r) as [? [?|]]
       | |- context [unmarshalIssue ?b] => destruct (unmarshalIssue b)
       | |- context [unmarshalSearch ?b] => destruct (unmarshalSearch b)
       | |- context [unmarshalCreated ?b] => destruct (unmarshalCreated b)
       end.
  all: cbn [fst snd]; try done.
  all: intros Hempty; exfalso.
  all: match goal with
       | H : Z.of_nat (length (jirahttp.Issues ?found)) <> 0 |- _ =>
           destruct (jirahttp.Issues found) as [|issue issues]; [done|]
       end.
  all: by apply (hits_nonempty issues (jirahttp.hitText issue)).
Qed.

(** X17. On a server whose Jira handle is this client, a call of the tool
    jira_get_ticket whose ticket ID is absent, is not a string, or is the
    empty string is answered by a success envelope with the flagged text
    "Error: ticket ID cannot be empty", and nothing is sent to Jira. *)
Theorem empty_ticket_ID_is_flagged (s : MCPServer World) (request : MCPRequest)
    (st : state World) :
  Jira s = jirahttp.asJiraTool newRequestError Do unmarshalIssue unmarshalSearch
             unmarshalCreated c ->
  Method request = "tools/call" ->
  toolName request = Some "jira_get_ticket" ->
  lacking "string" (toolArguments request !! "ticketID") = true
  \/ toolArguments request !! "ticketID" = Some (VString "") ->
  handleRequest s request st
  = printed st (world st)
      (flaggedResult (reqID request) "Error: ticket ID cannot be empty").
Proof.
  intros Hjira Hm Hname Hid. rewrite (handleRequest_call s request st Hm).
  rewrite (handleToolCall_named s request "jira_get_ticket" st Hname).
  switch_case. rewrite Hjira. cbn [tools.GetTicketByID jirahttp.asJiraTool].
  assert (Hempty :
    (assertString (mapIndex (toolArguments request) "ticketID")).1 = "").
  { destruct Hid as [Hid|Hid]; [by apply lacking_string|].
    unfold mapIndex. by rewrite Hid. }
  unfold jirahttp.GetTicketByID. rewrite Hempty. reflexivity.
Qed.

End JiraMethodFacts.

Lemma empty_ticket_ID_is_flagged_witness :
  handleRequest
    {| Github := double.spyGithub; Jira := double.wiredJira;
       Notion := double.spyNotion |}
    double.ticketRequest double.idle
  = printed double.idle []
      (flaggedResult (VFloat64 double.one) "Error: ticket ID cannot be empty").
Proof.
  apply (empty_ticket_ID_is_flagged (fun _ _ => None) double.wire
           (fun _ => inl double.ticket)
           (fun _ => inl {| jirahttp.Issues := [double.ticket]; jirahttp.Total := 1 |})
           (fun _ => inl "K-2") double.jiraClient).
  - reflexivity.
  - reflexivity.
  - vm_compute. reflexivity.
  - right. vm_compute. reflexivity.
Defined.

(** A ticket read over the recording wire: one GET, and the text of the
    ticket. *)
Example ticket_over_the_wire :
  GetTicketByID double.wiredJira "K-1" []
  = (("ID: K-1" +:+ String "010" ""
      +:+ "Summary: Fix the build" +:+ String "010" ""
      +:+ "Status: Open" +:+ String "010" ""
      +:+ "Assignee: Unassigned" +:+ String "010" ""
      +:+ "Description: It fails " +:+ String "010" (String "010" ""), None),
     [("Do", [double.AString "GET";
              double.AString "https://jira.example/rest/api/3/issue/K-1";
              double.AString "Basic YW5uOnQwaw=="])]).
Proof. vm_compute. reflexivity. Qed.

(** The test vectors of RFC 4648. *)
Example base64_vectors :
  jirahttp.EncodeToString <$> [""; "f"; "fo"; "foo"; "foob"; "fooba"; "foobar"]
  = [""; "Zg=="; "Zm8="; "Zm9v"; "Zm9vYg=="; "Zm9vYmE="; "Zm9vYmFy"].
Proof. vm_compute. reflexivity. Qed.

(** ** The description of a ticket *)

Lemma extractItems_from (text : string) (items : list jirahttp.ADFItem) :
  jirahttp.extractItems text items = text +:+ jirahttp.extractItems "" items.
Proof.
  unfold jirahttp.extractItems. revert text.
  induction items as [|item items IH]; intros text; cbn [foldl].
  - by rewrite append_empty_r.
  - destruct (String.eqb (jirahttp.itemType item) "text"); [|apply IH].
    rewrite (IH (text +:+ jirahttp.itemText item +:+ " ")).
    rewrite (IH ("" +:+ jirahttp.itemText item +:+ " ")).
    by rewrite append_empty, !append_assoc.
Qed.

(** The text of one block, and of a list of blocks from a given text. *)
Lemma extractBlocks_from (text : string) (blocks : list jirahttp.ADFBlock) :
  foldl (fun text content =>
           if String.eqb (jirahttp.blockType content) "paragraph" then
             jirahttp.extractItems text (jirahttp.blockContent content)
             +:+ String "010" ""
           else text) text blocks
  = text
    +:+ foldl (fun text content =>
                 if String.eqb (jirahttp.blockType content) "paragraph" then
                   jirahttp.extractItems text (jirahttp.blockContent content)
                   +:+ String "010" ""
                 else text) "" blocks.
Proof.
  revert text. induction blocks as [|block blocks IH]; intros text; cbn [foldl].
  - by rewrite append_empty_r.
  - destruct (String.eqb (jirahttp.blockType block) "paragraph"); [|apply IH].
    rewrite (IH (jirahttp.extractItems text _ +:+ _)).
    rewrite (IH (jirahttp.extractItems "" _ +:+ _)).
    rewrite (extractItems_from text). by rewrite !append_assoc.
Qed.

(** X18. The text of a description is the text of its blocks, one after
    the other; a block that is not a paragraph adds nothing, and the type
    and version of the document play no part. *)
Theorem extractDescriptionText_blocks (ty ty1 ty2 : string) (v v1 v2 : Z)
    (blocks1 blocks2 : list jirahttp.ADFBlock) :
  jirahttp.extractDescriptionText
    {| jirahttp.docType := ty; jirahttp.docVersion := v;
       jirahttp.docContent := (blocks1 ++ blocks2)%list |}
  = jirahttp.extractDescriptionText
      {| jirahttp.docType := ty1; jirahttp.docVersion := v1;
         jirahttp.docContent := blocks1 |}
    +:+ jirahttp.extractDescriptionText
          {| jirahttp.docType := ty2; jirahttp.docVersion := v2;
             jirahttp.docContent :=
               List.filter
                 (fun block => String.eqb (jirahttp.blockType block) "paragraph")
                 blocks2 |}.
Proof.
  unfold jirahttp.extractDescriptionText. cbn [jirahttp.docContent].
  rewrite foldl_app, extractBlocks_from. f_equal.
  induction blocks2 as [|block blocks IH]; [reflexivity|].
  cbn [foldl List.filter].
  destruct (String.eqb (jirahttp.blockType block) "paragraph") eqn:Hp.
  - cbn [foldl]. rewrite Hp.
    rewrite extractBlocks_from, (extractBlocks_from (_ +:+ _)). by rewrite IH.
  - exact IH.
Qed.

(** X19. What [CreateTicket] sends as the description reads back through
    [extractDescriptionText] as the description followed by a space and a
    line feed, and as the empty text for an empty description. *)
Theorem description_round_trip (description : string) :
  jirahttp.extractDescriptionText (jirahttp.descriptionOf description)
  = if isEmpty description then ""
    else description +:+ String " " (String "010" "").
Proof.
  unfold jirahttp.extractDescriptionText, jirahttp.descriptionOf.
  cbn [jirahttp.docContent]. destruct (isEmpty description); [reflexivity|].
  cbn [foldl jirahttp.blockType jirahttp.blockContent String.eqb Ascii.eqb Bool.eqb].
  unfold jirahttp.extractItems.
  cbn [foldl jirahttp.itemType jirahttp.itemText String.eqb Ascii.eqb Bool.eqb].
  by rewrite append_empty, append_assoc.
Qed.

(* ================================================================== *)
(** * The Notion and GitHub clients *)
(* ================================================================== *)

(** ** Splitting and joining *)

Lemma Split_nonempty (s : string) (sep : ascii) : notionapi.Split s sep <> [].
Proof.
  destruct s as [|a s]; [done|]. cbn [notionapi.Split].
  destruct (Ascii.eqb a sep); [done|]. by destruct (notionapi.Split s sep).
Qed.

(** The pieces of a string, joined, give the string back; no piece has the
    separator. *)
Lemma Join_Split (s : string) (sep : ascii) :
  notionapi.Join (notionapi.Split s sep) sep = s.
Proof.
  induction s as [|a s IH]; [reflexivity|]. cbn [notionapi.Split].
  destruct (Ascii.eqb_spec a sep) as [->|Hne].
  - cbn [notionapi.Join].
    destruct (notionapi.Split s sep) eqn:Hs; [by apply Split_nonempty in Hs|].
    rewrite append_empty. by rewrite IH.
  - destruct (notionapi.Split s sep) as [|piece pieces] eqn:Hs;
      [by apply Split_nonempty in Hs|].
    cbn [notionapi.Join] in *. destruct pieces; rewrite <- IH; reflexivity.
Qed.

Lemma Split_pieces (s : string) (sep : ascii) :
  Forall (fun piece => notionapi.contains piece sep = false) (notionapi.Split s sep).
Proof.
  induction s as [|a s IH]; [by repeat constructor|]. cbn [notionapi.Split].
  destruct (Ascii.eqb a sep) eqn:Ha; [by constructor|].
  destruct (notionapi.Split s sep) as [|piece pieces].
  - constructor; [|constructor]. cbn [notionapi.contains]. by rewrite Ha.
  - inversion IH as [|? ? Hpiece Hpieces]; subst.
    constructor; [|exact Hpieces]. cbn [notionapi.contains]. by rewrite Ha.
Qed.

Lemma Split_append (part rest : string) (sep : ascii) :
  notionapi.contains part sep = false ->
  notionapi.Split (part +:+ rest) sep
  = match notionapi.Split rest sep with
    | piece :: pieces => (part +:+ piece) :: pieces
    | [] => []
    end.
Proof.
  induction part as [|a part IH]; intros Hpart.
  - rewrite append_empty. by destruct (notionapi.Split rest sep).
  - cbn [notionapi.contains] in Hpart. apply orb_false_iff in Hpart as [Ha Hp].
    rewrite append_String. cbn [notionapi.Split]. rewrite Ha, (IH Hp).
    destruct (notionapi.Split rest sep) eqn:Hs; [by apply Split_nonempty in Hs|].
    reflexivity.
Qed.

Lemma Join_cons (part : string) (parts : list string) (sep : ascii) :
  parts <> [] ->
  notionapi.Join (part :: parts) sep
  = part +:+ String sep (notionapi.Join parts sep).
Proof. by destruct parts. Qed.

(** Conversely, pieces without the separator are what their join splits
    into. *)
Lemma Split_Join (parts : list string) (sep : ascii) :
  parts <> [] ->
  Forall (fun piece => notionapi.contains piece sep = false) parts ->
  notionapi.Split (notionapi.Join parts sep) sep = parts.
Proof.
  induction parts as [|part parts IH]; [done|].
  intros _ Hall. inversion Hall as [|? ? Hpart Hparts]; subst.
  destruct parts as [|part' parts].
  - cbn [notionapi.Join]. rewrite <- (append_empty_r part) at 1.
    rewrite (Split_append part "" sep Hpart). cbn [notionapi.Split].
    by rewrite append_empty_r.
  - rewrite Join_cons by done. rewrite (Split_append part _ sep Hpart).
    cbn [notionapi.Split]. rewrite Ascii.eqb_refl.
    rewrite append_empty_r. f_equal. by apply IH.
Qed.

(** ** The page ID of a URL *)

Lemma sliceAt_last (init : list string) (l : string) :
  notionapi.sliceAt (init ++ [l]) (Z.of_nat (length (init ++ [l])) - 1) = Some l.
Proof.
  unfold notionapi.sliceAt. rewrite length_app. cbn [length].
  replace (Z.to_nat (Z.of_nat (length init + 1) - 1)) with (length init + 0)%nat
    by lia.
  rewrite lookup_app_r by lia.
  replace (length init + 0 - length init)%nat with 0%nat by lia.
  destruct (_ || _) eqn:Hb; [|reflexivity].
  apply orb_true_iff in Hb.
  destruct Hb as [Hb|Hb]; [apply Z.ltb_lt in Hb|apply Z.leb_le in Hb]; lia.
Qed.

(** The join of a list with a last piece: what comes before the last piece
    is empty or ends with the separator. *)
Lemma Join_last (init : list string) (l : string) (sep : ascii) :
  exists prefix,
    notionapi.Join (init ++ [l]) sep = prefix +:+ l
    /\ (prefix = "" \/ exists q, prefix = q +:+ String sep "").
Proof.
  induction init as [|part init (prefix & IH & Hprefix)].
  - exists "". split; [reflexivity|by left].
  - exists (part +:+ String sep prefix). split.
    + change ((part :: init) ++ [l])%list with (part :: (init ++ [l]))%list.
      rewrite Join_cons by (by destruct init).
      rewrite IH. by rewrite append_assoc, append_String.
    + right. destruct Hprefix as [->|(q & ->)].
      * by exists part.
      * exists (part +:+ String sep q). by rewrite append_assoc, append_String.
Qed.

Section NotionFacts.

Context {World : Type}.
Variable parsePath : string -> string + error.
Variable FindPageByID : string -> World -> (notionapi.Page + error) * World.

(** The page ID of a path that parsed. *)
Lemma extractPageIDFromURL_parsed (pageURL path : string) :
  parsePath pageURL = inl path ->
  exists prefix pageID,
    notionapi.extractPageIDFromURL parsePath pageURL = Returned (inl pageID)
    /\ notionapi.TrimPrefix path "/" = prefix +:+ pageID
    /\ notionapi.contains pageID "-" = false
    /\ (prefix = "" \/ exists q, prefix = q +:+ "-").
Proof.
  intros Hpath. unfold notionapi.extractPageIDFromURL. rewrite Hpath.
  assert (Hjoin := Join_Split (notionapi.TrimPrefix path "/") "-").
  assert (Hall := Split_pieces (notionapi.TrimPrefix path "/") "-").
  destruct (exists_last (Split_nonempty (notionapi.TrimPrefix path "/") "-"))
    as (init & l & Hparts).
  rewrite Hparts in *.
  destruct (Join_last init l "-") as (prefix & Hprefix & Hshape).
  exists prefix, l. rewrite sliceAt_last.
  destruct (Z.eqb_spec (Z.of_nat (length (init ++ [l]))) 0) as [Hlen|_].
  { rewrite length_app in Hlen. cbn [length] in Hlen. lia. }
  split; [reflexivity|]. split; [by rewrite <- Hjoin|]. split; [|exact Hshape].
  apply Forall_app in Hall as [_ Hl]. by inversion Hl.
Qed.

(** X20. [extractPageIDFromURL] fails only with the error of [url.Parse];
    it never panics and never reports "invalid Notion URL".  Otherwise the
    page ID is what follows the last "-" of the path without its leading
    slash, or that whole path when it has no "-". *)
Theorem extractPageIDFromURL_last_piece (pageURL : string) :
  match parsePath pageURL with
  | inr err =>
      notionapi.extractPageIDFromURL parsePath pageURL = Returned (inr err)
  | inl path =>
      exists prefix pageID,
        notionapi.extractPageIDFromURL parsePath pageURL = Returned (inl pageID)
        /\ notionapi.TrimPrefix path "/" = prefix +:+ pageID
        /\ notionapi.contains pageID "-" = false
        /\ (prefix = "" \/ exists q, prefix = q +:+ "-")
  end.
Proof.
  destruct (parsePath pageURL) as [path|err] eqn:Hpath.
  - by apply extractPageIDFromURL_parsed.
  - unfold notionapi.extractPageIDFromURL. by rewrite Hpath.
Qed.

(** X21. [GetPageByURL] never panics; it asks Notion for one page, the one
    with the page ID of the URL, and asks for nothing when the URL does
    not parse. *)
Theorem GetPageByURL_returns (c : notion.NotionClient) (pageURL : string)
    (w : World) :
  match parsePath pageURL with
  | inr err =>
      notionapi.GetPageByURL parsePath FindPageByID c pageURL w
      = (Returned ("", Some err), w)
  | inl _ =>
      exists pageID result,
        notionapi.extractPageIDFromURL parsePath pageURL = Returned (inl pageID)
        /\ notionapi.GetPageByURL parsePath FindPageByID c pageURL w
           = (Returned result, (FindPageByID pageID w).2)
  end.
Proof.
  unfold notionapi.GetPageByURL.
  destruct (parsePath pageURL) as [path|err] eqn:Hpath.
  - destruct (extractPageIDFromURL_parsed pageURL path Hpath)
      as (prefix & pageID & -> & _).
    exists pageID. destruct (FindPageByID pageID w) as [[page|err] w'];
      eexists; (split; [reflexivity|]); reflexivity.
  - unfold notionapi.extractPageIDFromURL. by rewrite Hpath.
Qed.

End NotionFacts.

(** A Notion URL: the title words and the page ID after the last dash. *)
Example page_ID_of_URL :
  notionapi.extractPageIDFromURL
    (fun _ => inl "/Release-notes-4f1c2e")
    "https://www.notion.so/Release-notes-4f1c2e"
  = Returned (inl "4f1c2e").
Proof. vm_compute. reflexivity. Qed.

(** ** The tag lookup *)

Section GithubFacts.

Context {World : Type}.
Variable ListTags :
  string -> string -> World -> (list githubapi.RepositoryTag + error) * World.

Lemma findTag_skips (before rest : list githubapi.RepositoryTag) (tagName : string) :
  Forall (githubapi.otherTag tagName) before ->
  githubapi.findTag (before ++ rest) tagName = githubapi.findTag rest tagName.
Proof.
  induction 1 as [|tag before (name & Hname & Hne) _ IH]; [reflexivity|].
  cbn [app githubapi.findTag]. rewrite Hname.
  by destruct (String.eqb_spec name tagName).
Qed.

Lemma findTag_not_found (tags : list githubapi.RepositoryTag) (tagName : string) :
  githubapi.findTag tags tagName = Returned ("Tag not found", None)
  <-> Forall (githubapi.otherTag tagName) tags.
Proof.
  split.
  - induction tags as [|tag tags IH]; [constructor|].
    cbn [githubapi.findTag].
    destruct (githubapi.TagName tag) as [name|] eqn:Hname; [|discriminate].
    destruct (String.eqb_spec name tagName) as [->|Hne].
    + destruct (githubapi.TagCommit tag) as [[[sha|]]|]; discriminate.
    + intros Hrest. constructor; [by exists name|by apply IH].
  - intros Hall. rewrite <- (app_nil_r tags). by rewrite findTag_skips.
Qed.

(** X22. After a successful listing, [GetTag] returns the text
    "Tag not found" without an error exactly when every listed tag has a
    name (a non-nil [Name]) and that name is not the requested one.  So a
    listing without the requested name gives "Tag not found" only if all
    its tags are named: on a nameless tag the loop panics, see
    [GetTag_first_match]. *)
Theorem GetTag_not_found (c : github.GithubClient) (owner repo tagName : string)
    (tags : list githubapi.RepositoryTag) (w w' : World) :
  ListTags owner repo w = (inl tags, w') ->
  githubapi.GetTag ListTags c owner repo tagName w
  = (Returned ("Tag not found", None), w')
  <-> Forall (githubapi.otherTag tagName) tags.
Proof.
  intros Hlist. unfold githubapi.GetTag. rewrite Hlist.
  rewrite <- findTag_not_found. split; [|by intros ->].
  intros H. by injection H.
Qed.

(** X23. [GetTag] is decided by the first listed tag that has no name or
    has the requested name, that is, by a tag all of whose predecessors
    have names other than the requested one.  If that tag has the
    requested name and a commit with a SHA, [GetTag] reports the two,
    and the tags listed after it, even with the same name, play no part.
    If that tag has no name, or has the requested name but no commit or a
    commit without SHA, [GetTag] panics on the nil pointer, whatever is
    listed after it. *)
Theorem GetTag_first_match (c : github.GithubClient) (owner repo tagName : string)
    (before after : list githubapi.RepositoryTag) (tag : githubapi.RepositoryTag)
    (w w' : World) :
  ListTags owner repo w = (inl (before ++ tag :: after)%list, w') ->
  Forall (githubapi.otherTag tagName) before ->
  (forall sha,
     githubapi.TagName tag = Some tagName ->
     githubapi.TagCommit tag = Some {| githubapi.SHA := Some sha |} ->
     githubapi.GetTag ListTags c owner repo tagName w
     = (Returned ("Tag: " +:+ tagName +:+ String "010" "" +:+ "Commit: " +:+ sha,
                  None), w'))
  /\ (githubapi.TagName tag = None
      \/ githubapi.TagName tag = Some tagName
         /\ (githubapi.TagCommit tag = None
             \/ githubapi.TagCommit tag = Some {| githubapi.SHA := None |}) ->
      githubapi.GetTag ListTags c owner repo tagName w
      = (Panicked "runtime error: invalid memory address or nil pointer dereference",
         w')).
Proof.
  intros Hlist Hall. unfold githubapi.GetTag. rewrite Hlist.
  rewrite findTag_skips by done. cbn [githubapi.findTag]. split.
  - intros sha Hname Hcommit. by rewrite Hname, String.eqb_refl, Hcommit.
  - intros [Hname|[Hname [Hcommit|Hcommit]]]; rewrite Hname; [reflexivity| |];
      by rewrite String.eqb_refl, Hcommit.
Qed.

End GithubFacts.

(** The listing of [double.tagList] has no tag v3, and all its tags are
    named. *)
Lemma GetTag_not_found_witness :
  githubapi.GetTag double.listTags {| github.authToken := "" |} "octo" "repo"
    "v3" []
  = (Returned ("Tag not found", None),
     [("ListTags", [double.AString "octo"; double.AString "repo"])]).
Proof.
  apply (GetTag_not_found double.listTags _ "octo" "repo" "v3" double.tagList).
  - reflexivity.
  - repeat constructor; eexists; (split; [reflexivity|discriminate]).
Defined.

(** In the same listing the first v1 has the commit c1; the second v1,
    which has no commit, is not reached. *)
Lemma GetTag_first_match_witness :
  githubapi.GetTag double.listTags {| github.authToken := "" |} "octo" "repo"
    "v1" []
  = (Returned ("Tag: " +:+ "v1" +:+ String "010" "" +:+ "Commit: " +:+ "c1", None),
     [("ListTags", [double.AString "octo"; double.AString "repo"])]).
Proof.
  apply (GetTag_first_match double.listTags {| github.authToken := "" |}
           "octo" "repo" "v1"
           [{| githubapi.TagName := Some "v2";
               githubapi.TagCommit := Some {| githubapi.SHA := Some "c2" |} |}]
           [{| githubapi.TagName := Some "v1"; githubapi.TagCommit := None |}]
           {| githubapi.TagName := Some "v1";
              githubapi.TagCommit := Some {| githubapi.SHA := Some "c1" |} |}
           [] [("ListTags", [double.AString "octo"; double.AString "repo"])]).
  - reflexivity.
  - repeat constructor; eexists; (split; [reflexivity|discriminate]).
  - reflexivity.
  - reflexivity.
Defined.

(** A tag without a name listed before the requested one: the lookup of
    v1 panics although v1 is listed. *)
Example GetTag_nameless_tag_first :
  githubapi.findTag
    ({| githubapi.TagName := None; githubapi.TagCommit := None |} :: double.tagList)
    "v1"
  = Panicked "runtime error: invalid memory address or nil pointer dereference".
Proof. reflexivity. Qed.

(* ================================================================== *)
(** * The configuration, again *)
(* ================================================================== *)

(** X24. [LoadConfig] fails exactly when a file it can read does not
    decode, with the error of the decoder: the one of the base file, or,
    when the base file is missing or decodes, the one of local.yml.  The
    environment plays no part in it, and a missing file is no error. *)
Theorem LoadConfig_fails_iff (fs : gmap string config.yamlDoc)
    (env : gmap string string) (configPath : string) (err : error) :
  config.LoadConfig fs env configPath = inr err
  <-> config.ReadFile fs configPath = Some (config.YamlError err)
      \/ config.layerUsable fs configPath
         /\ config.ReadFile fs "local.yml" = Some (config.YamlError err).
Proof.
  unfold config.LoadConfig, config.loadLayer, config.layerUsable.
  destruct (config.ReadFile fs configPath) as [[e|m]|];
    cbn [config.yamlUnmarshal].
  - split.
    + intros [= ->]. by left.
    + intros [[= ->]|[Hok _]]; [reflexivity|]. by destruct (Hok e).
  - destruct (config.ReadFile fs "local.yml") as [[e'|m']|];
      cbn [config.yamlUnmarshal].
    + split.
      * intros [= ->]. right. split; [by intros e|reflexivity].
      * intros [[=]|[_ [= ->]]]. reflexivity.
    + split; [discriminate|]. by intros [[=]|[_ [=]]].
    + split; [discriminate|]. by intros [[=]|[_ [=]]].
  - destruct (config.ReadFile fs "local.yml") as [[e'|m']|];
      cbn [config.yamlUnmarshal].
    + split.
      * intros [= ->]. right. split; [by intros e|reflexivity].
      * intros [[=]|[_ [= ->]]]. reflexivity.
    + split; [discriminate|]. by intros [[=]|[_ [=]]].
    + split; [discriminate|]. by intros [[=]|[_ [=]]].
Qed.
